(** * Weather chat bot: intent classification, slot extraction and reply
      formatting ([nlp_engine.py]) and the daily part of the forecast bundle
      ([weather_service.py]), embedded as executable definitions.

    Conventions of the embedding.
    - A Python [str] is the list of its code points ([str := list N]); a
      literal is written [py "..."] and decoded from UTF-8.
    - A Python [float] is an IEEE-754 binary64 value, Stdlib's [spec_float];
      an [int] is a [Z].
    - A call that can raise returns a [result]; the exception is a value.
    - A dict or list that a call receives, creates or changes is an object
      of a store, at a reference ([Objects]); the calls on the store are
      compared with the functions on values.
    - What the source takes from the interpreter or from a library and that
      is not in the repository (Unicode tables, the Porter stemmer, the
      pickled classifier, VADER, the float-literal parser, the built-in
      [sum] on floats) is a Section variable or a field of [Process]. *)

From Stdlib Require Import ZArith NArith List String Ascii Bool Lia.
From Stdlib Require Import DecimalString.
From Stdlib Require Import Floats.SpecFloat.
From ExtLib Require Import Structures.Monad Data.Monads.StateMonad Structures.MonadState.
Import ListNotations.
Import MonadNotation.
Local Open Scope monad_scope.
Local Open Scope N_scope.

(* ------------------------------------------------------------------ *)
(** ** Python text *)

Definition str := list N.

(** UTF-8 decoding of a literal: [need] continuation bytes are still
    expected and [acc] holds the bits read so far. *)
Fixpoint utf8_decode (bs : list N) (need : nat) (acc : N) : str :=
  match bs with
  | [] => []
  | b :: bs' =>
      match need with
      | O =>
          if b <? 128 then b :: utf8_decode bs' 0 0
          else if b <? 224 then utf8_decode bs' 1 (b - 192)
          else if b <? 240 then utf8_decode bs' 2 (b - 224)
          else utf8_decode bs' 3 (b - 240)
      | S O => (acc * 64 + (b - 128)) :: utf8_decode bs' 0 0
      | S n => utf8_decode bs' n (acc * 64 + (b - 128))
      end
  end.

Definition py (s : string) : str :=
  utf8_decode (map N_of_ascii (list_ascii_of_string s)) 0 0.

Fixpoint str_eqb (a b : str) : bool :=
  match a, b with
  | [], [] => true
  | x :: a', y :: b' => (x =? y) && str_eqb a' b'
  | _, _ => false
  end.

(** [s.startswith(p)] *)
Fixpoint startswith (p s : str) : bool :=
  match p, s with
  | [], _ => true
  | x :: p', y :: s' => (x =? y) && startswith p' s'
  | _ :: _, [] => false
  end.

(** [x in t] on two strings: [x] occurs in [t] as a substring. *)
Fixpoint str_in (x t : str) : bool :=
  startswith x t || match t with [] => false | _ :: t' => str_in x t' end.

(** [any(x in t for x in cues)] *)
Definition any_in (cues : list str) (t : str) : bool :=
  existsb (fun x => str_in x t) cues.

(** [v in {...}] for a set literal of strings. *)
Definition mem (v : str) (vs : list str) : bool := existsb (str_eqb v) vs.

(** [sep.join(parts)] *)
Fixpoint join (sep : str) (parts : list str) : str :=
  match parts with
  | [] => []
  | [p] => p
  | p :: ps => p ++ sep ++ join sep ps
  end.

Definition is_ascii (c : N) : bool := c <? 128.
Definition is_upper (c : N) : bool := (65 <=? c) && (c <=? 90).
Definition is_lower (c : N) : bool := (97 <=? c) && (c <=? 122).
Definition is_digit (c : N) : bool := (48 <=? c) && (c <=? 57).
Definition ascii_lower (c : N) : N := if is_upper c then c + 32 else c.

(** Whitespace among the ASCII code points, as [str.isspace] and the
    regular-expression class [\s] have it: TAB..CR, FS..US and the space. *)
Definition ascii_space (c : N) : bool :=
  ((9 <=? c) && (c <=? 13)) || ((28 <=? c) && (c <=? 32)).

(* ------------------------------------------------------------------ *)
(** ** Exceptions *)

Inductive exn : Set := TypeError | ValueError | OverflowError.

Inductive result (A : Type) : Type :=
| Ok (a : A)
| Raise (e : exn).
Arguments Ok {A} a.
Arguments Raise {A} e.

#[global] Instance Monad_result : Monad result :=
  {| ret := @Ok;
     bind := fun _ _ c k => match c with Ok a => k a | Raise e => Raise e end |}.

Definition raises {A} (r : result A) : bool :=
  match r with Ok _ => false | Raise _ => true end.

(* ------------------------------------------------------------------ *)
(** ** Python numbers and the [f] presentation type *)

Definition float := spec_float.
Definition prec : Z := 53.
Definition emax : Z := 1024.

Inductive num : Type :=
| PyInt (z : Z)
| PyFloat (x : float).

(** [float(v)] on a number: an [int] is rounded to the nearest binary64,
    ties to even, and one too large for a binary64 raises. *)
Definition float_of_int (z : Z) : result float :=
  match binary_normalize prec emax z 0 false with
  | S754_infinity _ => Raise OverflowError
  | x => Ok x
  end.

Definition float_of_num (v : num) : result float :=
  match v with
  | PyInt z => float_of_int z
  | PyFloat x => Ok x
  end.

(** Decimal digits of a natural number, most significant first. *)
Definition digits (n : N) : str :=
  map N_of_ascii (list_ascii_of_string (NilZero.string_of_uint (N.to_uint n))).

(** The lowest [p] decimal digits of [n], padded with zeros on the left. *)
Fixpoint frac_digits (p : nat) (n : N) : str :=
  match p with
  | O => []
  | S p' => frac_digits p' (n / 10) ++ [48 + n mod 10]
  end.

(** [num / den] rounded to the nearest integer, ties to even. *)
Definition round_half_even (n d : N) : N :=
  let q := n / d in
  match N.compare (2 * (n mod d)) d with
  | Lt => q
  | Gt => q + 1
  | Eq => if N.even q then q else q + 1
  end.

(** [|x| * 10^p] rounded to an integer, for [|x| = m * 2^e]. The binary
    value is taken exactly, which is what the correctly rounded
    conversion of CPython does. *)
Definition scaled (p : nat) (m : positive) (e : Z) : N :=
  let n := Npos m * 10 ^ N.of_nat p in
  match e with
  | Zneg k => round_half_even n (2 ^ Npos k)
  | _ => n * 2 ^ Z.to_N e
  end.

Definition fixed (p : nat) (q : N) : str :=
  digits (q / 10 ^ N.of_nat p) ++
  match p with O => [] | _ => py "." ++ frac_digits p q end.

Definition sign (s : bool) : str := if s then py "-" else [].

(** [format(x, '.<p>f')] on a float. *)
Definition format_f (p : nat) (x : float) : str :=
  match x with
  | S754_nan => py "nan"
  | S754_infinity s => sign s ++ py "inf"
  | S754_zero s => sign s ++ fixed p 0
  | S754_finite s m e => sign s ++ fixed p (scaled p m e)
  end.

(** [f"{v:.<p>f}"] on a value that may be [None], an [int] or a [float]:
    [None] does not accept the format specification. *)
Definition format_num (p : nat) (v : option num) : result str :=
  match v with
  | None => Raise TypeError
  | Some n => x <- float_of_num n ;; ret (format_f p x)
  end.

Definition format_float (p : nat) (v : option float) : result str :=
  match v with
  | None => Raise TypeError
  | Some x => Ok (format_f p x)
  end.

(** The binary64 nearest to 21.46, 0.35 and -0.35. *)
Definition f21_46 : float := S754_finite false 6040453000210678 (-48).
Definition f0_35 : float := S754_finite false 6305039478318694 (-54).
Definition fneg0_35 : float := S754_finite true 6305039478318694 (-54).

(** 12.5, 18.0, 40.0 and the binary64 nearest to 1.2. *)
Definition f12_5 : float := S754_finite false 7036874417766400 (-49).
Definition f18_0 : float := S754_finite false 5066549580791808 (-48).
Definition f40_0 : float := S754_finite false 5629499534213120 (-47).
Definition f1_2 : float := S754_finite false 5404319552844595 (-52).


Definition finite (x : float) : bool :=
  match x with
  | S754_zero _ | S754_finite _ _ _ => true
  | _ => false
  end.

(** [t] is an optional minus sign, at least one digit and, when [p] is not
    zero, a point followed by exactly [p] digits. *)
Definition fixed_point (p : nat) (t : str) : Prop :=
  exists (s : bool) (ip fp : str),
    t = sign s ++ ip ++ match p with O => [] | S _ => py "." ++ fp end /\
    ip <> [] /\ forallb is_digit ip = true /\
    List.length fp = p /\ forallb is_digit fp = true.

(* ------------------------------------------------------------------ *)
(** ** Data model *)

(** The request record built by [interpret_message]. Intent, horizon,
    time of day and sentiment are strings, as in the source. *)
Record Parsed : Type := {
  intent : str;
  horizon : str;
  tod : option str;
  coords : option (float * float);
  location_label : option str;
  sentiment : option str;
  error : option str
}.

(** [bundle["current"]]: the provider's values as decoded from JSON, a
    number or [None]. Only the keys the formatter reads are kept. *)
Record Current : Type := {
  temperature_c : option num;
  humidity_pct : option num;
  rain_mm : option num;
  snow_mm : option num;
  wind_kmh : option num;
  weather_code : option Z
}.

(** An entry of [bundle["daily"]]. *)
Record Daily : Type := {
  date : str;
  tmax_c : option float;
  tmin_c : option float;
  d_weather_code : option Z;
  precip_prob_max : option float;
  d_rain_mm : option float;
  d_snow_mm : option float
}.

(** An entry of [bundle["hourly"]]; of its keys the formatter reads
    [date_offset], [hour], [precip_prob] and [rain_mm]. *)
Record Hourly : Type := {
  date_offset : Z;
  hour : Z;
  precip_prob : float;
  h_rain_mm : float
}.

Record Bundle : Type := {
  current : Current;
  daily : list Daily;
  hourly : list Hourly
}.

Definition WEATHER_INTENTS : list str :=
  [ py "temperature_now"; py "conditions_now"; py "wind_now";
    py "humidity_now"; py "rain_now"; py "snow_now";
    py "tomorrow_summary"; py "tomorrow_rain"; py "next3days_summary";
    py "week_summary"; py "help" ].

Definition _WEATHER_CODE : list (Z * str) :=
  [ (0, py "clear sky"); (1, py "mainly clear"); (2, py "partly cloudy");
    (3, py "overcast"); (45, py "fog"); (48, py "depositing rime fog");
    (51, py "light drizzle"); (53, py "moderate drizzle");
    (55, py "dense drizzle"); (56, py "freezing drizzle (light)");
    (57, py "freezing drizzle (dense)"); (61, py "slight rain");
    (63, py "moderate rain"); (65, py "heavy rain");
    (66, py "freezing rain (light)"); (67, py "freezing rain (heavy)");
    (71, py "slight snow fall"); (73, py "moderate snow fall");
    (75, py "heavy snow fall"); (77, py "snow grains");
    (80, py "rain showers (slight)"); (81, py "rain showers (moderate)");
    (82, py "rain showers (violent)"); (85, py "snow showers (slight)");
    (86, py "snow showers (heavy)"); (95, py "thunderstorm");
    (96, py "thunderstorm with hail (slight)");
    (99, py "thunderstorm with hail (heavy)") ]%Z.

(** [table.get(code, "unknown")]; [None] is not a key of the table. *)
Fixpoint code_get (table : list (Z * str)) (code : option Z) : str :=
  match table with
  | [] => py "unknown"
  | (k, v) :: rest =>
      match code with
      | Some c => if Z.eqb c k then v else code_get rest code
      | None => py "unknown"
      end
  end.

(** The module state of [nlp_engine], set at import time and shared by
    every call: the unpickled classifier, if the file was there and loaded,
    as its method [classify] on the feature keys ([None] when the call
    raises; a label is a string, a key of the training file); the VADER
    analyzer, if NLTK has it, as the compound score of a text; and the
    table of weather codes. *)
Record Process : Type := {
  _MODEL : option (list str -> option str);
  _SIA : option (str -> float);
  weather_table : list (Z * str)
}.

(** Every label the loaded classifier can answer is empty (and then
    ignored) or one of the eleven intents. *)
Definition labels_in_intents (g : Process) : Prop :=
  forall classifier feats label,
    _MODEL g = Some classifier -> classifier feats = Some label ->
    label = [] \/ In label WEATHER_INTENTS.

Definition _tod_hours (tod : option str) : option (Z * Z) :=
  match tod with
  | None => None
  | Some t =>
      if str_eqb t (py "morning") then Some (6, 12)%Z
      else if str_eqb t (py "afternoon") then Some (12, 18)%Z
      else if str_eqb t (py "evening") then Some (18, 24)%Z
      else if str_eqb t (py "night") then Some (0, 6)%Z
      else None
  end.

(* ------------------------------------------------------------------ *)
(** ** Reply formatting: [format_weather_reply] *)

Definition nl : str := [10].
Definition dquote : str := [34].

Definition NOW_INTENTS : list str :=
  [ py "temperature_now"; py "conditions_now"; py "wind_now";
    py "humidity_now"; py "rain_now"; py "snow_now" ].

Definition TONE_PREFIX : str := py "I’ve got you — ".

Definition TOMORROW_FALLBACK : str :=
  py "I couldn't get tomorrow's forecast right now. Please try again.".
Definition NEXT3DAYS_FALLBACK : str :=
  py "I couldn't get the next 3 days right now. Please try again.".
Definition WEEK_FALLBACK : str :=
  py "I couldn't get the weekly forecast right now. Please try again.".

Definition HELP_MESSAGE : str :=
  py "You can ask about:" ++ nl ++
  py "- temperature, conditions (sunny/cloudy), wind, humidity, rain/snow" ++ nl ++
  py "- tomorrow’s forecast, next 3 days, or weekly outlook" ++ nl ++ nl ++
  py "Examples:" ++ nl ++
  py "• *What's the wind speed in Tokyo?*" ++ nl ++
  py "• *Will it rain in Lisbon tomorrow morning?*" ++ nl ++
  py "• *3-day forecast for New York*".

Definition DEFAULT_FALLBACK : str :=
  py "I can help with weather like temperature, conditions, wind, humidity, rain/snow, " ++
  py "and forecasts (tomorrow / 3-day / week). Try: **'weather in Berlin'**.".

(** [f"{v}"] on an optional string. *)
Definition str_of (v : option str) : str :=
  match v with Some s => s | None => py "None" end.

(** [tone_prefix], from [parsed.get(sentiment)]. *)
Definition tone_prefix (sent : option str) : str :=
  match sent with
  | Some s => if str_eqb s (py "negative") then TONE_PREFIX else []
  | None => []
  end.

(** [if v is not None: parts.append(f"{pre}{v:.<p>f}{suf}")] *)
Definition append_reading (p : nat) (v : option num) (pre suf : str)
    (parts : list str) : result (list str) :=
  match v with
  | None => ret parts
  | Some _ => t <- format_num p v ;; ret (parts ++ [pre ++ t ++ suf])
  end.

(** The bulleted block of the first branch, before it is joined. *)
Definition now_parts (table : list (Z * str)) (intent : str) (cur : Current)
    (label : str) : result (list str) :=
  let parts := [py "**" ++ label ++ py "** right now:"] in
  parts <-
    (if mem intent [py "temperature_now"; py "conditions_now"] then
       let desc := code_get table (weather_code cur) in
       parts <- append_reading 1 (temperature_c cur)
                  (py "- Temperature: **") (py "°C**") parts ;;
       ret (parts ++ [py "- Conditions: **" ++ desc ++ py "**"])
     else ret parts) ;;
  parts <-
    (if str_eqb intent (py "wind_now") then
       append_reading 0 (wind_kmh cur) (py "- Wind: **") (py " km/h**") parts
     else ret parts) ;;
  parts <-
    (if str_eqb intent (py "humidity_now") then
       append_reading 0 (humidity_pct cur) (py "- Humidity: **") (py "%**") parts
     else ret parts) ;;
  parts <-
    (if str_eqb intent (py "rain_now") then
       append_reading 1 (rain_mm cur)
         (py "- Rain (last hour): **") (py " mm**") parts
     else ret parts) ;;
  (if str_eqb intent (py "snow_now") then
     append_reading 1 (snow_mm cur)
       (py "- Snowfall (last hour): **") (py " mm**") parts
   else ret parts).

(** The sentence returned for [intent == "tomorrow_rain"]. *)
Definition tomorrow_rain_msg (label : str) (d : Daily) : str :=
  let msg := py "**" ++ label ++ py "** tomorrow (" ++ date d ++ py "): " in
  let msg :=
    match precip_prob_max d with
    | Some pop =>
        msg ++ py "precipitation probability up to **" ++ format_f 0 pop ++ py "%**. "
    | None => msg
    end in
  match d_rain_mm d with
  | Some rain => msg ++ py "expected rain ≈ **" ++ format_f 1 rain ++ py " mm**."
  | None => msg
  end.

(** The full summary of tomorrow; every replacement field carries a
    format specification, so a [None] raises. *)
Definition tomorrow_summary (table : list (Z * str)) (label : str) (d : Daily)
    : result str :=
  let desc := code_get table (d_weather_code d) in
  tmin <- format_float 1 (tmin_c d) ;;
  tmax <- format_float 1 (tmax_c d) ;;
  rain <- format_float 1 (d_rain_mm d) ;;
  snow <- format_float 1 (d_snow_mm d) ;;
  pop <- format_float 0 (precip_prob_max d) ;;
  ret (py "**" ++ label ++ py "** tomorrow (" ++ date d ++ py "): **" ++ desc ++ py "**" ++ nl ++
       py "- Min/Max: **" ++ tmin ++ py "°C / " ++ tmax ++ py "°C**" ++ nl ++
       py "- Rain: **" ++ rain ++ py " mm**, Snow: **" ++ snow ++ py " mm**" ++ nl ++
       py "- Precip. probability (max): **" ++ pop ++ py "%**").

Definition next3days_line (table : list (Z * str)) (d : Daily) : result str :=
  let desc := code_get table (d_weather_code d) in
  tmin <- format_float 1 (tmin_c d) ;;
  tmax <- format_float 1 (tmax_c d) ;;
  rain <- format_float 1 (d_rain_mm d) ;;
  ret (py "- " ++ date d ++ py ": " ++ desc ++ py ", " ++ tmin ++ py "–" ++ tmax ++
       py "°C, rain " ++ rain ++ py " mm").

Definition week_line (table : list (Z * str)) (d : Daily) : result str :=
  let desc := code_get table (d_weather_code d) in
  tmin <- format_float 1 (tmin_c d) ;;
  tmax <- format_float 1 (tmax_c d) ;;
  ret (py "- " ++ date d ++ py ": " ++ desc ++ py ", " ++ tmin ++ py "–" ++ tmax ++ py "°C").

(** [for d in ...: lines.append(line(d))], stopping at the first raise. *)
Fixpoint append_lines (line : Daily -> result str) (ds : list Daily)
    (lines : list str) : result (list str) :=
  match ds with
  | [] => ret lines
  | d :: ds' => l <- line d ;; append_lines line ds' (lines ++ [l])
  end.

Section Formatter.

(** The built-in [sum] on a non-empty list of floats (its rounding is the
    interpreter's: plain left-to-right additions before Python 3.12,
    compensated from 3.12 on). *)
Variable fsum : list float -> float.

(** [[h for h in hourly if h["date_offset"] == 1 and start <= h["hour"] < end]] *)
Definition window (hours : Z * Z) (hourly : list Hourly) : list Hourly :=
  let '(start, stop) := hours in
  filter (fun h => (date_offset h =? 1)%Z && (start <=? hour h)%Z && (hour h <? stop)%Z)
         hourly.

Definition window_msg (label t : str) (vals : list Hourly) : result str :=
  n <- float_of_int (Z.of_nat (List.length vals)) ;;
  let pop_avg := SFdiv prec emax (fsum (map precip_prob vals)) n in
  let rain_sum := fsum (map h_rain_mm vals) in
  ret (py "**" ++ label ++ py "** tomorrow " ++ t ++ py ": " ++
       py "avg precip prob ~ **" ++ format_f 0 pop_avg ++
       py "%**, rain sum ~ **" ++ format_f 1 rain_sum ++ py " mm**.").

(** The branch [horizon == "tomorrow"] once [daily[1]] exists. *)
Definition tomorrow_reply (table : list (Z * str)) (parsed : Parsed)
    (hourly : list Hourly) (label : str) (d : Daily) : result str :=
  let pre := tone_prefix (sentiment parsed) in
  if str_eqb (intent parsed) (py "tomorrow_rain") then
    ret (pre ++ tomorrow_rain_msg label d)
  else
    let summary := s <- tomorrow_summary table label d ;; ret (pre ++ s) in
    match _tod_hours (tod parsed), hourly with
    | Some hours, _ :: _ =>
        match window hours hourly with
        | [] => summary
        | vals => s <- window_msg label (str_of (tod parsed)) vals ;; ret (pre ++ s)
        end
    | _, _ => summary
    end.

(** [table] stands for the module's [_WEATHER_CODE]. *)
Definition format_weather_reply (table : list (Z * str)) (parsed : Parsed)
    (bundle : Bundle) (label : str) : result str :=
  let intent := intent parsed in
  let horizon := horizon parsed in
  let pre := tone_prefix (sentiment parsed) in
  if mem intent NOW_INTENTS && str_eqb horizon (py "now") then
    parts <- now_parts table intent (current bundle) label ;;
    ret (pre ++ join nl parts)
  else if str_eqb horizon (py "tomorrow") then
    match daily bundle with
    | _ :: d :: _ => tomorrow_reply table parsed (hourly bundle) label d
    | _ => ret TOMORROW_FALLBACK
    end
  else if str_eqb horizon (py "next3days") then
    if (List.length (daily bundle) <? 3)%nat then ret NEXT3DAYS_FALLBACK
    else
      lines <- append_lines (next3days_line table) (firstn 3 (daily bundle))
                 [py "**" ++ label ++ py "** – next 3 days:"] ;;
      ret (pre ++ join nl lines)
  else if str_eqb horizon (py "week") then
    if (List.length (daily bundle) <? 7)%nat then ret WEEK_FALLBACK
    else
      lines <- append_lines (week_line table) (firstn 7 (daily bundle))
                 [py "**" ++ label ++ py "** – 7-day outlook:"] ;;
      ret (pre ++ join nl lines)
  else if str_eqb intent (py "help") then ret HELP_MESSAGE
  else ret DEFAULT_FALLBACK.

End Formatter.

(* ------------------------------------------------------------------ *)
(** ** Interpretation of a message: text operations, classifier, slots *)

Section Engine.

(** What the interpreter's Unicode database decides, none of it in the
    repository: [str.lower] on a text that is not pure ASCII, and for a
    code point from 128 on whether it is whitespace, whether it is a word
    character, and which ASCII letters it equals when case is ignored. *)
Variable u_lower : str -> str.
Variable u_space : N -> bool.
Variable u_word : N -> bool.
Variable u_fold : N -> list N.

(** [t.lower()] *)
Definition lower (t : str) : str :=
  if forallb is_ascii t then map ascii_lower t else u_lower t.

Definition space (c : N) : bool :=
  if is_ascii c then ascii_space c else u_space c.

Definition word (c : N) : bool :=
  if is_ascii c then is_upper c || is_lower c || is_digit c || (c =? 95)
  else u_word c.

Fixpoint lstrip (t : str) : str :=
  match t with
  | c :: t' => if space c then lstrip t' else t
  | [] => []
  end.

(** [t.strip()] *)
Definition strip (t : str) : str := rev (lstrip (rev (lstrip t))).

(** [len(t.split())]: the number of maximal runs without whitespace;
    [inside] tells whether the previous character was in such a run. *)
Fixpoint count_fields (inside : bool) (t : str) : nat :=
  match t with
  | [] => O
  | c :: t' =>
      if space c then count_fields false t'
      else if inside then count_fields true t'
      else S (count_fields true t')
  end.

(** *** Regular expressions, matched as [re.search] does: leftmost
    start, alternatives and greedy repetitions tried in order with
    backtracking. *)

Inductive cset : Type :=
| CRange (lo hi : N)
| CChar (c : N)
| CSpace.

Inductive regex : Type :=
| REps
| RChar (c : N)
| RSet (items : list cset)
| RSeq (r1 r2 : regex)
| RAlt (r1 r2 : regex)
| RRep (r : regex) (lo : nat) (hi : option nat)
| RGroup (r : regex)
| RBoundary
| REnd.

Definition item_match (c : N) (it : cset) : bool :=
  match it with
  | CRange lo hi => (lo <=? c) && (c <=? hi)
  | CChar x => c =? x
  | CSpace => space c
  end.

(** The characters [c] counts as when the pattern ignores case. *)
Definition variants (c : N) : list N :=
  if is_upper c then [c; c + 32]
  else if is_lower c then [c; c - 32]
  else if is_ascii c then [c]
  else c :: u_fold c.

Definition char_ok (icase : bool) (test : N -> bool) (c : N) : bool :=
  if icase then existsb test (variants c) else test c.

(** Position in the subject and the span of group 1. *)
Definition mstate : Type := nat * option (nat * nat).

Section Match.

Variable icase : bool.
Variable s : str.

Definition word_at (i : nat) : bool :=
  match nth_error s i with Some c => word c | None => false end.

(** [\b] at position [i] *)
Definition boundary (i : nat) : bool :=
  xorb (match i with O => false | S j => word_at j end) (word_at i).

(** [$] without MULTILINE: the end, or just before a final newline. *)
Definition at_end (i : nat) : bool :=
  (i =? List.length s)%nat ||
  ((S i =? List.length s)%nat &&
   match nth_error s i with Some c => c =? 10 | None => false end).

Definition step (test : N -> bool) (st : mstate)
    (k : mstate -> option mstate) : option mstate :=
  match nth_error s (fst st) with
  | Some c => if char_ok icase test c then k (S (fst st), snd st) else None
  | None => None
  end.

(** A repetition without upper bound is cut at [length s] rounds: every
    repeated sub-pattern below consumes a character per round. *)
Fixpoint rmatch (r : regex) (st : mstate) (k : mstate -> option mstate)
    {struct r} : option mstate :=
  match r with
  | REps => k st
  | RChar c => step (N.eqb c) st k
  | RSet items => step (fun x => existsb (item_match x) items) st k
  | RSeq r1 r2 => rmatch r1 st (fun st' => rmatch r2 st' k)
  | RAlt r1 r2 =>
      match rmatch r1 st k with
      | Some m => Some m
      | None => rmatch r2 st k
      end
  | RRep r' lo hi =>
      (fix rounds (more : nat) (lo : nat) (st : mstate) {struct more}
         : option mstate :=
         let stop := match lo with O => k st | S _ => None end in
         match more with
         | O => stop
         | S more' =>
             match rmatch r' st (fun st' => rounds more' (pred lo) st') with
             | Some m => Some m
             | None => stop
             end
         end)
        (match hi with Some h => h | None => List.length s end) lo st
  | RGroup r' =>
      rmatch r' st (fun st' => k (fst st', Some (fst st, fst st')))
  | RBoundary => if boundary (fst st) then k st else None
  | REnd => if at_end (fst st) then k st else None
  end.

Fixpoint search_from (r : regex) (starts : list nat) : option mstate :=
  match starts with
  | [] => None
  | i :: rest =>
      match rmatch r (i, None) Some with
      | Some m => Some m
      | None => search_from r rest
      end
  end.

(** [re.search(r, s)] *)
Definition search (r : regex) : option mstate :=
  search_from r (seq 0 (S (List.length s))).

(** [m.group(1)]; group 1 is on every path of the patterns below. *)
Definition group1 (m : mstate) : str :=
  match snd m with
  | Some (a, b) => firstn (b - a) (skipn a s)
  | None => []
  end.

End Match.

Definition lit (w : string) : regex :=
  fold_right (fun c r => RSeq (RChar c) r) REps (py w).

Definition place_chars : regex :=
  RSet [CRange 97 122; CRange 65 90; CSpace; CChar 44; CChar 46; CChar 39; CChar 45].
Definition spaces1 : regex := RRep (RSet [CSpace]) 1 None.
Definition spaces0 : regex := RRep (RSet [CSpace]) 0 None.
(** [[A-Z][a-z]+] *)
Definition cap_word : regex :=
  RSeq (RSet [CRange 65 90]) (RRep (RSet [CRange 97 122]) 1 None).

(** [\b(?:in|at|for)\s+([a-zA-Z\s,.'-]{2,})$] *)
Definition RE_PREPOSITION : regex :=
  RSeq RBoundary
    (RSeq (RAlt (lit "in") (RAlt (lit "at") (lit "for")))
       (RSeq spaces1 (RSeq (RGroup (RRep place_chars 2 None)) REnd))).

(** [\bweather\s+in\s+([a-zA-Z\s,.'-]{2,})] *)
Definition RE_WEATHER_IN : regex :=
  RSeq RBoundary
    (RSeq (lit "weather")
       (RSeq spaces1 (RSeq (lit "in")
          (RSeq spaces1 (RGroup (RRep place_chars 2 None)))))).

(** [([A-Z][a-z]+(?:\s+[A-Z][a-z]+){0,3}(?:\s*,\s*[A-Z][a-z]+)?)\s*$] *)
Definition RE_CAPITALIZED : regex :=
  RSeq
    (RGroup
       (RSeq cap_word
          (RSeq (RRep (RSeq spaces1 cap_word) 0 (Some 3%nat))
             (RRep (RSeq spaces0 (RSeq (RChar 44) (RSeq spaces0 cap_word)))
                0 (Some 1%nat)))))
    (RSeq spaces0 REnd).

(* ---------------------------------------------------------------- *)
(** *** Intent classification *)

Definition _MIN_STOP : list str :=
  map py
    [ "a"; "an"; "the"; "is"; "are"; "was"; "were"; "in"; "on"; "at"; "to";
      "for"; "of"; "and"; "or"; "please"; "tell"; "me"; "what"; "whats";
      "what's"; "give"; "show"; "can"; "could"; "will" ]%string.

(** [re.findall(r"[a-zA-Z']+", text.lower())]: the maximal runs of
    letters and apostrophes; [cur] is the run being read, reversed. *)
Definition token_char (c : N) : bool :=
  is_lower c || is_upper c || (c =? 39).

Fixpoint runs (cur : str) (t : str) : list str :=
  match t with
  | [] => match cur with [] => [] | _ => [rev cur] end
  | c :: t' =>
      if token_char c then runs (c :: cur) t'
      else match cur with [] => runs [] t' | _ => rev cur :: runs [] t' end
  end.

Definition _tokenize (text : str) : list str := runs [] (lower text).

(** [PorterStemmer().stem], from NLTK. *)
Variable stem : str -> str.

Definition _preprocess (text : str) : list str :=
  map stem (filter (fun t => negb (mem t _MIN_STOP)) (_tokenize text)).

(** [{t: True for t in tokens}]: the keys, each once, in the order of
    their first occurrence. *)
Fixpoint _features_from_tokens (tokens : list str) : list str :=
  match tokens with
  | [] => []
  | t :: ts => t :: filter (fun u => negb (str_eqb u t)) (_features_from_tokens ts)
  end.

Definition _predict_intent_ml (g : Process) (text : str) : option str :=
  match _MODEL g with
  | None => None
  | Some classify =>
      let tokens := _preprocess text in
      let feats := _features_from_tokens tokens in
      classify feats
  end.

Definition _predict_intent_rules (text : str) : str :=
  let t := lower text in
  if any_in (map py ["help"; "what can you do"; "commands"; "examples"]%string) t
  then py "help"
  else
    let has_tomorrow := str_in (py "tomorrow") t in
    let has_week :=
      any_in (map py ["this week"; "next 7"; "7 day"; "week forecast"; "weekly"]%string) t in
    let has_3day :=
      any_in (map py ["next 3"; "3 day"; "three day"; "next three"]%string) t in
    if any_in (map py ["temperature"; "temp"; "how hot"; "how cold"; "degrees"]%string) t
    then py "temperature_now"
    else if any_in (map py ["wind"; "windy"; "gust"]%string) t
    then py "wind_now"
    else if any_in (map py ["humidity"; "humid"]%string) t
    then py "humidity_now"
    else if any_in (map py ["snow"; "snowfall"]%string) t
    then (if negb has_tomorrow then py "snow_now" else py "tomorrow_summary")
    else if any_in (map py ["rain"; "raining"; "precip"; "shower"]%string) t
    then (if has_tomorrow then py "tomorrow_rain" else py "rain_now")
    else if any_in (map py ["condition"; "weather like"; "sunny"; "cloudy";
                            "clear"; "overcast"]%string) t
    then py "conditions_now"
    else if has_tomorrow then py "tomorrow_summary"
    else if has_3day then py "next3days_summary"
    else if has_week then py "week_summary"
    else py "conditions_now".

(** [a or b] on optional strings: [None] and the empty string are false. *)
Definition truthy (v : option str) : bool :=
  match v with Some (_ :: _) => true | _ => false end.

Definition py_or (a b : option str) : option str :=
  if truthy a then a else b.

(** [_predict_intent_ml(msg) or _predict_intent_rules(msg)] *)
Definition predict_intent (g : Process) (msg : str) : str :=
  let label := _predict_intent_ml g msg in
  if truthy label then str_of label else _predict_intent_rules msg.

(* ---------------------------------------------------------------- *)
(** *** Slots *)

Definition TEMPORAL_WORDS : list str :=
  map py ["tomorrow"; "today"; "week"; "morning"; "evening"]%string.

Definition _extract_location (text : str) : option str :=
  let stripped := strip text in
  match search true stripped RE_PREPOSITION with
  | Some m => Some (strip (group1 stripped m))
  | None =>
      match search true text RE_WEATHER_IN with
      | Some m => Some (strip (group1 text m))
      | None =>
          match search false text RE_CAPITALIZED with
          | Some m =>
              if (2 <=? count_fields false text)%nat then
                let guess := strip (group1 text m) in
                if negb (mem (lower guess) TEMPORAL_WORDS) then Some guess
                else None
              else None
          | None => None
          end
      end
  end.

Definition _extract_time_window (text : str) : str * option str :=
  let t := lower text in
  let horizon :=
    if str_in (py "tomorrow") t then py "tomorrow"
    else if any_in (map py ["next 3"; "3 day"; "three day"]%string) t then py "next3days"
    else if any_in (map py ["week"; "7 day"; "next 7"]%string) t then py "week"
    else py "now" in
  let tod :=
    if str_in (py "morning") t then Some (py "morning")
    else if str_in (py "afternoon") t then Some (py "afternoon")
    else if str_in (py "evening") t then Some (py "evening")
    else if str_in (py "night") t then Some (py "night")
    else None in
  (horizon, tod).

Definition _sentiment (g : Process) (text : str) : option str :=
  match _SIA g with
  | None => None
  | Some compound =>
      let s := compound text in
      if SFleb f0_35 s then Some (py "positive")
      else if SFleb s fneg0_35 then Some (py "negative")
      else Some (py "neutral")
  end.

(* ---------------------------------------------------------------- *)
(** *** [interpret_message] *)

(** A value of the request payload, as decoded from JSON. *)
Inductive pyval : Type :=
| VNone
| VBool (b : bool)
| VNum (n : num)
| VStr (s : str)
| VOther.

(** [float(s)] on a string: the literal it denotes, if it is one. *)
Variable float_of_text : str -> option float.

(** [float(v)] *)
Definition py_float (v : pyval) : result float :=
  match v with
  | VNone => Raise TypeError
  | VBool b => float_of_int (if b then 1 else 0)
  | VNum n => float_of_num n
  | VStr s =>
      match float_of_text s with
      | Some x => Ok x
      | None => Raise ValueError
      end
  | VOther => Raise TypeError
  end.

Definition is_none (v : pyval) : bool :=
  match v with VNone => true | _ => false end.

(** The line of the source reads as one string with the example in
    straight double quotes. *)
Definition LOCATION_PROMPT : str :=
  py "Which location should I use? Example: **" ++ dquote ++
  py "Will it rain in Lisbon tomorrow morning?" ++ dquote ++ py "**".

Definition read_coords (lat lon : pyval) : option (float * float) :=
  if negb (is_none lat) && negb (is_none lon) then
    match (a <- py_float lat ;; b <- py_float lon ;; ret (a, b)) with
    | Ok c => Some c
    | Raise _ => None
    end
  else None.

Definition interpret_message (g : Process) (message : option str)
    (last_location : option str) (lat lon : pyval) : Parsed :=
  let msg := strip (match message with Some m => m | None => [] end) in
  let coords := read_coords lat lon in
  let location := py_or (_extract_location msg) last_location in
  let '(horizon, tod) := _extract_time_window msg in
  let intent := predict_intent g msg in
  if negb (match coords with Some _ => true | None => false end)
     && negb (truthy location)
  then
    {| intent := intent; horizon := horizon; tod := tod; coords := None;
       location_label := None; sentiment := _sentiment g msg;
       error := Some LOCATION_PROMPT |}
  else
    {| intent := intent; horizon := horizon; tod := tod; coords := coords;
       location_label := location; sentiment := _sentiment g msg;
       error := None |}.

End Engine.

(* ------------------------------------------------------------------ *)
(** ** The daily part of [_parse_bundle] ([weather_service.py]) *)

(** [js["daily"]] as the provider sends it: parallel arrays whose entries
    are numbers or [null]. *)
Record DailyJson : Type := {
  time : list str;
  temperature_2m_max : list (option num);
  temperature_2m_min : list (option num);
  j_weather_code : list (option Z);
  precipitation_probability_max : list (option num);
  rain_sum : list (option num);
  snowfall_sum : list (option num)
}.

(** [float(xs[i]) if i < len(xs) and xs[i] is not None else dflt] *)
Definition float_at (xs : list (option num)) (i : nat) (dflt : option float)
    : result (option float) :=
  match nth_error xs i with
  | Some (Some v) => x <- float_of_num v ;; ret (Some x)
  | _ => ret dflt
  end.

Definition int_at (xs : list (option Z)) (i : nat) : option Z :=
  match nth_error xs i with
  | Some (Some v) => Some v
  | _ => None
  end.

Definition daily_entry (js : DailyJson) (i : nat) (d : str) : result Daily :=
  tmax <- float_at (temperature_2m_max js) i None ;;
  tmin <- float_at (temperature_2m_min js) i None ;;
  pop <- float_at (precipitation_probability_max js) i None ;;
  rain <- float_at (rain_sum js) i (Some (S754_zero false)) ;;
  snow <- float_at (snowfall_sum js) i (Some (S754_zero false)) ;;
  ret {| date := d; tmax_c := tmax; tmin_c := tmin;
         d_weather_code := int_at (j_weather_code js) i;
         precip_prob_max := pop; d_rain_mm := rain; d_snow_mm := snow |}.

(** [for i in range(min(len(dates), 7)): daily_list.append({...})] *)
Fixpoint daily_from (js : DailyJson) (i : nat) (dates : list str) (n : nat)
    : result (list Daily) :=
  match n, dates with
  | S n', d :: dates' =>
      e <- daily_entry js i d ;;
      rest <- daily_from js (S i) dates' n' ;;
      ret (e :: rest)
  | _, _ => ret []
  end.

Definition daily_list (js : DailyJson) : result (list Daily) :=
  daily_from js 0 (time js) (Nat.min (List.length (time js)) 7).

(* ------------------------------------------------------------------ *)
(** ** Concrete runtime used to run the definitions on ASCII inputs *)

(** Left-to-right float additions from the integer 0. *)
Definition fsum_seq (xs : list float) : float :=
  fold_left (SFadd prec emax) xs (S754_zero false).

Definition no_lower (t : str) : str := t.
Definition no_class (c : N) : bool := false.
Definition no_fold (c : N) : list N := [].
Definition no_stem (t : str) : str := t.
Definition no_float (t : str) : option float := None.

(** A process without trained model and without sentiment analyzer. *)
Definition bare_process : Process :=
  {| _MODEL := None; _SIA := None; weather_table := _WEATHER_CODE |}.

Definition run_interpret : Process -> option str -> option str -> pyval -> pyval -> Parsed :=
  interpret_message no_lower no_class no_class no_fold no_stem no_float.

(** The daily arrays of a provider answer whose second minimum
    temperature is [null]. *)
Definition null_tmin_json : DailyJson :=
  {| time := [py "2024-05-01"; py "2024-05-02"];
     temperature_2m_max := [Some (PyFloat f18_0); Some (PyFloat f18_0)];
     temperature_2m_min := [Some (PyFloat f12_5); None];
     j_weather_code := [Some 61%Z; Some 61%Z];
     precipitation_probability_max := [Some (PyInt 40); Some (PyInt 40)];
     rain_sum := [Some (PyFloat f1_2); Some (PyFloat f1_2)];
     snowfall_sum := [Some (PyInt 0); Some (PyInt 0)] |}.

(** A process whose classifier answers [help] on every text, and one whose
    classifier was trained with a label that is not an intent. *)
Definition help_process : Process :=
  {| _MODEL := Some (fun _ => Some (py "help")); _SIA := None;
     weather_table := _WEATHER_CODE |}.

Definition greeting_process : Process :=
  {| _MODEL := Some (fun _ => Some (py "greeting")); _SIA := None;
     weather_table := _WEATHER_CODE |}.

(** Sample data: a day with every field present and a week of it. *)

Definition full_day : Daily :=
  {| date := py "2024-05-02"; tmax_c := Some f18_0; tmin_c := Some f12_5;
     d_weather_code := Some 61%Z; precip_prob_max := Some f40_0;
     d_rain_mm := Some f1_2; d_snow_mm := Some (S754_zero false) |}.

Definition no_readings : Current :=
  {| temperature_c := None; humidity_pct := None; rain_mm := None;
     snow_mm := None; wind_kmh := None; weather_code := None |}.

Definition week_bundle : Bundle :=
  {| current := no_readings; daily := repeat full_day 7; hourly := [] |}.

Definition short_bundle : Bundle :=
  {| current := no_readings; daily := repeat full_day 3; hourly := [] |}.

Definition mild_day : Current :=
  {| temperature_c := Some (PyFloat f21_46); humidity_pct := Some (PyInt 65);
     rain_mm := Some (PyFloat (S754_zero false)); snow_mm := None;
     wind_kmh := Some (PyFloat f12_5); weather_code := Some 3%Z |}.

(* ================================================================== *)
(** * Further model: helpers of the properties, the rest of the service and the endpoint *)

(** The request with its sentiment removed. *)
Definition without_sentiment (p : Parsed) : Parsed :=
  {| intent := intent p; horizon := horizon p; tod := tod p; coords := coords p;
     location_label := location_label p; sentiment := None; error := error p |}.

(** A reply with a lead-in put in front, an exception left as it is. *)
Definition with_lead (lead : str) (r : result str) : result str :=
  match r with Ok s => Ok (lead ++ s) | Raise e => Raise e end.
(** The request with its time of day removed. *)
Definition without_tod (p : Parsed) : Parsed :=
  {| intent := intent p; horizon := horizon p; tod := None; coords := coords p;
     location_label := location_label p; sentiment := sentiment p; error := error p |}.

(** The five readings of the current block. *)
Definition readings (cur : Current) : list (option num) :=
  [temperature_c cur; wind_kmh cur; humidity_pct cur; rain_mm cur; snow_mm cur].

(** A reading that [float] accepts, or none. *)
Definition convertible (v : option num) : bool :=
  match v with
  | Some n => negb (raises (float_of_num n))
  | None => true
  end.

(** The day has both temperatures; the day has every value the summary of
    tomorrow prints. *)
Definition has_temps (d : Daily) : bool :=
  match tmin_c d, tmax_c d with Some _, Some _ => true | _, _ => false end.

Definition has_rain (d : Daily) : bool :=
  match d_rain_mm d with Some _ => true | None => false end.

Definition complete_day (d : Daily) : bool :=
  has_temps d && has_rain d &&
  match d_snow_mm d, precip_prob_max d with Some _, Some _ => true | _, _ => false end.
(** The entry of a provider array at [i] is missing: the array is too
    short or holds [null] there. *)
Definition absent_at {A : Type} (xs : list (option A)) (i : nat) : bool :=
  match nth_error xs i with
  | Some (Some _) => false
  | _ => true
  end.
(* ------------------------------------------------------------------ *)
(** ** The rest of [_parse_bundle]: current and hourly readings *)

(** [s.split(c)[0]], the text before the first [c], and the text after it. *)
Fixpoint before (c : N) (s : str) : str :=
  match s with
  | [] => []
  | x :: s' => if x =? c then [] else x :: before c s'
  end.

Fixpoint after (c : N) (s : str) : str :=
  match s with
  | [] => []
  | x :: s' => if x =? c then s' else after c s'
  end.

(** [s.split(c)] for a separator of one character. *)
Fixpoint split_on (c : N) (s : str) : list str :=
  match s with
  | [] => [[]]
  | x :: s' =>
      if x =? c then [] :: split_on c s'
      else match split_on c s' with
           | p :: ps => (x :: p) :: ps
           | [] => [[x]]
           end
  end.

(** The number a run of ASCII digits denotes. *)
Definition digits_value (s : str) : Z :=
  fold_left (fun a c => 10 * a + Z.of_N (c - 48))%Z s 0%Z.

(** [date(y, m, d).toordinal()], when the three numbers are a date. *)
Definition is_leap (y : Z) : bool :=
  ((y mod 4 =? 0) && (negb (y mod 100 =? 0) || (y mod 400 =? 0)))%Z.

Definition days_in_month (y m : Z) : Z :=
  (if m =? 2 then (if is_leap y then 29 else 28)
   else if (m =? 4) || (m =? 6) || (m =? 9) || (m =? 11) then 30
   else 31)%Z.

Definition days_before_year (y : Z) : Z :=
  (let y' := y - 1 in y' * 365 + y' / 4 - y' / 100 + y' / 400)%Z.

Definition days_before_month (y m : Z) : Z :=
  fold_left (fun a k => a + days_in_month y (Z.of_nat k))%Z
            (seq 1 (Z.to_nat m - 1)) 0%Z.

Definition date_ordinal (ymd : Z * Z * Z) : option Z :=
  let '(y, m, d) := ymd in
  if ((1 <=? y) && (y <=? 9999) && (1 <=? m) && (m <=? 12)
      && (1 <=? d) && (d <=? days_in_month y m))%Z
  then Some (days_before_year y + days_before_month y m + d)%Z
  else None.

(** [js["current"]] and [js["hourly"]] as the provider sends them; a
    missing object is the one without keys. Of [current] the keys that
    the bundle's readers use are kept. *)
Record CurrentJson : Type := {
  temperature_2m : option num;
  relative_humidity_2m : option num;
  rain : option num;
  snowfall : option num;
  wind_speed_10m : option num;
  c_weather_code : option Z;
  c_time : option str
}.

Record HourlyJson : Type := {
  h_time : list str;
  precipitation_probability : list (option num);
  h_rain : list (option num);
  h_snowfall : list (option num);
  h_weather_code : list (option Z);
  h_wind_speed_10m : list (option num);
  h_relative_humidity_2m : list (option num)
}.

Record ForecastJson : Type := {
  j_current : CurrentJson;
  j_daily : DailyJson;
  j_hourly : HourlyJson
}.

Definition nonempty (s : str) : bool :=
  match s with [] => false | _ :: _ => true end.

Definition char_T : N := 84.
Definition char_colon : N := 58.
Definition char_dash : N := 45.

Section ParseBundle.

(** [int(s)] on a text that is not a run of at most 4300 ASCII digits
    (a sign, blanks, underscores, other digits, or a longer run, which
    the interpreter may refuse). *)
Variable int_of_text : str -> option Z.

(** [int(s)] *)
Definition py_int (s : str) : option Z :=
  if nonempty s && forallb is_digit s && (List.length s <=? 4300)%nat
  then Some (digits_value s)
  else int_of_text s.

(** [iso.split("T")[0] if "T" in iso else iso[:10]] *)
Definition date_part (iso : str) : str :=
  if str_in (py "T") iso then before char_T iso else firstn 10 iso.

(** [int(iso.split("T")[1].split(":")[0]) if "T" in iso else 0] *)
Definition hour_part (iso : str) : result Z :=
  if str_in (py "T") iso then
    match py_int (before char_colon (before char_T (after char_T iso))) with
    | Some h => Ok h
    | None => Raise ValueError
    end
  else Ok 0%Z.

(** [y, m, d = map(int, s.split("-"))] *)
Definition ymd (s : str) : option (Z * Z * Z) :=
  match split_on char_dash s with
  | [a; b; c] =>
      match py_int a, py_int b, py_int c with
      | Some y, Some m, Some d => Some (y, m, d)
      | _, _, _ => None
      end
  | _ => None
  end.

(** The day offset of [date] from [today]; 0 when either is empty or the
    guarded computation raises. *)
Definition day_offset (today date : str) : Z :=
  if nonempty today && nonempty date then
    match ymd today, ymd date with
    | Some t, Some d =>
        match date_ordinal d, date_ordinal t with
        | Some od, Some ot => (od - ot)%Z
        | _, _ => 0%Z
        end
    | _, _ => 0%Z
    end
  else 0%Z.

(** [float(xs[i]) if i < len(xs) and xs[i] is not None else 0.0], where
    an entry is always stored. *)
Definition float_or_zero (xs : list (option num)) (i : nat) : result float :=
  r <- float_at xs i (Some (S754_zero false)) ;;
  ret (match r with Some x => x | None => S754_zero false end).

Definition hourly_entry (h : HourlyJson) (today : str) (i : nat) (iso : str)
    : result Hourly :=
  let date := date_part iso in
  hour <- hour_part iso ;;
  let offset := day_offset today date in
  pop <- float_or_zero (precipitation_probability h) i ;;
  rain <- float_or_zero (h_rain h) i ;;
  _ <- float_or_zero (h_snowfall h) i ;;
  _ <- float_at (h_wind_speed_10m h) i None ;;
  _ <- float_at (h_relative_humidity_2m h) i None ;;
  ret {| date_offset := offset; hour := hour; precip_prob := pop; h_rain_mm := rain |}.

Fixpoint hourly_from (h : HourlyJson) (today : str) (i : nat) (times : list str)
    : result (list Hourly) :=
  match times with
  | [] => ret []
  | iso :: times' =>
      e <- hourly_entry h today i iso ;;
      rest <- hourly_from h today (S i) times' ;;
      ret (e :: rest)
  end.

(** [today], from the time of the current readings or of the first row. *)
Definition today_of (js : ForecastJson) : str :=
  let first := match h_time (j_hourly js) with iso :: _ => iso | [] => [] end in
  let now_iso :=
    match c_time (j_current js) with
    | Some (c :: t) => c :: t
    | _ => first
    end in
  if str_in (py "T") now_iso then before char_T now_iso else firstn 10 now_iso.

Definition current_of (cur : CurrentJson) : Current :=
  {| temperature_c := temperature_2m cur;
     humidity_pct := relative_humidity_2m cur;
     rain_mm := rain cur;
     snow_mm := snowfall cur;
     wind_kmh := wind_speed_10m cur;
     weather_code := c_weather_code cur |}.

Definition _parse_bundle (js : ForecastJson) : result Bundle :=
  days <- daily_list (j_daily js) ;;
  rows <- hourly_from (j_hourly js) (today_of js) 0 (h_time (j_hourly js)) ;;
  ret {| current := current_of (j_current js); daily := days; hourly := rows |}.

End ParseBundle.
(* ------------------------------------------------------------------ *)
(** ** The weather service: cache, geocoding and forecast
       ([weather_service.py]) *)

(** The value [geocode_location] builds. *)
Record Geo : Type := {
  name : str;
  latitude : float;
  longitude : float
}.

(** What the cache holds under a key: [None] (stored for a query without
    results), a geocoding value or a bundle. *)
Inductive cached : Type :=
| CNone
| CGeo (g : Geo)
| CBundle (b : Bundle).

(** A dictionary with string keys: [d.get(k)], [d[k] = v], [d.pop(k, None)]. *)
Fixpoint dict_get {V : Type} (k : str) (d : list (str * V)) : option V :=
  match d with
  | [] => None
  | (k', v) :: d' => if str_eqb k k' then Some v else dict_get k d'
  end.

Fixpoint dict_set {V : Type} (k : str) (v : V) (d : list (str * V)) : list (str * V) :=
  match d with
  | [] => [(k, v)]
  | (k', v') :: d' =>
      if str_eqb k k' then (k, v) :: d' else (k', v') :: dict_set k v d'
  end.

Definition dict_pop {V : Type} (k : str) (d : list (str * V)) : list (str * V) :=
  filter (fun e => negb (str_eqb k (fst e))) d.

(** The state the service works on: [_CACHE], and how often the clock was
    read and a request was sent so far. *)
Record World : Type := {
  cache : list (str * (float * cached));
  tick : nat;
  requests : nat
}.

(** The world after one more reading of the clock, and after one more
    request. *)
Definition ticked (w : World) : World :=
  {| cache := cache w; tick := S (tick w); requests := requests w |}.

Definition requested (w : World) : World :=
  {| cache := cache w; tick := tick w; requests := S (requests w) |}.

(** 300.0, for [_TTL_SECONDS]. *)
Definition f300 : float := S754_finite false 5277655813324800 (-44).

(** [now - ts > _TTL_SECONDS] *)
Definition expired (now ts : float) : bool :=
  SFltb f300 (SFsub prec emax now ts).

(** The first entry of the provider's [results]. *)
Record GeoTop : Type := {
  top_name : option str;
  top_country : option str;
  top_latitude : option pyval;
  top_longitude : option pyval
}.

(** Every cached bundle sits under a key of the forecasts and every other
    value under a key of the geocoder. *)
Definition well_keyed (w : World) : Prop :=
  forall k ts v, dict_get k (cache w) = Some (ts, v) ->
    match v with
    | CBundle _ => startswith (py "wx:") k = true
    | _ => startswith (py "geo:") k = true
    end.

Definition empty_world : World := {| cache := []; tick := 0; requests := 0 |}.

Section Service.

Variable u_lower : str -> str.
Variable u_space : N -> bool.
Variable float_of_text : str -> option float.
Variable int_of_text : str -> option Z.

(** [time.time()] at its n-th reading. *)
Variable clock : nat -> float.

(** The n-th request, when it is a geocoding search for a name or a
    forecast for coordinates: the [results] of the decoded answer or the
    decoded answer, and [None] when sending, the status check or the
    decoding raises. *)
Variable geo_http : nat -> str -> option (list GeoTop).
Variable forecast_http : nat -> float -> float -> option ForecastJson.

Definition time_time : state World float :=
  w <- get ;;
  put {| cache := cache w; tick := S (tick w); requests := requests w |} ;;
  ret (clock (tick w)).

Definition set_cache (c : list (str * (float * cached))) : state World unit :=
  w <- get ;;
  put {| cache := c; tick := tick w; requests := requests w |}.

Definition send {A : Type} (request : nat -> A) : state World A :=
  w <- get ;;
  put {| cache := cache w; tick := tick w; requests := S (requests w) |} ;;
  ret (request (requests w)).

(** [_cache_get]; the result [CNone] is Python's [None]. *)
Definition _cache_get (key : str) : state World cached :=
  w <- get ;;
  match dict_get key (cache w) with
  | None => ret CNone
  | Some (ts, data) =>
      now <- time_time ;;
      if expired now ts then
        set_cache (dict_pop key (cache w)) ;;
        ret CNone
      else ret data
  end.

Definition _cache_set (key : str) (data : cached) : state World unit :=
  now <- time_time ;;
  w <- get ;;
  set_cache (dict_set key (now, data) (cache w)).

Definition geo_key (query : str) : str :=
  py "geo:" ++ strip u_space (lower u_lower query).

Definition wx_key (lat lon : float) : str :=
  py "wx:" ++ format_f 4 lat ++ py "," ++ format_f 4 lon.

(** The dictionary built from the first result; [None] when a coordinate
    is missing or [float] rejects it. *)
Definition geo_of_top (top : GeoTop) : option Geo :=
  match top_latitude top, top_longitude top with
  | Some la, Some lo =>
      match py_float float_of_text la, py_float float_of_text lo with
      | Ok x, Ok y =>
          Some {| name := str_of (top_name top) ++ py ", " ++ str_of (top_country top);
                  latitude := x; longitude := y |}
      | _, _ => None
      end
  | _, _ => None
  end.

Definition geocode_location (query : str) : state World cached :=
  if negb (nonempty query) then ret CNone
  else
    let key := geo_key query in
    hit <- _cache_get key ;;
    match hit with
    | CNone =>
        answer <- send (fun n => geo_http n query) ;;
        match answer with
        | None => ret CNone
        | Some [] => _cache_set key CNone ;; ret CNone
        | Some (top :: _) =>
            match geo_of_top top with
            | Some data => _cache_set key (CGeo data) ;; ret (CGeo data)
            | None => ret CNone
            end
        end
    | _ => ret hit
    end.

Definition get_forecast_bundle (lat lon : float) : state World cached :=
  let key := wx_key lat lon in
  hit <- _cache_get key ;;
  match hit with
  | CNone =>
      answer <- send (fun n => forecast_http n lat lon) ;;
      match answer with
      | None => ret CNone
      | Some js =>
          match _parse_bundle int_of_text js with
          | Ok bundle => _cache_set key (CBundle bundle) ;; ret (CBundle bundle)
          | Raise _ => ret CNone
          end
      end
  | _ => ret hit
  end.

End Service.
(* ------------------------------------------------------------------ *)
(** ** The chat endpoint ([app.py]) *)

(** The decoded request body: the message, when it is a string, and the
    two coordinates as sent. *)
Record Payload : Type := {
  message : option str;
  lat : pyval;
  lon : pyval
}.

(** How a turn ends: with a reply, or with an exception that leaves the
    handler, raised by the formatter or by a subscript on a cached value
    that is not a geocoding value. *)
Inductive outcome : Type :=
| Reply (text : str)
| FormatRaised (e : exn)
| KeyError.

Definition EMPTY_PROMPT : str :=
  py "Please type a weather question or click **Use my location**.".
Definition UNAVAILABLE : str :=
  py "Weather service is temporarily unavailable. Please try again.".
Definition YOUR_LOCATION : str := py "your location".

Definition not_found (label : str) : str :=
  py "I couldn't find **" ++ label ++
  py "**. Try a city + country (e.g., *Lisbon, Portugal*).".

(** A cached value read through [bundle.get(key, default)]: one that is
    not a bundle has none of the keys. *)
Definition as_bundle (v : cached) : Bundle :=
  match v with
  | CBundle b => b
  | _ => {| current := {| temperature_c := None; humidity_pct := None;
                          rain_mm := None; snow_mm := None; wind_kmh := None;
                          weather_code := None |};
            daily := []; hourly := [] |}
  end.

Section Chat.

Variable u_lower : str -> str.
Variable u_space : N -> bool.
Variable u_word : N -> bool.
Variable u_fold : N -> list N.
Variable stem : str -> str.
Variable float_of_text : str -> option float.
Variable int_of_text : str -> option Z.
Variable fsum : list float -> float.
Variable clock : nat -> float.
Variable geo_http : nat -> str -> option (list GeoTop).
Variable forecast_http : nat -> float -> float -> option ForecastJson.

(** The part of [chat] after the location is resolved: the forecast is
    fetched and formatted. *)
Definition answer (g : Process) (parsed : Parsed) (place : float * float)
    (label : str) : state World outcome :=
  bundle <- get_forecast_bundle int_of_text clock forecast_http (fst place) (snd place) ;;
  match bundle with
  | CNone => ret (Reply UNAVAILABLE)
  | _ =>
      match format_weather_reply fsum (weather_table g) parsed (as_bundle bundle) label with
      | Ok reply => ret (Reply reply)
      | Raise e => ret (FormatRaised e)
      end
  end.

(** [chat]: the outcome of the turn and [session["last_location"]] after
    it, from the request body and [session.get("last_location")]. *)
Definition chat (g : Process) (payload : Payload) (last_location : option str)
    : state World (outcome * option str) :=
  let msg := strip u_space (match message payload with Some m => m | None => [] end) in
  if negb (nonempty msg) && (is_none (lat payload) || is_none (lon payload)) then
    ret (Reply EMPTY_PROMPT, last_location)
  else
    let parsed :=
      interpret_message u_lower u_space u_word u_fold stem float_of_text g
        (Some msg) last_location (lat payload) (lon payload) in
    if truthy (error parsed) then
      ret (Reply (str_of (error parsed)), last_location)
    else
      match coords parsed with
      | Some place =>
          let label :=
            if truthy (location_label parsed) then str_of (location_label parsed)
            else YOUR_LOCATION in
          out <- answer g parsed place label ;;
          ret (out, Some label)
      | None =>
          geo <- geocode_location u_lower u_space float_of_text clock geo_http
                   (match location_label parsed with Some l => l | None => [] end) ;;
          match geo with
          | CNone =>
              ret (Reply (not_found (str_of (location_label parsed))), last_location)
          | CGeo data =>
              out <- answer g parsed (latitude data, longitude data) (name data) ;;
              ret (out, Some (name data))
          | CBundle _ => ret (KeyError, last_location)
          end
      end.

End Chat.
(** The calendar day after a date. *)
Definition next_day (ymd : Z * Z * Z) : Z * Z * Z :=
  let '(y, m, d) := ymd in
  (if d <? days_in_month y m then (y, m, d + 1)
   else if m <? 12 then (y, m + 1, 1)
   else (y + 1, 1, 1))%Z.
(* ------------------------------------------------------------------ *)
(** ** Features at training time ([train_intent_model.py]) *)

Module Train.

Definition MIN_STOP : list str :=
  map py
    [ "a"; "an"; "the"; "is"; "are"; "was"; "were"; "in"; "on"; "at"; "to";
      "for"; "of"; "and"; "or"; "please"; "tell"; "me"; "what"; "whats";
      "what's"; "give"; "show"; "can"; "could"; "will" ]%string.

Section Features.

Variable u_lower : str -> str.
Variable stem : str -> str.

(** [re.findall(r"[a-zA-Z']+", text.lower())] *)
Definition tokenize (text : str) : list str := runs [] (lower u_lower text).

Definition preprocess (text : str) : list str :=
  map stem (filter (fun t => negb (mem t MIN_STOP)) (tokenize text)).

(** [{t: True for t in tokens}] *)
Fixpoint featurize (tokens : list str) : list str :=
  match tokens with
  | [] => []
  | t :: ts => t :: filter (fun u => negb (str_eqb u t)) (featurize ts)
  end.

(** One intent of the training file with its examples, as pairs of
    features and label, in the order of the file. *)
Definition examples_of (intent : str) (examples : list str) : list (list str * str) :=
  map (fun ex => (featurize (preprocess ex), intent)) examples.

(** The data set of [load_dataset] before it is shuffled. *)
Definition dataset (data : list (str * list str)) : list (list str * str) :=
  flat_map (fun entry => examples_of (fst entry) (snd entry)) data.

End Features.

End Train.
(* ------------------------------------------------------------------ *)
(** ** Concrete service used to run the endpoint *)

Definition no_int (t : str) : option Z := None.

(** 1000.0, 48.5 and 2.5. *)
Definition f1000 : float := S754_finite false 8796093022208000 (-43).
Definition f48_5 : float := S754_finite false 6825768185233408 (-47).
Definition f2_5 : float := S754_finite false 5629499534213120 (-51).

(** A clock that stands still, and one that jumps by 1000 seconds after
    its first reading. *)
Definition still_clock (n : nat) : float := S754_zero false.
Definition jumping_clock (n : nat) : float :=
  match n with O => S754_zero false | S _ => f1000 end.

Definition paris_top : GeoTop :=
  {| top_name := Some (py "Paris"); top_country := Some (py "France");
     top_latitude := Some (VNum (PyFloat f48_5));
     top_longitude := Some (VNum (PyFloat f2_5)) |}.

Definition paris : Geo :=
  {| name := py "Paris, France"; latitude := f48_5; longitude := f2_5 |}.

Definition geo_paris (n : nat) (query : str) : option (list GeoTop) := Some [paris_top].
Definition geo_nothing (n : nat) (query : str) : option (list GeoTop) := Some [].

(** A provider answer with seven full days and two hourly rows, one of
    today and one of tomorrow morning. *)
Definition week_json : ForecastJson :=
  {| j_current :=
       {| temperature_2m := Some (PyFloat f21_46); relative_humidity_2m := Some (PyInt 65);
          rain := Some (PyFloat (S754_zero false)); snowfall := None;
          wind_speed_10m := Some (PyFloat f12_5); c_weather_code := Some 3%Z;
          c_time := Some (py "2024-02-29T10:00") |};
     j_daily :=
       {| time := map py [ "2024-02-29"; "2024-03-01"; "2024-03-02"; "2024-03-03";
                           "2024-03-04"; "2024-03-05"; "2024-03-06" ]%string;
          temperature_2m_max := repeat (Some (PyFloat f18_0)) 7;
          temperature_2m_min := repeat (Some (PyFloat f12_5)) 7;
          j_weather_code := repeat (Some 61%Z) 7;
          precipitation_probability_max := repeat (Some (PyInt 40)) 7;
          rain_sum := repeat (Some (PyFloat f1_2)) 7;
          snowfall_sum := repeat None 7 |};
     j_hourly :=
       {| h_time := [py "2024-02-29T23:00"; py "2024-03-01T07:00"];
          precipitation_probability := [Some (PyInt 40); Some (PyInt 40)];
          h_rain := [Some (PyFloat f1_2); None];
          h_snowfall := []; h_weather_code := [Some 61%Z; Some 61%Z];
          h_wind_speed_10m := []; h_relative_humidity_2m := [] |} |}.

Definition forecast_week (n : nat) (lat lon : float) : option ForecastJson :=
  Some week_json.
Definition forecast_down (n : nat) (lat lon : float) : option ForecastJson := None.

Definition run_chat (geo_http : nat -> str -> option (list GeoTop))
    (forecast_http : nat -> float -> float -> option ForecastJson)
    : Process -> Payload -> option str -> state World (outcome * option str) :=
  chat no_lower no_class no_class no_fold no_stem no_float no_int fsum_seq
       still_clock geo_http forecast_http.

Definition run_geocode (clock : nat -> float)
    (geo_http : nat -> str -> option (list GeoTop)) : str -> state World cached :=
  geocode_location no_lower no_class no_float clock geo_http.

Definition run_forecast (clock : nat -> float)
    (forecast_http : nat -> float -> float -> option ForecastJson)
    : float -> float -> state World cached :=
  get_forecast_bundle no_int clock forecast_http.

(** The bundle [_parse_bundle] makes of [week_json]. *)
Definition week_parsed : Bundle :=
  match _parse_bundle no_int week_json with
  | Ok b => b
  | Raise _ => week_bundle
  end.
(** Requests and request bodies used below. *)
Definition snow_tomorrow : Parsed :=
  run_interpret bare_process (Some (py "will it snow tomorrow")) (Some (py "Paris")) VNone VNone.
Definition week_request : Parsed :=
  run_interpret bare_process (Some (py "week forecast")) (Some (py "Paris")) VNone VNone.
Definition humidity_request : Parsed :=
  run_interpret bare_process (Some (py "humidity")) (Some (py "Paris")) VNone VNone.
Definition rain_tomorrow : Parsed :=
  run_interpret bare_process (Some (py "rain tomorrow morning")) (Some (py "Paris")) VNone VNone.

Definition morning_row : Hourly :=
  {| date_offset := 1; hour := 7; precip_prob := f40_0; h_rain_mm := S754_zero false |}.

Definition ask_paris : Payload :=
  {| message := Some (py "week forecast in Paris"); lat := VNone; lon := VNone |}.
Definition ask_nothing : Payload :=
  {| message := None; lat := VNone; lon := VNone |}.
Definition ask_here : Payload :=
  {| message := Some (py "temperature"); lat := VNum (PyFloat f48_5);
     lon := VNum (PyFloat f2_5) |}.

(* ================================================================== *)
(** ** The calls on the interpreter's objects

    [format_weather_reply] receives two dicts, which the caller and the
    forecast cache hold as well, and builds its reply in lists of its
    own; [_predict_intent_rules] receives a string and builds lists of
    cues. Here the two functions are written over a store of mutable
    objects: an argument is a reference, a read goes through the store,
    a list or dict the call creates is allocated in it, and [append]
    writes to it. Strings and numbers are immutable and passed by
    value. *)

Module Objects.

(** A reference is the position of its object in the store. *)
Abbreviation loc := nat.

(** [bundle]: each of its keys is a reference to a dict or a list, or
    absent. *)
Record BundleDict : Type := {
  b_current : option loc;
  b_daily : option loc;
  b_hourly : option loc
}.

(** The dicts and lists of a call. A dict of the data model holds its
    strings and numbers by value; the lists [daily], [hourly] and [vals]
    hold references to their dicts. *)
Inductive object : Type :=
| OParsed (p : Parsed)
| OBundle (b : BundleDict)
| OCurrent (c : Current)
| ODaily (d : Daily)
| OHourly (h : Hourly)
| ORefs (items : list loc)
| OStrs (items : list str).

(** The state shared by all calls: the module state of [nlp_engine] and
    the objects, each at its reference. *)
Record Heap : Type := {
  process : Process;
  objects : list object
}.

(** A call returns a value or raises, and leaves a store; it has no
    outcome on a store whose objects are not of the kinds the data
    model gives them. *)
Definition M (A : Type) : Type := Heap -> option (result A * Heap).

#[global] Instance Monad_M : Monad M :=
  {| ret := fun _ a h => Some (Ok a, h);
     bind := fun _ _ m k h =>
       match m h with
       | Some (Ok a, h') => k a h'
       | Some (Raise e, h') => Some (Raise e, h')
       | None => None
       end |}.

Definition ill_typed {A : Type} : M A := fun _ => None.

(** An expression that may raise and touches no object. *)
Definition pure_of {A : Type} (r : result A) : M A := fun h => Some (r, h).

(** A call whose exception, if it raises, is handed to the caller as a
    value. *)
Definition attempt {A : Type} (m : M A) : M (result A) :=
  fun h => match m h with
           | Some (r, h') => Some (Ok r, h')
           | None => None
           end.

(** A new object, at the next free reference. *)
Definition alloc (o : object) : M loc :=
  fun h => Some (Ok (List.length (objects h)),
                 {| process := process h; objects := objects h ++ [o] |}).

Definition deref (l : loc) : M object :=
  fun h => match nth_error (objects h) l with
           | Some o => Some (Ok o, h)
           | None => None
           end.

Fixpoint replace_at (l : nat) (o : object) (os : list object) : list object :=
  match os, l with
  | [], _ => []
  | _ :: rest, O => o :: rest
  | x :: rest, S l' => x :: replace_at l' o rest
  end.

(** The object at [l] is changed in place. *)
Definition assign (l : loc) (o : object) : M unit :=
  fun h => if (l <? List.length (objects h))%nat
           then Some (Ok tt, {| process := process h;
                                objects := replace_at l o (objects h) |})
           else None.

(** The module's [_WEATHER_CODE]. *)
Definition weather_codes : M (list (Z * str)) :=
  fun h => Some (Ok (weather_table (process h)), h).

(** [parsed[key]] and [parsed.get(key)] *)
Definition parsed_get {A : Type} (parsed : loc) (key : Parsed -> A) : M A :=
  o <- deref parsed ;;
  match o with OParsed p => ret (key p) | _ => ill_typed end.

(** [bundle.get(key, default)] *)
Definition bundle_get (bundle : loc) (key : BundleDict -> option loc) (default : loc)
    : M loc :=
  o <- deref bundle ;;
  match o with
  | OBundle b => ret (match key b with Some l => l | None => default end)
  | _ => ill_typed
  end.

(** [cur.get(key)] *)
Definition current_get {A : Type} (cur : loc) (key : Current -> A) : M A :=
  o <- deref cur ;;
  match o with OCurrent c => ret (key c) | _ => ill_typed end.

(** The items of a daily entry, read by [d.get(key)] and [d[key]]. *)
Definition daily_items (d : loc) : M Daily :=
  o <- deref d ;;
  match o with ODaily r => ret r | _ => ill_typed end.

(** [h[key]] and [v.get(key, 0)] on an hourly row *)
Definition hourly_get {A : Type} (row : loc) (key : Hourly -> A) : M A :=
  o <- deref row ;;
  match o with OHourly r => ret (key r) | _ => ill_typed end.

(** The references a list of dicts holds, and the strings a list of
    strings holds. *)
Definition refs (l : loc) : M (list loc) :=
  o <- deref l ;;
  match o with ORefs items => ret items | _ => ill_typed end.

Definition strs (l : loc) : M (list str) :=
  o <- deref l ;;
  match o with OStrs items => ret items | _ => ill_typed end.

(** [l.append(x)] *)
Definition append (l : loc) (s : str) : M unit :=
  items <- strs l ;; assign l (OStrs (items ++ [s])).

Definition append_ref (l : loc) (r : loc) : M unit :=
  items <- refs l ;; assign l (ORefs (items ++ [r])).

(** [if v is not None: parts.append(f"{pre}{v:.<p>f}{suf}")] *)
Definition append_reading (p : nat) (v : option num) (pre suf : str) (parts : loc)
    : M unit :=
  match v with
  | None => ret tt
  | Some _ => t <- pure_of (format_num p v) ;; append parts (pre ++ t ++ suf)
  end.

(** The first branch: [parts] is a new list, filled by [append] and
    joined. *)
Definition now_reply (intent : str) (cur : loc) (label pre : str) : M str :=
  parts <- alloc (OStrs [py "**" ++ label ++ py "** right now:"]) ;;
  (if mem intent [py "temperature_now"; py "conditions_now"] then
     temp <- current_get cur temperature_c ;;
     code <- current_get cur weather_code ;;
     table <- weather_codes ;;
     let desc := code_get table code in
     append_reading 1 temp (py "- Temperature: **") (py "°C**") parts ;;
     append parts (py "- Conditions: **" ++ desc ++ py "**")
   else ret tt) ;;
  (if str_eqb intent (py "wind_now") then
     w <- current_get cur wind_kmh ;;
     append_reading 0 w (py "- Wind: **") (py " km/h**") parts
   else ret tt) ;;
  (if str_eqb intent (py "humidity_now") then
     h <- current_get cur humidity_pct ;;
     append_reading 0 h (py "- Humidity: **") (py "%**") parts
   else ret tt) ;;
  (if str_eqb intent (py "rain_now") then
     r <- current_get cur rain_mm ;;
     append_reading 1 r (py "- Rain (last hour): **") (py " mm**") parts
   else ret tt) ;;
  (if str_eqb intent (py "snow_now") then
     s <- current_get cur snow_mm ;;
     append_reading 1 s (py "- Snowfall (last hour): **") (py " mm**") parts
   else ret tt) ;;
  items <- strs parts ;;
  ret (pre ++ join nl items).

(** [[h for h in hourly if h["date_offset"] == 1 and start <= h["hour"] < end]]:
    the rows kept are appended to the new list [vals], as references. *)
Fixpoint keep_rows (hours : Z * Z) (rows : list loc) (vals : loc) : M unit :=
  match rows with
  | [] => ret tt
  | h :: rest =>
      off <- hourly_get h date_offset ;;
      (if (off =? 1)%Z then
         hr <- hourly_get h hour ;;
         if (fst hours <=? hr)%Z && (hr <? snd hours)%Z then append_ref vals h
         else ret tt
       else ret tt) ;;
      keep_rows hours rest vals
  end.

(** The rows [vals] refers to, read for the two sums. *)
Fixpoint rows_of (vals : list loc) : M (list Hourly) :=
  match vals with
  | [] => ret []
  | v :: rest =>
      r <- hourly_get v (fun r => r) ;;
      rs <- rows_of rest ;;
      ret (r :: rs)
  end.

(** [for d in ...: lines.append(line(d))] on the entries [ds] refers to. *)
Fixpoint each_day (line : list (Z * str) -> Daily -> result str) (ds : list loc)
    (lines : loc) : M unit :=
  match ds with
  | [] => ret tt
  | d :: rest =>
      day <- daily_items d ;;
      table <- weather_codes ;;
      l <- pure_of (line table day) ;;
      append lines l ;;
      each_day line rest lines
  end.

(** [any(x in t for x in [...])]: the list of cues is a new list. *)
Definition any_cue (cues : list string) (t : str) : M bool :=
  l <- alloc (OStrs (map py cues)) ;;
  xs <- strs l ;;
  ret (any_in xs t).

Section Calls.

Variable u_lower : str -> str.
Variable fsum : list float -> float.

(** The branch [horizon == "tomorrow"] once [daily[1]] exists. *)
Definition tomorrow_reply (intent : str) (tod : option str) (hourly : loc)
    (label pre : str) (d : loc) : M str :=
  day <- daily_items d ;;
  table <- weather_codes ;;
  if str_eqb intent (py "tomorrow_rain") then
    ret (pre ++ tomorrow_rain_msg label day)
  else
    let summary : M str :=
      s <- pure_of (tomorrow_summary table label day) ;; ret (pre ++ s) in
    match _tod_hours tod with
    | Some hours =>
        rows <- refs hourly ;;
        match rows with
        | [] => summary
        | _ :: _ =>
            vals <- alloc (ORefs []) ;;
            keep_rows hours rows vals ;;
            found <- refs vals ;;
            match found with
            | [] => summary
            | _ :: _ =>
                rs <- rows_of found ;;
                s <- pure_of (window_msg fsum label (str_of tod) rs) ;;
                ret (pre ++ s)
            end
        end
    | None => summary
    end.

(** [format_weather_reply] on the references of its two dicts. The
    defaults of the three [bundle.get] are new objects of every call;
    [parts], [lines] and [vals] are new lists, and they are the only
    objects the call writes to. *)
Definition format_weather_reply (parsed bundle : loc) (location_label : str) : M str :=
  intent <- parsed_get parsed intent ;;
  horizon <- parsed_get parsed horizon ;;
  tod <- parsed_get parsed tod ;;
  no_current <- alloc (OCurrent no_readings) ;;
  cur <- bundle_get bundle b_current no_current ;;
  no_daily <- alloc (ORefs []) ;;
  daily <- bundle_get bundle b_daily no_daily ;;
  no_hourly <- alloc (ORefs []) ;;
  hourly <- bundle_get bundle b_hourly no_hourly ;;
  sent <- parsed_get parsed sentiment ;;
  let pre := tone_prefix sent in
  if mem intent NOW_INTENTS && str_eqb horizon (py "now") then
    now_reply intent cur location_label pre
  else if str_eqb horizon (py "tomorrow") then
    ds <- refs daily ;;
    match ds with
    | _ :: d :: _ => tomorrow_reply intent tod hourly location_label pre d
    | _ => ret TOMORROW_FALLBACK
    end
  else if str_eqb horizon (py "next3days") then
    ds <- refs daily ;;
    if (List.length ds <? 3)%nat then ret NEXT3DAYS_FALLBACK
    else
      lines <- alloc (OStrs [py "**" ++ location_label ++ py "** – next 3 days:"]) ;;
      each_day next3days_line (firstn 3 ds) lines ;;
      items <- strs lines ;;
      ret (pre ++ join nl items)
  else if str_eqb horizon (py "week") then
    ds <- refs daily ;;
    if (List.length ds <? 7)%nat then ret WEEK_FALLBACK
    else
      lines <- alloc (OStrs [py "**" ++ location_label ++ py "** – 7-day outlook:"]) ;;
      each_day week_line (firstn 7 ds) lines ;;
      items <- strs lines ;;
      ret (pre ++ join nl items)
  else if str_eqb intent (py "help") then ret HELP_MESSAGE
  else ret DEFAULT_FALLBACK.

(** [_predict_intent_rules]: its argument is a string, and every list
    of cues is a new list of the call. *)
Definition _predict_intent_rules (text : str) : M str :=
  let t := lower u_lower text in
  help <- any_cue ["help"; "what can you do"; "commands"; "examples"]%string t ;;
  if help then ret (py "help")
  else
    let has_tomorrow := str_in (py "tomorrow") t in
    has_week <- any_cue ["this week"; "next 7"; "7 day"; "week forecast"; "weekly"]%string t ;;
    has_3day <- any_cue ["next 3"; "3 day"; "three day"; "next three"]%string t ;;
    temperature <- any_cue ["temperature"; "temp"; "how hot"; "how cold"; "degrees"]%string t ;;
    if temperature then ret (py "temperature_now")
    else
      wind <- any_cue ["wind"; "windy"; "gust"]%string t ;;
      if wind then ret (py "wind_now")
      else
        humidity <- any_cue ["humidity"; "humid"]%string t ;;
        if humidity then ret (py "humidity_now")
        else
          snow <- any_cue ["snow"; "snowfall"]%string t ;;
          if snow then
            ret (if negb has_tomorrow then py "snow_now" else py "tomorrow_summary")
          else
            rain <- any_cue ["rain"; "raining"; "precip"; "shower"]%string t ;;
            if rain then
              ret (if has_tomorrow then py "tomorrow_rain" else py "rain_now")
            else
              conditions <- any_cue ["condition"; "weather like"; "sunny"; "cloudy";
                                     "clear"; "overcast"]%string t ;;
              if conditions then ret (py "conditions_now")
              else if has_tomorrow then ret (py "tomorrow_summary")
              else if has_3day then ret (py "next3days_summary")
              else if has_week then ret (py "week_summary")
              else ret (py "conditions_now").

End Calls.

(** [h] with further objects after its own. *)
Definition ext (h : Heap) (fresh : list object) : Heap :=
  {| process := process h; objects := objects h ++ fresh |}.

(** [h'] is [h] with further objects: the module state and every object
    of [h], at its reference, are those of [h]. *)
Definition kept (h h' : Heap) : Prop := exists fresh, h' = ext h fresh.

(** The list at an optional key holds references to dicts of the entries
    [xs]; an absent key stands for no entries. *)
Definition lists {A : Type} (os : list object) (wrap : A -> object)
    (key : option loc) (xs : list A) : Prop :=
  match key with
  | Some l => exists items, nth_error os l = Some (ORefs items) /\
                            Forall2 (fun r x => nth_error os r = Some (wrap x)) items xs
  | None => xs = []
  end.

(** The store holds the request [P] at [parsed] and the bundle [B] at
    [bundle]. *)
Definition holds (h : Heap) (parsed bundle : loc) (P : Parsed) (B : Bundle) : Prop :=
  nth_error (objects h) parsed = Some (OParsed P) /\
  exists b, nth_error (objects h) bundle = Some (OBundle b) /\
    match b_current b with
    | Some c => nth_error (objects h) c = Some (OCurrent (current B))
    | None => current B = no_readings
    end /\
    lists (objects h) ODaily (b_daily b) (daily B) /\
    lists (objects h) OHourly (b_hourly b) (hourly B).

End Objects.

(** A store with a request for tomorrow morning and a bundle of seven
    days and one hourly row: the request at 0, the bundle at 1, its
    parts after them. *)
Definition morning_request : Parsed :=
  run_interpret bare_process (Some (py "will it snow tomorrow morning"))
    (Some (py "Paris")) VNone VNone.

Definition morning_bundle : Bundle :=
  {| current := mild_day; daily := repeat full_day 7; hourly := [morning_row] |}.

Definition morning_store : Objects.Heap :=
  {| Objects.process := bare_process;
     Objects.objects :=
       [ Objects.OParsed morning_request;
         Objects.OBundle {| Objects.b_current := Some 2%nat;
                            Objects.b_daily := Some 3%nat;
                            Objects.b_hourly := Some 4%nat |};
         Objects.OCurrent mild_day;
         Objects.ORefs (seq 5 7);
         Objects.ORefs [12%nat] ]
       ++ repeat (Objects.ODaily full_day) 7
       ++ [Objects.OHourly morning_row] |}.

(** A process whose analyzer scores every text 0.35, and one whose
    analyzer scores every text -0.35. *)
Definition cheerful_process : Process :=
  {| _MODEL := None; _SIA := Some (fun _ => f0_35); weather_table := _WEATHER_CODE |}.
Definition gloomy_process : Process :=
  {| _MODEL := None; _SIA := Some (fun _ => fneg0_35); weather_table := _WEATHER_CODE |}.

Definition cheerful_week : Parsed :=
  run_interpret cheerful_process (Some (py "week forecast")) (Some (py "Paris")) VNone VNone.
Definition gloomy_week : Parsed :=
  run_interpret gloomy_process (Some (py "week forecast")) (Some (py "Paris")) VNone VNone.
Definition snow_tomorrow_evening : Parsed :=
  run_interpret bare_process (Some (py "will it snow tomorrow evening"))
    (Some (py "Paris")) VNone VNone.

(* ================================================================== *)
(** * Properties *)

(** ** Strings *)

Lemma str_eqb_eq (a b : str) : str_eqb a b = true <-> a = b.
Proof.
  revert b; induction a as [|x a IH]; intros [|y b]; simpl; split;
    try congruence; try reflexivity.
  - intros H. apply andb_true_iff in H as [Hx Hab].
    apply N.eqb_eq in Hx. apply IH in Hab. congruence.
  - intros H. injection H as -> ->. rewrite N.eqb_refl. simpl.
    now apply IH.
Qed.

Lemma str_eqb_refl (a : str) : str_eqb a a = true.
Proof. now apply str_eqb_eq. Qed.

Lemma str_eqb_neq (a b : str) : str_eqb a b = false <-> a <> b.
Proof.
  split.
  - intros H E. apply str_eqb_eq in E. congruence.
  - intros H. destruct (str_eqb a b) eqn:E; [|reflexivity].
    apply str_eqb_eq in E. contradiction.
Qed.

Lemma mem_In (v : str) (vs : list str) : mem v vs = true <-> In v vs.
Proof.
  unfold mem. rewrite existsb_exists. split.
  - intros (x & Hx & E). apply str_eqb_eq in E. now subst.
  - intros H. exists v. split; [assumption | apply str_eqb_refl].
Qed.

Lemma truthy_py_or (a b : option str) :
  truthy (py_or a b) = truthy a || truthy b.
Proof. unfold py_or. destruct (truthy a) eqn:E; simpl; congruence. Qed.

(** ** Fixed-point rendering *)

Lemma uint_digits (d : Decimal.uint) :
  forallb is_digit
    (map N_of_ascii (list_ascii_of_string (NilEmpty.string_of_uint d))) = true.
Proof.
  induction d; cbn [NilEmpty.string_of_uint list_ascii_of_string map forallb];
    try rewrite IHd; reflexivity.
Qed.

Lemma digits_spec (n : N) : digits n <> [] /\ forallb is_digit (digits n) = true.
Proof.
  unfold digits, NilZero.string_of_uint.
  destruct (N.to_uint n) eqn:E;
    (split; [cbn; discriminate | try reflexivity; rewrite <- E at 1]).
  all: try (rewrite E; apply uint_digits).
Qed.

Lemma frac_digits_spec (p : nat) (n : N) :
  List.length (frac_digits p n) = p /\ forallb is_digit (frac_digits p n) = true.
Proof.
  revert n. induction p as [|p IH]; intros n; cbn [frac_digits].
  - split; reflexivity.
  - destruct (IH (n / 10)) as [Hl Hd]. split.
    + rewrite length_app, Hl. cbn. lia.
    + rewrite forallb_app, Hd. cbn [forallb andb]. rewrite andb_true_r.
      unfold is_digit. apply andb_true_iff.
      pose proof (N.mod_lt n 10 ltac:(discriminate)) as Hr. revert Hr.
      generalize (n mod 10). intros r Hr.
      split; apply N.leb_le; lia.
Qed.

Lemma fixed_spec (p : nat) (s : bool) (q : N) : fixed_point p (sign s ++ fixed p q).
Proof.
  exists s, (digits (q / 10 ^ N.of_nat p)), (frac_digits p q).
  destruct (digits_spec (q / 10 ^ N.of_nat p)) as [Hne Hd].
  destruct (frac_digits_spec p q) as [Hl Hf].
  split; [unfold fixed; destruct p; reflexivity|].
  repeat split; assumption.
Qed.

Lemma format_f_fixed_point (p : nat) (x : float) :
  finite x = true -> fixed_point p (format_f p x).
Proof.
  destruct x; cbn [finite format_f]; try discriminate; intros _; apply fixed_spec.
Qed.

(** [f21_46] is the binary64 nearest to 21.46: it lies within half a unit
    in the last place, [2^-49], of 2146/100. *)
Lemma f21_46_nearest :
  (Z.abs (100 * 6040453000210678 - 2146 * 2 ^ 48) * 2 <= 100)%Z.
Proof. vm_compute. discriminate. Qed.

Section Properties.

Set Default Proof Using "Type".

Variable u_lower : str -> str.
Variable u_space : N -> bool.
Variable u_word : N -> bool.
Variable u_fold : N -> list N.
Variable stem : str -> str.
Variable float_of_text : str -> option float.
Variable fsum : list float -> float.

Local Abbreviation classify := (_predict_intent_rules u_lower).
Local Abbreviation extract_location :=
  (_extract_location u_lower u_space u_word u_fold).
Local Abbreviation interpret :=
  (interpret_message u_lower u_space u_word u_fold stem float_of_text).
Local Abbreviation format := (format_weather_reply fsum).

(** ** The rule cascade *)

(** C5. With the rule classifier, "help me please" is [help],
    "temperature in Lisbon" is [temperature_now], "will it snow tomorrow"
    is [tomorrow_summary] and "rain tomorrow morning" is [tomorrow_rain]. *)
Theorem rule_cascade_precedence :
  classify (py "help me please") = py "help" /\
  classify (py "temperature in Lisbon") = py "temperature_now" /\
  classify (py "will it snow tomorrow") = py "tomorrow_summary" /\
  classify (py "rain tomorrow morning") = py "tomorrow_rain".
Proof. repeat split; vm_compute; reflexivity. Qed.

(** Every leaf of the cascade is one of the eleven intents. *)
Lemma rules_in_intents (text : str) : In (classify text) WEATHER_INTENTS.
Proof.
  apply mem_In. unfold _predict_intent_rules.
  repeat match goal with
         | |- context [if ?b then _ else _] => destruct b
         end; vm_compute; reflexivity.
Qed.

(** The empty text falls through every cue to the default. *)
Example classify_empty : classify [] = py "conditions_now".
Proof. vm_compute. reflexivity. Qed.

(** ** Classification with the trained model *)

Lemma predict_intent_cases (g : Process) (msg : str) :
  (_predict_intent_ml u_lower stem g msg = Some (predict_intent u_lower stem g msg)
   /\ predict_intent u_lower stem g msg <> [])
  \/ predict_intent u_lower stem g msg = classify msg.
Proof.
  unfold predict_intent.
  destruct (_predict_intent_ml u_lower stem g msg) as [[|c l]|]; simpl.
  - now right.
  - left. split; [reflexivity | discriminate].
  - now right.
Qed.

(** C1, amended. Classification always answers with one label: the rule
    cascade answers with one of the eleven intents on every text, and the
    two-stage classification does so whenever the loaded model only
    emits labels of that set. *)
Theorem classifier_total (g : Process) (msg : str)
    (Hmodel : labels_in_intents g) :
  In (classify msg) WEATHER_INTENTS /\
  In (predict_intent u_lower stem g msg) WEATHER_INTENTS.
Proof.
  split; [apply rules_in_intents|].
  destruct (predict_intent_cases g msg) as [[Hml Hne] | Hrules].
  - unfold _predict_intent_ml in Hml.
    destruct (_MODEL g) as [classifier|] eqn:Eg; [|discriminate].
    destruct (Hmodel _ _ _ Eg Hml) as [Hnil | Hin]; [contradiction | exact Hin].
  - rewrite Hrules. apply rules_in_intents.
Qed.

(** ** Slots *)

(** C7. "What's the weather in Tokyo" yields "Tokyo", "xyz" yields no
    location, and a text yields no location exactly when none of the
    three heuristics accepts it: no trailing in/at/for phrase, no
    "weather in" phrase, and no trailing run of capitalized words that
    stands in a text of two words or more and is not a temporal word. *)
Theorem location_extraction :
  extract_location (py "What's the weather in Tokyo") = Some (py "Tokyo") /\
  extract_location (py "xyz") = None /\
  forall text : str,
    extract_location text = None <->
    (search u_space u_word u_fold true (strip u_space text) RE_PREPOSITION = None /\
     search u_space u_word u_fold true text RE_WEATHER_IN = None /\
     forall m, search u_space u_word u_fold false text RE_CAPITALIZED = Some m ->
               (count_fields u_space false text < 2)%nat \/
               In (lower u_lower (strip u_space (group1 text m))) TEMPORAL_WORDS).
Proof.
  split; [vm_compute; reflexivity|].
  split; [vm_compute; reflexivity|].
  intros text. unfold _extract_location.
  destruct (search u_space u_word u_fold true (strip u_space text) RE_PREPOSITION)
    as [m1|]; [split; [discriminate | intros [H _]; discriminate]|].
  destruct (search u_space u_word u_fold true text RE_WEATHER_IN)
    as [m2|]; [split; [discriminate | intros (_ & H & _); discriminate]|].
  destruct (search u_space u_word u_fold false text RE_CAPITALIZED) as [m3|].
  - destruct (2 <=? count_fields u_space false text)%nat eqn:Ew.
    + apply Nat.leb_le in Ew.
      destruct (mem (lower u_lower (strip u_space (group1 text m3))) TEMPORAL_WORDS)
        eqn:Eb; cbn [negb].
      * split; [|reflexivity]. intros _. repeat split.
        intros m Hm. injection Hm as <-. right. now apply mem_In.
      * split; [discriminate|]. intros (_ & _ & H).
        destruct (H m3 eq_refl) as [Hlt | Hin]; [lia|].
        apply mem_In in Hin. congruence.
    + apply Nat.leb_gt in Ew. split; [|reflexivity]. intros _. repeat split.
      intros m _. now left.
  - split; [|reflexivity]. intros _. repeat split. intros m Hm. discriminate.
Qed.

(** ** The interpreter *)

Lemma prompt_has_example :
  str_in (py "Will it rain in Lisbon tomorrow morning?") LOCATION_PROMPT = true.
Proof. vm_compute. reflexivity. Qed.

(** C4. [interpret_message] is a total function to a request record.
    Its error is set, to the fixed prompt with the example question,
    exactly when no coordinates resolve and neither the text nor the
    remembered location gives a label; intent, horizon, time of day and
    sentiment are filled in either way; and a [lat] or [lon] that
    [float] rejects leaves the coordinates absent, the error then
    depending on the label alone. *)
Theorem interpreter_error_contract (g : Process) (message last : option str)
    (lat lon : pyval) :
  let msg := strip u_space (match message with Some m => m | None => [] end) in
  let p := interpret g message last lat lon in
  (error p <> None <->
     read_coords float_of_text lat lon = None /\
     truthy (extract_location msg) = false /\ truthy last = false) /\
  (error p = None \/
   (error p = Some LOCATION_PROMPT /\
    str_in (py "Will it rain in Lisbon tomorrow morning?") LOCATION_PROMPT = true /\
    coords p = None /\ location_label p = None)) /\
  intent p = predict_intent u_lower stem g msg /\
  (horizon p, tod p) = _extract_time_window u_lower msg /\
  sentiment p = _sentiment g msg /\
  (raises (py_float float_of_text lat) || raises (py_float float_of_text lon) = true ->
   coords p = None /\
   (error p = None <-> truthy (py_or (extract_location msg) last) = true)).
Proof.
  intros msg p. subst p. unfold interpret_message. fold msg.
  destruct (_extract_time_window u_lower msg) as [h t] eqn:Etw.
  assert (Hbad : raises (py_float float_of_text lat)
                 || raises (py_float float_of_text lon) = true ->
                 read_coords float_of_text lat lon = None).
  { unfold read_coords. intros H.
    destruct (negb (is_none lat) && negb (is_none lon)); [|reflexivity].
    simpl. destruct (py_float float_of_text lat); simpl in *; [|reflexivity].
    destruct (py_float float_of_text lon); simpl in *; [discriminate|reflexivity]. }
  rewrite truthy_py_or.
  destruct (read_coords float_of_text lat lon) as [c|] eqn:Ec;
    destruct (truthy (extract_location msg)) eqn:Ex;
    destruct (truthy last) eqn:El; simpl;
    repeat split; try tauto; try congruence; try discriminate;
    try (now left); try (right; repeat split; apply prompt_has_example);
    try (intros H; specialize (Hbad H); discriminate);
    try (intros [? ?]; discriminate);
    try (intros (_ & ? & _); discriminate);
    try (intros (_ & _ & ?); discriminate);
    try (match goal with
         | Hb : ?P -> Some _ = None, H : ?P |- _ => discriminate (Hb H)
         end).
Qed.

(** ** The formatter: order of the branches *)

Lemma horizon_not_now (parsed : Parsed) (h : str) :
  horizon parsed = h -> h <> py "now" ->
  mem (intent parsed) NOW_INTENTS && str_eqb (horizon parsed) (py "now") = false.
Proof.
  intros -> Hn. apply andb_false_iff. right. now apply str_eqb_neq.
Qed.

(** C2, amended. A request whose intent is [help] and whose horizon is
    none of [tomorrow], [next3days] and [week] gets the fixed usage
    message, whatever its other fields, the bundle and the label are. *)
Theorem help_reply (table : list (Z * str)) (parsed : Parsed)
    (bundle : Bundle) (label : str)
    (Hintent : intent parsed = py "help")
    (Hhorizon : ~ In (horizon parsed) [py "tomorrow"; py "next3days"; py "week"]) :
  format table parsed bundle label = Ok HELP_MESSAGE.
Proof.
  unfold format_weather_reply. rewrite Hintent.
  change (mem (py "help") NOW_INTENTS) with false. cbn [andb].
  destruct (str_eqb (horizon parsed) (py "tomorrow")) eqn:E1.
  { apply str_eqb_eq in E1. exfalso. apply Hhorizon. rewrite E1. now left. }
  destruct (str_eqb (horizon parsed) (py "next3days")) eqn:E2.
  { apply str_eqb_eq in E2. exfalso. apply Hhorizon. rewrite E2. right. now left. }
  destruct (str_eqb (horizon parsed) (py "week")) eqn:E3.
  { apply str_eqb_eq in E3. exfalso. apply Hhorizon. rewrite E3. right. right. now left. }
  rewrite str_eqb_refl. reflexivity.
Qed.

(** C6. When the horizon is [week] and the bundle has fewer than 7 daily
    entries the reply is the weekly fallback; [tomorrow] with fewer than
    2 gives the fallback of tomorrow and [next3days] with fewer than 3
    the 3-day one: a string in each case, for every request and bundle. *)
Theorem insufficient_data_fallback (table : list (Z * str)) (parsed : Parsed)
    (bundle : Bundle) (label : str) (need : nat) (fallback : str)
    (Hcase : In (horizon parsed, need, fallback)
                [ (py "week", 7%nat, WEEK_FALLBACK);
                  (py "tomorrow", 2%nat, TOMORROW_FALLBACK);
                  (py "next3days", 3%nat, NEXT3DAYS_FALLBACK) ])
    (Hshort : (List.length (daily bundle) < need)%nat) :
  format table parsed bundle label = Ok fallback.
Proof.
  unfold format_weather_reply.
  destruct Hcase as [E | [E | [E | []]]]; injection E as Eh <- <-.
  - rewrite (horizon_not_now parsed (py "week")) by (auto; discriminate).
    rewrite <- Eh.
    change (str_eqb (py "week") (py "tomorrow")) with false.
    change (str_eqb (py "week") (py "next3days")) with false.
    change (str_eqb (py "week") (py "week")) with true. cbv iota.
    apply Nat.ltb_lt in Hshort. rewrite Hshort. reflexivity.
  - rewrite (horizon_not_now parsed (py "tomorrow")) by (auto; discriminate).
    rewrite <- Eh.
    change (str_eqb (py "tomorrow") (py "tomorrow")) with true. cbv iota.
    destruct (daily bundle) as [|d0 [|d1 rest]]; simpl in Hshort;
      [reflexivity | reflexivity | lia].
  - rewrite (horizon_not_now parsed (py "next3days")) by (auto; discriminate).
    rewrite <- Eh.
    change (str_eqb (py "next3days") (py "tomorrow")) with false.
    change (str_eqb (py "next3days") (py "next3days")) with true. cbv iota.
    apply Nat.ltb_lt in Hshort. rewrite Hshort. reflexivity.
Qed.

(** ** The formatter: numbers *)

Lemma now_branch (parsed : Parsed) :
  In (intent parsed) NOW_INTENTS -> horizon parsed = py "now" ->
  mem (intent parsed) NOW_INTENTS && str_eqb (horizon parsed) (py "now") = true.
Proof.
  intros Hi Hh. apply andb_true_iff. split.
  - now apply mem_In.
  - now apply str_eqb_eq.
Qed.

(** Reduces [now_parts] at a literal intent whose reading is present. *)
Ltac now_block Hnow Hi Hfield Hfloat :=
  unfold format_weather_reply;
  rewrite Hnow by (rewrite Hi; apply mem_In; reflexivity);
  rewrite Hi; unfold now_parts, append_reading;
  rewrite Hfield; unfold format_num; rewrite Hfloat; reflexivity.

(** C8. In the block of current readings, temperature, rain and snow are
    rendered with one decimal place and wind and humidity with none, each
    followed by its unit; the precipitation probability (rendered in the
    replies about tomorrow) has no decimal place and the unit %; a finite
    number rendered with [p] places is digits, and after a point exactly
    [p] digits; and 21.46 is rendered "21.5°C". *)
Theorem numeric_rendering :
  (forall table parsed bundle label v x,
      horizon parsed = py "now" -> float_of_num v = Ok x ->
      let head := py "**" ++ label ++ py "** right now:" in
      let pre := tone_prefix (sentiment parsed) in
      let cur := current bundle in
      (In (intent parsed) [py "temperature_now"; py "conditions_now"] ->
       temperature_c cur = Some v ->
       format table parsed bundle label =
         Ok (pre ++ join nl
               [ head;
                 py "- Temperature: **" ++ format_f 1 x ++ py "°C**";
                 py "- Conditions: **" ++ code_get table (weather_code cur) ++ py "**" ])) /\
      (intent parsed = py "wind_now" -> wind_kmh cur = Some v ->
       format table parsed bundle label =
         Ok (pre ++ join nl [head; py "- Wind: **" ++ format_f 0 x ++ py " km/h**"])) /\
      (intent parsed = py "humidity_now" -> humidity_pct cur = Some v ->
       format table parsed bundle label =
         Ok (pre ++ join nl [head; py "- Humidity: **" ++ format_f 0 x ++ py "%**"])) /\
      (intent parsed = py "rain_now" -> rain_mm cur = Some v ->
       format table parsed bundle label =
         Ok (pre ++ join nl
               [head; py "- Rain (last hour): **" ++ format_f 1 x ++ py " mm**"])) /\
      (intent parsed = py "snow_now" -> snow_mm cur = Some v ->
       format table parsed bundle label =
         Ok (pre ++ join nl
               [head; py "- Snowfall (last hour): **" ++ format_f 1 x ++ py " mm**"]))) /\
  (forall table parsed bundle label d0 d rest pop rain,
      horizon parsed = py "tomorrow" -> intent parsed = py "tomorrow_rain" ->
      daily bundle = d0 :: d :: rest ->
      precip_prob_max d = Some pop -> d_rain_mm d = Some rain ->
      format table parsed bundle label =
        Ok (tone_prefix (sentiment parsed) ++
            (py "**" ++ label ++ py "** tomorrow (" ++ date d ++ py "): " ++
             py "precipitation probability up to **" ++ format_f 0 pop ++ py "%**. ") ++
            py "expected rain ≈ **" ++ format_f 1 rain ++ py " mm**.")) /\
  (forall p x, finite x = true -> fixed_point p (format_f p x)) /\
  (forall table parsed bundle label,
      horizon parsed = py "now" -> intent parsed = py "temperature_now" ->
      temperature_c (current bundle) = Some (PyFloat f21_46) ->
      format table parsed bundle label =
        Ok (tone_prefix (sentiment parsed) ++ join nl
              [ py "**" ++ label ++ py "** right now:";
                py "- Temperature: **21.5°C**";
                py "- Conditions: **" ++
                  code_get table (weather_code (current bundle)) ++ py "**" ])).
Proof.
  split; [|split; [|split]].
  - intros table parsed bundle label v x Hh Hx head pre cur.
    subst head pre cur.
    pose proof (fun H => now_branch parsed H Hh) as Hnow.
    repeat split.
    + intros [Hi | [Hi | []]] Hfield; symmetry in Hi;
        now_block Hnow Hi Hfield Hx.
    + intros Hi Hfield. now_block Hnow Hi Hfield Hx.
    + intros Hi Hfield. now_block Hnow Hi Hfield Hx.
    + intros Hi Hfield. now_block Hnow Hi Hfield Hx.
    + intros Hi Hfield. now_block Hnow Hi Hfield Hx.
  - intros table parsed bundle label d0 d rest pop rain Hh Hi Hd Hpop Hrain.
    unfold format_weather_reply.
    rewrite (horizon_not_now parsed (py "tomorrow")) by (auto; discriminate).
    rewrite Hh, Hd. change (str_eqb (py "tomorrow") (py "tomorrow")) with true.
    cbv iota. unfold tomorrow_reply. rewrite Hi.
    change (str_eqb (py "tomorrow_rain") (py "tomorrow_rain")) with true.
    cbv iota. unfold tomorrow_rain_msg. rewrite Hpop, Hrain.
    cbn [ret Monad_result]. f_equal. f_equal.
    rewrite <- !app_assoc. reflexivity.
  - exact format_f_fixed_point.
  - intros table parsed bundle label Hh Hi Hfield.
    assert (Hnow : In (intent parsed) NOW_INTENTS ->
                   mem (intent parsed) NOW_INTENTS
                   && str_eqb (horizon parsed) (py "now") = true)
      by (intros H; now apply now_branch).
    assert (Hx : float_of_num (PyFloat f21_46) = Ok f21_46) by reflexivity.
    now_block Hnow Hi Hfield Hx.
Qed.

(** ** The formatter: missing readings *)

(** A [None] minimum temperature makes the summary of tomorrow raise,
    and so does any other reading it prints. *)
Lemma tomorrow_summary_raises (table : list (Z * str)) (label : str) (d : Daily) :
  tmin_c d = None \/ tmax_c d = None \/ d_rain_mm d = None \/
  d_snow_mm d = None \/ precip_prob_max d = None ->
  tomorrow_summary table label d = Raise TypeError.
Proof.
  unfold tomorrow_summary.
  intros [H | [H | [H | [H | H]]]]; rewrite H;
    destruct (tmin_c d), (tmax_c d), (d_rain_mm d), (d_snow_mm d),
      (precip_prob_max d); try discriminate; reflexivity.
Qed.

(** The guarded branches leave a missing reading out: a wind request
    without wind reading is answered with the heading alone. *)
Lemma missing_wind_omitted (table : list (Z * str)) (parsed : Parsed)
    (bundle : Bundle) (label : str) :
  horizon parsed = py "now" -> intent parsed = py "wind_now" ->
  wind_kmh (current bundle) = None ->
  format table parsed bundle label =
    Ok (tone_prefix (sentiment parsed) ++ py "**" ++ label ++ py "** right now:").
Proof.
  intros Hh Hi Hw. unfold format_weather_reply.
  rewrite now_branch by (rewrite ?Hi; try apply mem_In; auto).
  rewrite Hi. unfold now_parts, append_reading. rewrite Hw. reflexivity.
Qed.

(** ** Purity *)

(** *** The store *)

Lemma ext_nil (h : Objects.Heap) : Objects.ext h [] = h.
Proof. destruct h as [g os]. unfold Objects.ext. cbn. now rewrite app_nil_r. Qed.

Lemma ext_ext (h : Objects.Heap) (f f' : list Objects.object) :
  Objects.ext (Objects.ext h f) f' = Objects.ext h (f ++ f').
Proof. unfold Objects.ext. cbn. now rewrite app_assoc. Qed.

Lemma kept_refl (h : Objects.Heap) : Objects.kept h h.
Proof. exists []. symmetry. apply ext_nil. Qed.

Lemma kept_ext (h : Objects.Heap) (f : list Objects.object) :
  Objects.kept h (Objects.ext h f).
Proof. now exists f. Qed.

Lemma kept_trans (h1 h2 h3 : Objects.Heap) :
  Objects.kept h1 h2 -> Objects.kept h2 h3 -> Objects.kept h1 h3.
Proof. intros [f ->] [f' ->]. exists (f ++ f'). apply ext_ext. Qed.

Lemma kept_process (h h' : Objects.Heap) :
  Objects.kept h h' -> Objects.process h' = Objects.process h.
Proof. now intros [f ->]. Qed.

Lemma kept_object (h h' : Objects.Heap) (l : Objects.loc) (o : Objects.object) :
  Objects.kept h h' ->
  nth_error (Objects.objects h) l = Some o -> nth_error (Objects.objects h') l = Some o.
Proof.
  intros [f ->] H. cbn. rewrite nth_error_app1; [exact H|].
  apply nth_error_Some. now rewrite H.
Qed.

Lemma kept_last (h : Objects.Heap) (o : Objects.object) :
  nth_error (Objects.objects (Objects.ext h [o])) (List.length (Objects.objects h)) = Some o.
Proof. cbn. rewrite nth_error_app2 by lia. now rewrite Nat.sub_diag. Qed.

(** *** Reads and writes *)

Lemma parsed_get_run {A : Type} (h : Objects.Heap) (l : Objects.loc) (P : Parsed)
    (key : Parsed -> A) :
  nth_error (Objects.objects h) l = Some (Objects.OParsed P) ->
  Objects.parsed_get l key h = Some (Ok (key P), h).
Proof. intros H. unfold Objects.parsed_get, Objects.deref. cbn. now rewrite H. Qed.

Lemma bundle_get_run (h : Objects.Heap) (l dflt : Objects.loc) (b : Objects.BundleDict)
    (key : Objects.BundleDict -> option Objects.loc) :
  nth_error (Objects.objects h) l = Some (Objects.OBundle b) ->
  Objects.bundle_get l key dflt h
  = Some (Ok (match key b with Some r => r | None => dflt end), h).
Proof. intros H. unfold Objects.bundle_get, Objects.deref. cbn. now rewrite H. Qed.

Lemma current_get_run {A : Type} (h : Objects.Heap) (l : Objects.loc) (C : Current)
    (key : Current -> A) :
  nth_error (Objects.objects h) l = Some (Objects.OCurrent C) ->
  Objects.current_get l key h = Some (Ok (key C), h).
Proof. intros H. unfold Objects.current_get, Objects.deref. cbn. now rewrite H. Qed.

Lemma daily_items_run (h : Objects.Heap) (l : Objects.loc) (D : Daily) :
  nth_error (Objects.objects h) l = Some (Objects.ODaily D) ->
  Objects.daily_items l h = Some (Ok D, h).
Proof. intros H. unfold Objects.daily_items, Objects.deref. cbn. now rewrite H. Qed.

Lemma hourly_get_run {A : Type} (h : Objects.Heap) (l : Objects.loc) (R : Hourly)
    (key : Hourly -> A) :
  nth_error (Objects.objects h) l = Some (Objects.OHourly R) ->
  Objects.hourly_get l key h = Some (Ok (key R), h).
Proof. intros H. unfold Objects.hourly_get, Objects.deref. cbn. now rewrite H. Qed.

Lemma refs_run (h : Objects.Heap) (l : Objects.loc) (items : list Objects.loc) :
  nth_error (Objects.objects h) l = Some (Objects.ORefs items) ->
  Objects.refs l h = Some (Ok items, h).
Proof. intros H. unfold Objects.refs, Objects.deref. cbn. now rewrite H. Qed.

Lemma strs_run (h : Objects.Heap) (l : Objects.loc) (items : list str) :
  nth_error (Objects.objects h) l = Some (Objects.OStrs items) ->
  Objects.strs l h = Some (Ok items, h).
Proof. intros H. unfold Objects.strs, Objects.deref. cbn. now rewrite H. Qed.

Lemma replace_last (os : list Objects.object) (o o' : Objects.object) :
  Objects.replace_at (List.length os) o' (os ++ [o]) = os ++ [o'].
Proof. induction os as [|x os IH]; cbn; [reflexivity | now rewrite IH]. Qed.

Lemma assign_last (h : Objects.Heap) (o o' : Objects.object) :
  Objects.assign (List.length (Objects.objects h)) o' (Objects.ext h [o])
  = Some (Ok tt, Objects.ext h [o']).
Proof.
  unfold Objects.assign, Objects.ext. cbn [Objects.objects Objects.process].
  rewrite length_app. cbn [List.length].
  replace (List.length (Objects.objects h) <? List.length (Objects.objects h) + 1)%nat
    with true by (symmetry; apply Nat.ltb_lt; lia).
  now rewrite replace_last.
Qed.

(** [append] on the list a call has just created changes that list and
    nothing else. *)
Lemma append_run (h : Objects.Heap) (items : list str) (s : str) :
  Objects.append (List.length (Objects.objects h)) s (Objects.ext h [Objects.OStrs items])
  = Some (Ok tt, Objects.ext h [Objects.OStrs (items ++ [s])]).
Proof.
  unfold Objects.append. cbn [bind Objects.Monad_M].
  rewrite (strs_run _ _ items) by apply kept_last.
  apply assign_last.
Qed.

Lemma append_ref_run (h : Objects.Heap) (items : list Objects.loc) (r : Objects.loc) :
  Objects.append_ref (List.length (Objects.objects h)) r
    (Objects.ext h [Objects.ORefs items])
  = Some (Ok tt, Objects.ext h [Objects.ORefs (items ++ [r])]).
Proof.
  unfold Objects.append_ref. cbn [bind Objects.Monad_M].
  rewrite (refs_run _ _ items) by apply kept_last.
  apply assign_last.
Qed.

Lemma old_object (h : Objects.Heap) (f : list Objects.object) (l : Objects.loc)
    (o : Objects.object) :
  nth_error (Objects.objects h) l = Some o ->
  nth_error (Objects.objects (Objects.ext h f)) l = Some o.
Proof. apply kept_object, kept_ext. Qed.

Lemma append_reading_run (h : Objects.Heap) (p : nat) (v : option num) (pre suf : str)
    (items : list str) :
  Objects.append_reading p v pre suf (List.length (Objects.objects h))
    (Objects.ext h [Objects.OStrs items])
  = match append_reading p v pre suf items with
    | Ok items' => Some (Ok tt, Objects.ext h [Objects.OStrs items'])
    | Raise e => Some (Raise e, Objects.ext h [Objects.OStrs items])
    end.
Proof.
  unfold Objects.append_reading, append_reading. destruct v as [n|]; [|reflexivity].
  cbn [bind Objects.Monad_M Monad_result]. unfold Objects.pure_of.
  destruct (format_num p (Some n)) as [t|e]; [|reflexivity].
  cbn [ret Monad_result]. apply append_run.
Qed.

(** *** Steps of a call, each with the rest of the call *)

Lemma alloc_bind {A : Type} (h : Objects.Heap) (o : Objects.object)
    (k : Objects.loc -> Objects.M A) :
  bind (Objects.alloc o) k h = k (List.length (Objects.objects h)) (Objects.ext h [o]).
Proof. reflexivity. Qed.

Lemma strs_bind {A : Type} (h : Objects.Heap) (items : list str)
    (k : list str -> Objects.M A) :
  bind (Objects.strs (List.length (Objects.objects h))) k
       (Objects.ext h [Objects.OStrs items])
  = k items (Objects.ext h [Objects.OStrs items]).
Proof.
  cbn [bind Objects.Monad_M]. now rewrite (strs_run _ _ items) by apply kept_last.
Qed.

Lemma refs_bind {A : Type} (h : Objects.Heap) (l : Objects.loc) (items : list Objects.loc)
    (k : list Objects.loc -> Objects.M A) :
  nth_error (Objects.objects h) l = Some (Objects.ORefs items) ->
  bind (Objects.refs l) k h = k items h.
Proof. intros H. cbn [bind Objects.Monad_M]. now rewrite (refs_run _ _ items). Qed.

Lemma parsed_get_bind {A B : Type} (h : Objects.Heap) (l : Objects.loc) (P : Parsed)
    (key : Parsed -> A) (k : A -> Objects.M B) :
  nth_error (Objects.objects h) l = Some (Objects.OParsed P) ->
  bind (Objects.parsed_get l key) k h = k (key P) h.
Proof. intros H. cbn [bind Objects.Monad_M]. now rewrite (parsed_get_run _ _ P). Qed.

Lemma bundle_get_bind {A : Type} (h : Objects.Heap) (l dflt : Objects.loc)
    (b : Objects.BundleDict) (key : Objects.BundleDict -> option Objects.loc)
    (k : Objects.loc -> Objects.M A) :
  nth_error (Objects.objects h) l = Some (Objects.OBundle b) ->
  bind (Objects.bundle_get l key dflt) k h
  = k (match key b with Some r => r | None => dflt end) h.
Proof. intros H. cbn [bind Objects.Monad_M]. now rewrite (bundle_get_run _ _ _ b). Qed.

Lemma daily_items_bind {A : Type} (h : Objects.Heap) (l : Objects.loc) (D : Daily)
    (k : Daily -> Objects.M A) :
  nth_error (Objects.objects h) l = Some (Objects.ODaily D) ->
  bind (Objects.daily_items l) k h = k D h.
Proof. intros H. cbn [bind Objects.Monad_M]. now rewrite (daily_items_run _ _ D). Qed.

Lemma weather_codes_bind {A : Type} (h : Objects.Heap)
    (k : list (Z * str) -> Objects.M A) :
  bind Objects.weather_codes k h = k (weather_table (Objects.process h)) h.
Proof. reflexivity. Qed.

Lemma weather_codes_run (h : Objects.Heap) (f : list Objects.object) :
  Objects.weather_codes (Objects.ext h f)
  = Some (Ok (weather_table (Objects.process h)), Objects.ext h f).
Proof. reflexivity. Qed.

Lemma pure_of_bind {A B : Type} (h : Objects.Heap) (r : result A) (k : A -> Objects.M B) :
  bind (Objects.pure_of r) k h
  = match r with Ok a => k a h | Raise e => Some (Raise e, h) end.
Proof. cbn [bind Objects.Monad_M]. unfold Objects.pure_of. now destruct r. Qed.

(** A guarded reading of the first branch. *)
Lemma reading_bind {A : Type} (h : Objects.Heap) (cur : Objects.loc) (C : Current)
    (b : bool) (key : Current -> option num) (p : nat) (pre suf : str)
    (items : list str) (k : unit -> Objects.M A) :
  nth_error (Objects.objects h) cur = Some (Objects.OCurrent C) ->
  bind (if b then
          w <- Objects.current_get cur key ;;
          Objects.append_reading p w pre suf (List.length (Objects.objects h))
        else ret tt) k (Objects.ext h [Objects.OStrs items])
  = match (if b then append_reading p (key C) pre suf items else Ok items) with
    | Ok items' => k tt (Objects.ext h [Objects.OStrs items'])
    | Raise e => Some (Raise e, Objects.ext h [Objects.OStrs items])
    end.
Proof.
  intros Hc. destruct b; [|reflexivity].
  cbn [bind Objects.Monad_M].
  rewrite (current_get_run _ _ C) by (apply old_object; exact Hc).
  rewrite append_reading_run.
  now destruct (append_reading p (key C) pre suf items).
Qed.

(** Temperature and conditions, the first step of the first branch. *)
Lemma conditions_bind {A : Type} (h : Objects.Heap) (cur : Objects.loc) (C : Current)
    (b : bool) (items : list str) (k : unit -> Objects.M A) :
  nth_error (Objects.objects h) cur = Some (Objects.OCurrent C) ->
  bind (if b then
          temp <- Objects.current_get cur temperature_c ;;
          code <- Objects.current_get cur weather_code ;;
          table <- Objects.weather_codes ;;
          let desc := code_get table code in
          Objects.append_reading 1 temp (py "- Temperature: **") (py "°C**")
            (List.length (Objects.objects h)) ;;
          Objects.append (List.length (Objects.objects h))
            (py "- Conditions: **" ++ desc ++ py "**")
        else ret tt) k (Objects.ext h [Objects.OStrs items])
  = match (if b then
             let desc := code_get (weather_table (Objects.process h)) (weather_code C) in
             match append_reading 1 (temperature_c C) (py "- Temperature: **")
                     (py "°C**") items with
             | Ok parts => Ok (parts ++ [py "- Conditions: **" ++ desc ++ py "**"])
             | Raise e => Raise e
             end
           else Ok items) with
    | Ok items' => k tt (Objects.ext h [Objects.OStrs items'])
    | Raise e => Some (Raise e, Objects.ext h [Objects.OStrs items])
    end.
Proof.
  intros Hc. destruct b; [|reflexivity].
  cbn [bind Objects.Monad_M].
  rewrite (current_get_run _ _ C) by (apply old_object; exact Hc).
  rewrite (current_get_run _ _ C) by (apply old_object; exact Hc).
  rewrite weather_codes_run. cbv zeta.
  rewrite append_reading_run.
  destruct (append_reading 1 (temperature_c C) (py "- Temperature: **") (py "°C**") items)
    as [parts|e]; [|reflexivity].
  now rewrite append_run.
Qed.

(** The store side and the formatter branch on the same outcome. *)
Ltac both_sides :=
  match goal with
  | |- exists _, match ?b with Ok _ => _ | Raise _ => _ end = Some (?R, _) =>
      match R with
      | context [match ?a with Ok _ => _ | Raise _ => _ end] =>
          unify a b; change a with b
      end;
      destruct b as [?parts|?e]; cbv beta iota; [|eexists; reflexivity]
  end.

(** The first branch on the store: the reply of the formatter on the
    readings [cur] refers to, and one new list. *)
Lemma now_reply_run (h : Objects.Heap) (cur : Objects.loc) (C : Current)
    (intent label pre : str) :
  nth_error (Objects.objects h) cur = Some (Objects.OCurrent C) ->
  exists items,
    Objects.now_reply intent cur label pre h
    = Some (parts <- now_parts (weather_table (Objects.process h)) intent C label ;;
            ret (pre ++ join nl parts),
            Objects.ext h [Objects.OStrs items]).
Proof.
  intros Hc. unfold Objects.now_reply, now_parts.
  rewrite alloc_bind. cbv beta.
  rewrite (conditions_bind _ _ C) by exact Hc.
  cbn [bind ret Monad_result]. cbv zeta.
  both_sides.
  rewrite (reading_bind _ _ C) by exact Hc. both_sides.
  rewrite (reading_bind _ _ C) by exact Hc. both_sides.
  rewrite (reading_bind _ _ C) by exact Hc. both_sides.
  rewrite (reading_bind _ _ C) by exact Hc. both_sides.
  rewrite strs_bind. eexists. reflexivity.
Qed.

(** *** Loops *)

Lemma Forall2_firstn {A B : Type} (R : A -> B -> Prop) (n : nat) (xs : list A)
    (ys : list B) :
  Forall2 R xs ys -> Forall2 R (firstn n xs) (firstn n ys).
Proof.
  intros H. revert n. induction H as [|x y xs ys Hxy H IH]; intros [|n]; cbn;
    constructor; auto.
Qed.

Lemma append_bind {A : Type} (h : Objects.Heap) (items : list str) (s : str)
    (k : unit -> Objects.M A) :
  bind (Objects.append (List.length (Objects.objects h)) s) k
       (Objects.ext h [Objects.OStrs items])
  = k tt (Objects.ext h [Objects.OStrs (items ++ [s])]).
Proof. cbn [bind Objects.Monad_M]. now rewrite append_run. Qed.

(** The loop over the days appends the lines of the formatter to the
    new list, and stops where the formatter raises. *)
Lemma each_day_bind {A : Type} (h : Objects.Heap)
    (line : list (Z * str) -> Daily -> result str) (ds : list Objects.loc)
    (days : list Daily) (k : unit -> Objects.M A) :
  Forall2 (fun r x => nth_error (Objects.objects h) r = Some (Objects.ODaily x)) ds days ->
  forall items, exists partial,
    bind (Objects.each_day line ds (List.length (Objects.objects h))) k
         (Objects.ext h [Objects.OStrs items])
    = match append_lines (line (weather_table (Objects.process h))) days items with
      | Ok items' => k tt (Objects.ext h [Objects.OStrs items'])
      | Raise e => Some (Raise e, Objects.ext h [Objects.OStrs partial])
      end.
Proof.
  intros H. induction H as [|d day ds days Hd H IH]; intros items.
  - exists items. reflexivity.
  - cbn [Objects.each_day append_lines].
    destruct (IH (items ++ match line (weather_table (Objects.process h)) day with
                           | Ok l => [l] | Raise _ => [] end)) as [partial IHp].
    exists (match line (weather_table (Objects.process h)) day with
            | Ok _ => partial | Raise _ => items end).
    cbn [bind Objects.Monad_M] in IHp |- *.
    rewrite (daily_items_run _ _ day) by (apply old_object; exact Hd).
    rewrite weather_codes_run. unfold Objects.pure_of.
    cbn [bind Monad_result].
    destruct (line (weather_table (Objects.process h)) day) as [l|e]; [|reflexivity].
    rewrite append_run. exact IHp.
Qed.

(** The comprehension keeps, in order, the references to the rows of
    the window. *)
Lemma keep_rows_run (h : Objects.Heap) (hours : Z * Z) (rows : list Objects.loc)
    (hs : list Hourly) :
  Forall2 (fun r x => nth_error (Objects.objects h) r = Some (Objects.OHourly x)) rows hs ->
  forall acc, exists sel,
    Objects.keep_rows hours rows (List.length (Objects.objects h))
      (Objects.ext h [Objects.ORefs acc])
    = Some (Ok tt, Objects.ext h [Objects.ORefs (acc ++ sel)]) /\
    Forall2 (fun r x => nth_error (Objects.objects h) r = Some (Objects.OHourly x))
            sel (window hours hs).
Proof.
  destruct hours as [start stop].
  intros H. induction H as [|r x rows hs Hr H IH]; intros acc.
  - exists []. split; [now rewrite app_nil_r | constructor].
  - cbn [Objects.keep_rows window filter fst snd bind Objects.Monad_M].
    rewrite (hourly_get_run _ _ x) by (apply old_object; exact Hr).
    destruct (date_offset x =? 1)%Z; cbn [andb].
    + rewrite (hourly_get_run _ _ x) by (apply old_object; exact Hr).
      destruct ((start <=? hour x)%Z && (hour x <? stop)%Z).
      * rewrite append_ref_run. cbv beta iota.
        destruct (IH (acc ++ [r])) as [sel [E F]].
        exists (r :: sel). split.
        -- etransitivity; [exact E|]. now rewrite <- app_assoc.
        -- now constructor.
      * cbn [ret Objects.Monad_M]. exact (IH acc).
    + cbn [ret Objects.Monad_M]. exact (IH acc).
Qed.

Lemma rows_of_run (h : Objects.Heap) (vals : list Objects.loc) (hs : list Hourly) :
  Forall2 (fun r x => nth_error (Objects.objects h) r = Some (Objects.OHourly x)) vals hs ->
  Objects.rows_of vals h = Some (Ok hs, h).
Proof.
  intros H. induction H as [|r x vals hs Hr H IH]; [reflexivity|].
  cbn [Objects.rows_of bind Objects.Monad_M].
  rewrite (hourly_get_run _ _ x) by exact Hr. now rewrite IH.
Qed.

(** *** The branch of tomorrow *)

Lemma summary_run (h : Objects.Heap) (table : list (Z * str)) (label pre : str)
    (D : Daily) :
  (s <- Objects.pure_of (tomorrow_summary table label D) ;; ret (pre ++ s)) h
  = Some (s <- tomorrow_summary table label D ;; ret (pre ++ s), h).
Proof.
  rewrite pure_of_bind. cbn [bind ret Monad_result Objects.Monad_M].
  now destruct (tomorrow_summary table label D).
Qed.

Lemma tomorrow_reply_run (h : Objects.Heap) (P : Parsed) (d hourly : Objects.loc)
    (D : Daily) (rows : list Objects.loc) (hs : list Hourly) (label : str) :
  nth_error (Objects.objects h) d = Some (Objects.ODaily D) ->
  nth_error (Objects.objects h) hourly = Some (Objects.ORefs rows) ->
  Forall2 (fun r x => nth_error (Objects.objects h) r = Some (Objects.OHourly x)) rows hs ->
  exists h',
    Objects.tomorrow_reply fsum (intent P) (tod P) hourly label
      (tone_prefix (sentiment P)) d h
    = Some (tomorrow_reply fsum (weather_table (Objects.process h)) P hs label D, h') /\
    Objects.kept h h'.
Proof.
  intros Hd Hh Hrows. unfold Objects.tomorrow_reply, tomorrow_reply.
  rewrite (daily_items_bind _ _ D) by exact Hd. rewrite weather_codes_bind.
  destruct (str_eqb (intent P) (py "tomorrow_rain")).
  { exists h. split; [reflexivity | apply kept_refl]. }
  cbv zeta.
  destruct (_tod_hours (tod P)) as [hours|].
  2:{ exists h. split; [apply summary_run | apply kept_refl]. }
  rewrite (refs_bind _ _ rows) by exact Hh.
  destruct Hrows as [|r x rows hs Hr Hrows].
  { exists h. split; [apply summary_run | apply kept_refl]. }
  rewrite alloc_bind. cbv beta.
  destruct (keep_rows_run h hours (r :: rows) (x :: hs)
              (Forall2_cons _ _ Hr Hrows) []) as [sel [E F]].
  cbn [app] in E.
  match goal with
  | |- exists _, bind ?m ?k ?g = _ /\ _ =>
      change (bind m k g)
        with (match m g with
              | Some (Ok a, h') => k a h'
              | Some (Raise e, h') => Some (Raise e, h')
              | None => None
              end)
  end.
  rewrite E. cbv beta iota.
  rewrite (refs_bind _ _ sel) by apply kept_last.
  exists (Objects.ext h [Objects.ORefs sel]). split; [|apply kept_ext].
  destruct F as [|v y sel ws Hv F].
  - apply summary_run.
  - cbn [bind Objects.Monad_M].
    rewrite (rows_of_run _ _ (y :: ws)).
    + unfold Objects.pure_of. cbn [bind ret Monad_result].
      now destruct (window_msg fsum label (str_of (tod P)) (y :: ws)).
    + constructor; [now apply old_object|].
      eapply Forall2_impl; [|exact F]. intros a b. apply old_object.
Qed.

(** *** The formatter *)

Lemma lists_kept {A : Type} (h g : Objects.Heap) (wrap : A -> Objects.object)
    (key : option Objects.loc) (xs : list A) (dflt : Objects.loc) :
  Objects.kept h g ->
  Objects.lists (Objects.objects h) wrap key xs ->
  nth_error (Objects.objects g) dflt = Some (Objects.ORefs []) ->
  exists items,
    nth_error (Objects.objects g) (match key with Some l => l | None => dflt end)
    = Some (Objects.ORefs items) /\
    Forall2 (fun r x => nth_error (Objects.objects g) r = Some (wrap x)) items xs.
Proof.
  intros K H Hd. destruct key as [l|]; cbn [Objects.lists] in H.
  - destruct H as [items [Hl F]]. exists items. split.
    + exact (kept_object _ _ _ _ K Hl).
    + eapply Forall2_impl; [|exact F]. intros a b. apply kept_object, K.
  - subst xs. exists []. split; [exact Hd | constructor].
Qed.

(** The loop of the call and the lines of the formatter have the same
    outcome. *)
Ltac lines_outcome E :=
  match type of E with
  | _ = match ?a with Ok _ => _ | Raise _ => _ end =>
      match goal with
      | |- context [Some (match ?a' with Ok _ => _ | Raise _ => _ end, _)] =>
          unify a a'; change a' with a
      end;
      destruct a as [?lines|?e]
  end.

(** On a store that holds a request and a bundle, the call returns what
    the formatter returns on them, and leaves the store with further
    objects only. *)
Lemma format_run (h : Objects.Heap) (parsed bundle : Objects.loc) (P : Parsed)
    (B : Bundle) (label : str) :
  Objects.holds h parsed bundle P B ->
  exists h',
    Objects.format_weather_reply fsum parsed bundle label h
    = Some (format_weather_reply fsum (weather_table (Objects.process h)) P B label, h') /\
    Objects.kept h h'.
Proof.
  intros [Hp [b [Hb [Hc [Hd Hh]]]]].
  unfold Objects.format_weather_reply.
  rewrite (parsed_get_bind _ _ P) by exact Hp. cbv beta.
  rewrite (parsed_get_bind _ _ P) by exact Hp. cbv beta.
  rewrite (parsed_get_bind _ _ P) by exact Hp. cbv beta.
  rewrite alloc_bind. cbv beta.
  set (g1 := Objects.ext h [Objects.OCurrent no_readings]).
  assert (K1 : Objects.kept h g1) by apply kept_ext.
  rewrite (bundle_get_bind _ _ _ b) by exact (kept_object _ _ _ _ K1 Hb). cbv beta.
  rewrite alloc_bind. cbv beta.
  set (g2 := Objects.ext g1 [Objects.ORefs []]).
  assert (K2 : Objects.kept g1 g2) by apply kept_ext.
  assert (K12 : Objects.kept h g2) by (eapply kept_trans; eassumption).
  rewrite (bundle_get_bind _ _ _ b) by exact (kept_object _ _ _ _ K12 Hb). cbv beta.
  rewrite alloc_bind. cbv beta.
  set (g := Objects.ext g2 [Objects.ORefs []]).
  assert (K3 : Objects.kept g2 g) by apply kept_ext.
  assert (K : Objects.kept h g) by (eapply kept_trans; eassumption).
  rewrite (bundle_get_bind _ _ _ b) by exact (kept_object _ _ _ _ K Hb). cbv beta.
  rewrite (parsed_get_bind _ _ P) by exact (kept_object _ _ _ _ K Hp). cbv beta zeta.
  assert (Fc : nth_error (Objects.objects g)
                 (match Objects.b_current b with
                  | Some r => r
                  | None => List.length (Objects.objects h)
                  end) = Some (Objects.OCurrent (current B))).
  { destruct (Objects.b_current b) as [c|].
    - exact (kept_object _ _ _ _ K Hc).
    - rewrite Hc. apply (kept_object g1 g); [eapply kept_trans; eassumption|].
      apply kept_last. }
  destruct (lists_kept h g Objects.ODaily (Objects.b_daily b) (daily B)
              (List.length (Objects.objects g1)) K Hd) as [ds [Fd Fds]].
  { eapply kept_object; [exact K3|]. apply kept_last. }
  destruct (lists_kept h g Objects.OHourly (Objects.b_hourly b) (hourly B)
              (List.length (Objects.objects g2)) K Hh) as [rows [Fh Fhs]].
  { apply kept_last. }
  set (cur := match Objects.b_current b with
              | Some r => r | None => List.length (Objects.objects h) end) in *.
  set (dl := match Objects.b_daily b with
             | Some r => r | None => List.length (Objects.objects g1) end) in *.
  set (hl := match Objects.b_hourly b with
             | Some r => r | None => List.length (Objects.objects g2) end) in *.
  assert (T : weather_table (Objects.process h) = weather_table (Objects.process g))
    by (now rewrite (kept_process _ _ K)).
  rewrite T. clearbody g cur dl hl. clear g1 g2 K1 K2 K12 K3 T.
  assert (Done : forall (run : option (result str * Objects.Heap)) r h',
            run = Some (r, h') -> Objects.kept g h' ->
            exists h'', run = Some (r, h'') /\ Objects.kept h h'').
  { intros run r h' E K'. exists h'. split; [exact E | eapply kept_trans; eassumption]. }
  unfold format_weather_reply.
  destruct (mem (intent P) NOW_INTENTS && str_eqb (horizon P) (py "now")).
  { destruct (now_reply_run g cur (current B) (intent P) label
                (tone_prefix (sentiment P)) Fc) as [items E].
    eapply Done; [exact E | apply kept_ext]. }
  destruct (str_eqb (horizon P) (py "tomorrow")).
  { rewrite (refs_bind _ _ ds) by exact Fd.
    destruct Fds as [|d0 D0 ds days Hd0 Fds];
      [eapply Done; [reflexivity | apply kept_refl]|].
    destruct Fds as [|d D ds days Hd1 Fds];
      [eapply Done; [reflexivity | apply kept_refl]|].
    destruct (tomorrow_reply_run g P d hl D rows (hourly B) label Hd1 Fh Fhs)
      as [h' [E K']].
    eapply Done; [exact E | exact K']. }
  destruct (str_eqb (horizon P) (py "next3days")).
  { rewrite (refs_bind _ _ ds) by exact Fd.
    rewrite (Forall2_length Fds).
    destruct (List.length (daily B) <? 3)%nat;
      [eapply Done; [reflexivity | apply kept_refl]|].
    rewrite alloc_bind. cbv beta.
    destruct (each_day_bind g next3days_line (firstn 3 ds) (firstn 3 (daily B))
                (fun _ => items <- Objects.strs (List.length (Objects.objects g)) ;;
                          ret (tone_prefix (sentiment P) ++ join nl items))
                (Forall2_firstn _ 3 _ _ Fds)
                [py "**" ++ label ++ py "** – next 3 days:"]) as [partial E].
    cbn [bind ret Monad_result].
    lines_outcome E; (eapply Done; [etransitivity; [exact E|] | apply kept_ext]);
      [cbv beta; rewrite strs_bind|]; reflexivity. }
  destruct (str_eqb (horizon P) (py "week")).
  { rewrite (refs_bind _ _ ds) by exact Fd.
    rewrite (Forall2_length Fds).
    destruct (List.length (daily B) <? 7)%nat;
      [eapply Done; [reflexivity | apply kept_refl]|].
    rewrite alloc_bind. cbv beta.
    destruct (each_day_bind g week_line (firstn 7 ds) (firstn 7 (daily B))
                (fun _ => items <- Objects.strs (List.length (Objects.objects g)) ;;
                          ret (tone_prefix (sentiment P) ++ join nl items))
                (Forall2_firstn _ 7 _ _ Fds)
                [py "**" ++ label ++ py "** – 7-day outlook:"]) as [partial E].
    cbn [bind ret Monad_result].
    lines_outcome E; (eapply Done; [etransitivity; [exact E|] | apply kept_ext]);
      [cbv beta; rewrite strs_bind|]; reflexivity. }
  destruct (str_eqb (intent P) (py "help"));
    (eapply Done; [reflexivity | apply kept_refl]).
Qed.

(** *** The rule cascade *)

Lemma any_cue_run (h : Objects.Heap) (cues : list string) (t : str) :
  Objects.any_cue cues t h
  = Some (Ok (any_in (map py cues) t), Objects.ext h [Objects.OStrs (map py cues)]).
Proof.
  unfold Objects.any_cue. rewrite alloc_bind. cbv beta. now rewrite strs_bind.
Qed.

Lemma any_cue_bind {A : Type} (h : Objects.Heap) (cues : list string) (t : str)
    (k : bool -> Objects.M A) :
  bind (Objects.any_cue cues t) k h
  = k (any_in (map py cues) t) (Objects.ext h [Objects.OStrs (map py cues)]).
Proof.
  cbn [bind Objects.Monad_M]. now rewrite any_cue_run.
Qed.

Ltac kept_chain :=
  repeat (eapply kept_trans; [|apply kept_ext]); apply kept_refl.

(** The call returns the label of the cascade, and its lists of cues
    are new objects. *)
Lemma classify_run (h : Objects.Heap) (text : str) :
  exists h',
    Objects._predict_intent_rules u_lower text h
    = Some (Ok (_predict_intent_rules u_lower text), h') /\
    Objects.kept h h'.
Proof.
  unfold Objects._predict_intent_rules, _predict_intent_rules. cbv zeta.
  repeat first
    [ rewrite any_cue_bind; cbv beta
    | match goal with
      | |- exists _, (if ?c then _ else _) _ = _ /\ _ => destruct c
      end ];
    (eexists; split; [reflexivity | kept_chain]).
Qed.

(** *** Two calls *)

Lemma holds_kept (h h' : Objects.Heap) (parsed bundle : nat) (P : Parsed) (B : Bundle) :
  Objects.holds h parsed bundle P B -> Objects.kept h h' ->
  Objects.holds h' parsed bundle P B.
Proof.
  intros [Hp [b [Hb [Hc [Hd Hh]]]]] K. split; [exact (kept_object _ _ _ _ K Hp)|].
  exists b. split; [exact (kept_object _ _ _ _ K Hb)|].
  assert (L : forall (A : Type) (wrap : A -> Objects.object) key xs,
            Objects.lists (Objects.objects h) wrap key xs ->
            Objects.lists (Objects.objects h') wrap key xs).
  { intros A wrap [l|] xs; cbn [Objects.lists]; [|auto].
    intros [items [Hl F]]. exists items. split; [exact (kept_object _ _ _ _ K Hl)|].
    eapply Forall2_impl; [|exact F]. intros a c. apply kept_object, K. }
  split; [|split; apply L; assumption].
  destruct (Objects.b_current b) as [c|]; [exact (kept_object _ _ _ _ K Hc) | exact Hc].
Qed.

(** A call of the formatter in any store that [h] has grown into. *)
Lemma format_again (h g : Objects.Heap) (parsed bundle : nat) (P : Parsed) (B : Bundle)
    (label : str) :
  Objects.holds h parsed bundle P B -> Objects.kept h g ->
  exists g',
    Objects.attempt (Objects.format_weather_reply fsum parsed bundle label) g
    = Some (Ok (format (weather_table (Objects.process h)) P B label), g') /\
    Objects.kept h g'.
Proof.
  intros H K.
  destruct (format_run g parsed bundle P B label (holds_kept _ _ _ _ _ _ H K))
    as [g' [E K']].
  exists g'. split; [|eapply kept_trans; eassumption].
  unfold Objects.attempt. rewrite E. now rewrite (kept_process _ _ K).
Qed.

Lemma classify_again (h g : Objects.Heap) (text : str) :
  Objects.kept h g ->
  exists g',
    Objects._predict_intent_rules u_lower text g = Some (Ok (classify text), g') /\
    Objects.kept h g'.
Proof.
  intros K. destruct (classify_run g text) as [g' [E K']].
  exists g'. split; [exact E | eapply kept_trans; eassumption].
Qed.

(** C9. On a store that holds a request and a bundle, two calls of the
    formatter with the same references and label give the same reply (or
    raise the same exception), two calls of the rule classifier on the
    same text give the same label, and so do the calls of both in turn;
    after the calls the module state and every object of the store are
    as they were, each at its reference: the calls only add objects of
    their own. *)
Theorem two_run_purity (h : Objects.Heap) (parsed bundle : nat) (P : Parsed)
    (B : Bundle) (label text : str) :
  Objects.holds h parsed bundle P B ->
  let reply := format (weather_table (Objects.process h)) P B label in
  let fmt := Objects.attempt (Objects.format_weather_reply fsum parsed bundle label) in
  let cls := Objects._predict_intent_rules u_lower text in
  (exists h', (a <- fmt ;; b <- fmt ;; ret (a, b)) h = Some (Ok (reply, reply), h') /\
              Objects.kept h h') /\
  (exists h', (a <- cls ;; b <- cls ;; ret (a, b)) h
              = Some (Ok (classify text, classify text), h') /\
              Objects.kept h h') /\
  (exists h', (a <- cls ;; r <- fmt ;; b <- cls ;; r' <- fmt ;; ret (a, r, b, r')) h
              = Some (Ok (classify text, reply, classify text, reply), h') /\
              Objects.kept h h').
Proof.
  intros H reply fmt cls. subst reply fmt cls.
  split; [|split]; cbn [bind ret Objects.Monad_M].
  - destruct (format_again h h parsed bundle P B label H (kept_refl h)) as [h1 [E1 K1]].
    destruct (format_again h h1 parsed bundle P B label H K1) as [h2 [E2 K2]].
    exists h2. rewrite E1, E2. split; [reflexivity | exact K2].
  - destruct (classify_again h h text (kept_refl h)) as [h1 [E1 K1]].
    destruct (classify_again h h1 text K1) as [h2 [E2 K2]].
    exists h2. rewrite E1, E2. split; [reflexivity | exact K2].
  - destruct (classify_again h h text (kept_refl h)) as [h1 [E1 K1]].
    destruct (format_again h h1 parsed bundle P B label H K1) as [h2 [E2 K2]].
    destruct (classify_again h h2 text K2) as [h3 [E3 K3]].
    destruct (format_again h h3 parsed bundle P B label H K3) as [h4 [E4 K4]].
    exists h4. rewrite E1, E2, E3, E4. split; [reflexivity | exact K4].
Qed.

(** ** Cues of the classifier and of the horizon *)

(** C10. On "next three", with a remembered location and no trained
    model, the intent is [next3days_summary] while the horizon is [now],
    and the reply is the generic fallback whatever the bundle holds. *)
Theorem cue_set_divergence :
  exists msg : str,
    let p := interpret bare_process (Some msg) (Some (py "Paris")) VNone VNone in
    error p = None /\
    intent p = py "next3days_summary" /\
    classify msg = py "next3days_summary" /\
    horizon p = py "now" /\
    forall table bundle label, format table p bundle label = Ok DEFAULT_FALLBACK.
Proof.
  exists (py "next three"). repeat split; vm_compute; reflexivity.
Qed.

End Properties.

(* ================================================================== *)
(** * Runs on concrete inputs *)

(** C3. The formatter raises on a bundle that [_parse_bundle] builds:
    the provider sends [null] as the minimum temperature of tomorrow, the
    entry keeps it as [None], and the summary of tomorrow formats it. *)
Theorem format_raises_on_null_reading :
  exists days : list Daily,
    daily_list null_tmin_json = Ok days /\
    option_map tmin_c (nth_error days 1) = Some None /\
    let parsed := run_interpret bare_process (Some (py "weather tomorrow"))
                    (Some (py "Paris")) VNone VNone in
    error parsed = None /\
    intent parsed = py "tomorrow_summary" /\ horizon parsed = py "tomorrow" /\
    format_weather_reply fsum_seq _WEATHER_CODE parsed
      {| current := no_readings; daily := days; hourly := [] |} (py "Paris")
    = Raise TypeError.
Proof.
  eexists. split; [vm_compute; reflexivity|].
  repeat split; vm_compute; reflexivity.
Qed.

(** ** Classification *)

Lemma classifier_total_witness :
  labels_in_intents help_process /\
  In (_predict_intent_rules no_lower (py "temperature in Lisbon")) WEATHER_INTENTS /\
  In (predict_intent no_lower no_stem help_process (py "temperature in Lisbon"))
     WEATHER_INTENTS.
Proof.
  assert (H : labels_in_intents help_process).
  { intros classifier feats label Hm Hc. injection Hm as <-. injection Hc as <-.
    right. apply mem_In. reflexivity. }
  split; [exact H|].
  exact (classifier_total no_lower no_stem help_process (py "temperature in Lisbon") H).
Defined.

(** With a classifier that answers [greeting], the intent of the request
    is [greeting], which is none of the eleven. *)
Lemma classifier_label_outside_intents :
  let p := run_interpret greeting_process (Some (py "hello there"))
             (Some (py "Paris")) VNone VNone in
  intent p = py "greeting" /\ error p = None /\ ~ In (intent p) WEATHER_INTENTS.
Proof.
  split; [vm_compute; reflexivity|]. split; [vm_compute; reflexivity|].
  intros H. apply mem_In in H. vm_compute in H. discriminate.
Qed.

(** ** Help *)

Lemma help_reply_witness :
  let p := run_interpret bare_process (Some (py "help")) (Some (py "Paris")) VNone VNone in
  intent p = py "help" /\
  ~ In (horizon p) [py "tomorrow"; py "next3days"; py "week"] /\
  format_weather_reply fsum_seq _WEATHER_CODE p week_bundle (py "Paris") = Ok HELP_MESSAGE.
Proof.
  intros p.
  assert (Hi : intent p = py "help") by (vm_compute; reflexivity).
  assert (Hh : ~ In (horizon p) [py "tomorrow"; py "next3days"; py "week"]).
  { intros H. apply mem_In in H. vm_compute in H. discriminate. }
  split; [exact Hi|]. split; [exact Hh|].
  exact (help_reply fsum_seq _WEATHER_CODE p week_bundle (py "Paris") Hi Hh).
Defined.

(** "help tomorrow" has intent [help] and horizon [tomorrow]; the reply
    is the summary of tomorrow, not the usage message. *)
Lemma help_reply_depends_on_horizon :
  let p := run_interpret bare_process (Some (py "help tomorrow"))
             (Some (py "Paris")) VNone VNone in
  intent p = py "help" /\
  error p = None /\
  format_weather_reply fsum_seq _WEATHER_CODE p week_bundle (py "Paris")
  = Ok (py "**Paris** tomorrow (2024-05-02): **slight rain**" ++ nl ++
        py "- Min/Max: **12.5°C / 18.0°C**" ++ nl ++
        py "- Rain: **1.2 mm**, Snow: **0.0 mm**" ++ nl ++
        py "- Precip. probability (max): **40%**") /\
  format_weather_reply fsum_seq _WEATHER_CODE p week_bundle (py "Paris")
  <> Ok HELP_MESSAGE.
Proof.
  repeat split; try (vm_compute; reflexivity).
  vm_compute. discriminate.
Qed.

(** ** Fallbacks *)

Lemma insufficient_data_fallback_witness :
  let p := run_interpret bare_process (Some (py "week forecast"))
             (Some (py "Paris")) VNone VNone in
  (List.length (daily short_bundle) < 7)%nat /\
  format_weather_reply fsum_seq _WEATHER_CODE p short_bundle (py "Paris")
  = Ok WEEK_FALLBACK.
Proof.
  intros p.
  assert (Hs : (List.length (daily short_bundle) < 7)%nat) by (vm_compute; lia).
  split; [exact Hs|].
  refine (insufficient_data_fallback fsum_seq _WEATHER_CODE p short_bundle
            (py "Paris") 7%nat WEEK_FALLBACK _ Hs).
  left. vm_compute. reflexivity.
Defined.

(** ** Location *)

Lemma location_extraction_witness :
  search no_class no_class no_fold true (strip no_class (py "xyz")) RE_PREPOSITION = None /\
  _extract_location no_lower no_class no_class no_fold (py "xyz") = None.
Proof.
  split; [vm_compute; reflexivity|].
  apply (proj2 (proj2 (location_extraction no_lower no_class no_class no_fold))).
  split; [vm_compute; reflexivity|].
  split; [vm_compute; reflexivity|].
  intros m Hm. vm_compute in Hm. discriminate.
Defined.

(** ** Interpreter *)

(** "temperature" without coordinates and without remembered location
    asks for a location; with "Berlin, Germany" remembered it does not. *)
Lemma interpreter_error_contract_witness :
  let p := run_interpret bare_process (Some (py "temperature")) None
             (VStr (py "north")) (VStr (py "east")) in
  read_coords no_float (VStr (py "north")) (VStr (py "east")) = None /\
  error p <> None.
Proof.
  intros p.
  assert (Hc : read_coords no_float (VStr (py "north")) (VStr (py "east")) = None)
    by (vm_compute; reflexivity).
  split; [exact Hc|].
  apply (proj1 (interpreter_error_contract no_lower no_class no_class no_fold
                  no_stem no_float bare_process (Some (py "temperature")) None
                  (VStr (py "north")) (VStr (py "east")))).
  split; [exact Hc|]. split; vm_compute; reflexivity.
Defined.

Example interpret_remembered_location :
  let p := run_interpret bare_process (Some (py "temperature"))
             (Some (py "Berlin, Germany")) VNone VNone in
  location_label p = Some (py "Berlin, Germany") /\ error p = None /\
  intent p = py "temperature_now" /\ horizon p = py "now".
Proof. repeat split; vm_compute; reflexivity. Qed.

(** ** Numbers *)

Lemma numeric_rendering_witness :
  let p := run_interpret bare_process (Some (py "humidity")) (Some (py "Paris"))
             VNone VNone in
  let b := {| current := mild_day; daily := []; hourly := [] |} in
  horizon p = py "now" /\ intent p = py "humidity_now" /\
  float_of_num (PyInt 65) = Ok (S754_finite false 4573968371548160 (-46)) /\
  format_weather_reply fsum_seq _WEATHER_CODE p b (py "Paris")
  = Ok (py "**Paris** right now:" ++ nl ++ py "- Humidity: **65%**").
Proof.
  intros p b.
  assert (Hh : horizon p = py "now") by (vm_compute; reflexivity).
  assert (Hi : intent p = py "humidity_now") by (vm_compute; reflexivity).
  assert (Hx : float_of_num (PyInt 65) = Ok (S754_finite false 4573968371548160 (-46)))
    by (vm_compute; reflexivity).
  repeat (split; [assumption|]).
  pose proof (proj1 (numeric_rendering fsum_seq)) as H.
  specialize (H _WEATHER_CODE p b (py "Paris") (PyInt 65) _ Hh Hx).
  destruct H as (_ & _ & Hhum & _).
  exact (Hhum Hi eq_refl).
Defined.

(** ** Calls on the store *)

(** The call for tomorrow morning on the sample store: the reply is made
    of the hourly row, and the store is left with the three defaults of
    the call and its list [vals], which refers to the row of the
    bundle. *)
Example morning_call :
  Objects.format_weather_reply fsum_seq 0 1 (py "Paris") morning_store
  = Some (Ok (py "**Paris** tomorrow morning: avg precip prob ~ **40%**, rain sum ~ **0.0 mm**."),
          Objects.ext morning_store
            [ Objects.OCurrent no_readings; Objects.ORefs []; Objects.ORefs [];
              Objects.ORefs [12%nat] ]).
Proof. vm_compute. reflexivity. Qed.

(** A write to an object of the caller is not a store that was kept. *)
Example assign_is_not_kept :
  exists h',
    Objects.assign 0 (Objects.OParsed (without_tod morning_request)) morning_store
    = Some (Ok tt, h') /\
    ~ Objects.kept morning_store h'.
Proof.
  eexists. split; [reflexivity|].
  intros [fresh E]. apply (f_equal (fun h => nth_error (Objects.objects h) 0)) in E.
  vm_compute in E. discriminate E.
Qed.

Lemma two_run_purity_witness :
  Objects.holds morning_store 0 1 morning_request morning_bundle /\
  let text := py "will it snow tomorrow morning" in
  let reply := format_weather_reply fsum_seq (weather_table bare_process)
                 morning_request morning_bundle (py "Paris") in
  let label := _predict_intent_rules no_lower text in
  let fmt := Objects.attempt (Objects.format_weather_reply fsum_seq 0 1 (py "Paris")) in
  let cls := Objects._predict_intent_rules no_lower text in
  (exists h', (a <- fmt ;; b <- fmt ;; ret (a, b)) morning_store
              = Some (Ok (reply, reply), h') /\
              Objects.kept morning_store h') /\
  (exists h', (a <- cls ;; b <- cls ;; ret (a, b)) morning_store
              = Some (Ok (label, label), h') /\
              Objects.kept morning_store h') /\
  (exists h', (a <- cls ;; r <- fmt ;; b <- cls ;; r' <- fmt ;; ret (a, r, b, r'))
                morning_store
              = Some (Ok (label, reply, label, reply), h') /\
              Objects.kept morning_store h').
Proof.
  assert (H : Objects.holds morning_store 0 1 morning_request morning_bundle).
  { split; [reflexivity|]. eexists. split; [reflexivity|].
    split; [reflexivity|].
    split; (eexists; split; [reflexivity|]); cbn; repeat constructor. }
  split; [exact H|].
  exact (two_run_purity no_lower fsum_seq morning_store 0 1 morning_request
           morning_bundle (py "Paris") (py "will it snow tomorrow morning") H).
Defined.

(* ================================================================== *)
(** * Further properties *)

(** ** Substrings *)

Lemma startswith_spec (p s : str) :
  startswith p s = true <-> exists b, s = p ++ b.
Proof.
  revert s. induction p as [|x p IH]; intros s; simpl.
  - split; [intros _; now exists s | reflexivity].
  - destruct s as [|y s].
    + split; [discriminate | intros [b Hb]; discriminate].
    + rewrite andb_true_iff, N.eqb_eq, IH. split.
      * intros [-> [b ->]]. now exists b.
      * intros [b Hb]. injection Hb as -> ->. split; [reflexivity | now exists b].
Qed.

Lemma str_in_spec (x t : str) :
  str_in x t = true <-> exists a b, t = a ++ x ++ b.
Proof.
  induction t as [|c t IH].
  - simpl. rewrite orb_false_r, startswith_spec. split.
    + intros [b Hb]. now exists [], b.
    + intros (a & b & H). destruct a; [now exists b | discriminate].
  - cbn [str_in]. rewrite orb_true_iff, startswith_spec, IH. split.
    + intros [[b Hb] | (a & b & ->)].
      * now exists [], b.
      * now exists (c :: a), b.
    + intros (a & b & H). destruct a as [|c' a].
      * left. now exists b.
      * right. injection H as -> ->. now exists a, b.
Qed.

Lemma str_in_trans (x y t : str) :
  str_in x y = true -> str_in y t = true -> str_in x t = true.
Proof.
  rewrite !str_in_spec. intros (a & b & ->) (a' & b' & ->).
  exists (a' ++ a), (b ++ b'). now rewrite <- !app_assoc.
Qed.

(** Cues that each contain a cue of another list. *)
Lemma any_in_covered (cues cues' : list str) (t : str) :
  forallb (fun x => existsb (fun y => str_in y x) cues') cues = true ->
  any_in cues t = true -> any_in cues' t = true.
Proof.
  unfold any_in. rewrite forallb_forall, !existsb_exists.
  intros Hc (x & Hx & Hin). destruct (proj1 (existsb_exists _ _) (Hc x Hx)) as (y & Hy & Hyx).
  exists y. split; [assumption | now apply str_in_trans with x].
Qed.

Section CascadeFacts.
Set Default Proof Using "Type".
Variable u_lower : str -> str.

(** X1. The intents of tomorrow come with the horizon [tomorrow], the
    intent [week_summary] with the horizon [week], and [rain_now] and
    [snow_now] never with the horizon [tomorrow]. *)
Theorem intent_horizon_agree (text : str) :
  let intent := _predict_intent_rules u_lower text in
  let horizon := fst (_extract_time_window u_lower text) in
  (In intent [py "tomorrow_summary"; py "tomorrow_rain"] -> horizon = py "tomorrow") /\
  (intent = py "week_summary" -> horizon = py "week") /\
  (In intent [py "rain_now"; py "snow_now"] -> horizon <> py "tomorrow").
Proof.
  intros intent horizon. subst intent horizon.
  unfold _predict_intent_rules, _extract_time_window. cbn [fst].
  set (t := lower u_lower text).
  assert (H3 : any_in (map py ["next 3"; "3 day"; "three day"]%string) t = true ->
               any_in (map py ["next 3"; "3 day"; "three day"; "next three"]%string) t = true)
    by (apply any_in_covered; vm_compute; reflexivity).
  assert (Hw : any_in (map py ["this week"; "next 7"; "7 day"; "week forecast"; "weekly"]%string) t = true ->
               any_in (map py ["week"; "7 day"; "next 7"]%string) t = true)
    by (apply any_in_covered; vm_compute; reflexivity).
  destruct (any_in (map py ["help"; "what can you do"; "commands"; "examples"]%string) t).
  { repeat split; intros H; try apply mem_In in H; vm_compute in H; discriminate. }
  destruct (str_in (py "tomorrow") t) eqn:Et;
  destruct (any_in (map py ["this week"; "next 7"; "7 day"; "week forecast"; "weekly"]%string) t) eqn:Ew;
  destruct (any_in (map py ["next 3"; "3 day"; "three day"; "next three"]%string) t) eqn:E3;
  destruct (any_in (map py ["next 3"; "3 day"; "three day"]%string) t) eqn:E3';
  try (specialize (H3 eq_refl); discriminate);
  try rewrite (Hw eq_refl); cbn [negb];
  repeat match goal with
         | |- context [if any_in ?c t then _ else _] => destruct (any_in c t)
         end;
  repeat split; intros H; try reflexivity;
  try (apply mem_In in H; vm_compute in H; discriminate);
  try (vm_compute in H; discriminate);
  try (intros E; vm_compute in E; discriminate).
Qed.

End CascadeFacts.
Section WindowFacts.
Set Default Proof Using "Type".
Variable u_lower : str -> str.
Variable fsum : list float -> float.

(** X2. The horizon is one of the four names, the time of day is absent or
    one of the four names, and a time of day that was extracted always has
    an hour range. *)
Theorem time_window_range (text : str) :
  let '(horizon, tod) := _extract_time_window u_lower text in
  In horizon [py "now"; py "tomorrow"; py "next3days"; py "week"] /\
  (tod = None \/
   exists t, tod = Some t /\
     In (t, _tod_hours tod)
        [ (py "morning", Some (6, 12)%Z); (py "afternoon", Some (12, 18)%Z);
          (py "evening", Some (18, 24)%Z); (py "night", Some (0, 6)%Z) ]).
Proof.
  unfold _extract_time_window. set (t := lower u_lower text). split.
  - repeat match goal with
           | |- context [if ?b then _ else _] => destruct b
           end; apply mem_In; reflexivity.
  - repeat match goal with
           | |- context [if ?b then _ else _] => destruct b
           end; try (now left);
      right; eexists; (split; [reflexivity|]); cbn; tauto.
Qed.

End WindowFacts.
Section ToneFacts.
Set Default Proof Using "Type".
Variable fsum : list float -> float.

Lemma tone_prefix_cases (s : option str) :
  (tone_prefix s = [] /\ s <> Some (py "negative")) \/
  (tone_prefix s = TONE_PREFIX /\ s = Some (py "negative")).
Proof.
  destruct s as [s|]; unfold tone_prefix.
  - destruct (str_eqb s (py "negative")) eqn:E.
    + right. apply str_eqb_eq in E. now subst.
    + left. split; [reflexivity|]. intros H. injection H as ->.
      now rewrite str_eqb_refl in E.
  - left. split; [reflexivity | discriminate].
Qed.

(** X3. The sentiment of a request changes the reply by the lead-in
    alone: without negative sentiment the reply is that of the request
    without sentiment, and with it the reply is the same one, with the
    lead-in in front unless it is a fallback, the usage message or the
    generic reply; an exception stays the same exception. *)
Theorem sentiment_only_prefixes (table : list (Z * str)) (p : Parsed)
    (bundle : Bundle) (label : str) :
  let plain := format_weather_reply fsum table (without_sentiment p) bundle label in
  let reply := format_weather_reply fsum table p bundle label in
  (sentiment p <> Some (py "negative") -> reply = plain) /\
  (reply = plain \/ reply = with_lead TONE_PREFIX plain).
Proof.
  intros plain reply.
  assert (Hgen : forall pre, tone_prefix (sentiment p) = pre ->
            (pre = [] -> reply = plain) /\
            (reply = plain \/ reply = with_lead pre plain)).
  { intros pre Hpre. subst plain reply.
    unfold format_weather_reply, tomorrow_reply.
    cbn [intent horizon tod sentiment without_sentiment].
    change (tone_prefix None) with (@nil N).
    rewrite Hpre.
    repeat match goal with
           | |- context [if ?b then _ else _] => destruct b
           | |- context [match daily bundle with _ => _ end] => destruct (daily bundle) as [|? [|? ?]]
           | |- context [match _tod_hours ?t with _ => _ end] => destruct (_tod_hours t)
           | |- context [match hourly bundle with _ => _ end] => destruct (hourly bundle)
           | |- context [match window ?h ?l with _ => _ end] => destruct (window h l)
           | |- context [now_parts ?a ?b ?c ?d] => destruct (now_parts a b c d)
           | |- context [tomorrow_summary ?a ?b ?c] => destruct (tomorrow_summary a b c)
           | |- context [window_msg ?f ?a ?b ?c] => destruct (window_msg f a b c)
           | |- context [append_lines ?a ?b ?c] => destruct (append_lines a b c)
           end; cbn [bind ret Monad_result with_lead app];
      (split; [intros ->; reflexivity | auto]). }
  destruct (tone_prefix_cases (sentiment p)) as [[Hp Hs] | [Hp Hs]].
  - destruct (Hgen [] Hp) as [H1 H2]. specialize (H1 eq_refl). split; auto.
  - destruct (Hgen _ Hp) as [H1 H2]. split; [intros H; contradiction | exact H2].
Qed.
End ToneFacts.
Section GuardFacts.
Set Default Proof Using "Type".
Variable fsum : list float -> float.

Lemma append_reading_cases (p : nat) (v : option num) (pre suf : str)
    (parts : list str) :
  (convertible v = true /\ exists parts', append_reading p v pre suf parts = Ok parts') \/
  (convertible v = false /\ append_reading p v pre suf parts = Raise OverflowError).
Proof.
  unfold append_reading, convertible, format_num.
  destruct v as [[z|x]|]; cbn [float_of_num bind ret Monad_result raises negb].
  - unfold float_of_int.
    destruct (binary_normalize prec emax z 0 false); cbn; eauto.
  - left. eauto.
  - left. eauto.
Qed.

(** X4. The block of current readings and the reply on the rain of
    tomorrow guard every value: the first never raises for a missing
    reading, only for an integer too large for a float, and the second
    never raises at all. *)
Theorem guarded_branches (table : list (Z * str)) (p : Parsed)
    (bundle : Bundle) (label : str) :
  (horizon p = py "now" -> In (intent p) NOW_INTENTS ->
   (forallb convertible (readings (current bundle)) = true ->
    exists r, format_weather_reply fsum table p bundle label = Ok r) /\
   ((exists r, format_weather_reply fsum table p bundle label = Ok r) \/
    format_weather_reply fsum table p bundle label = Raise OverflowError)) /\
  (horizon p = py "tomorrow" -> intent p = py "tomorrow_rain" ->
   exists r, format_weather_reply fsum table p bundle label = Ok r).
Proof.
  split.
  - intros Hh Hi. unfold format_weather_reply.
    rewrite (now_branch p Hi Hh). unfold now_parts, readings.
    cbn [forallb]. rewrite !andb_true_iff.
    set (cur := current bundle).
    destruct Hi as [Hi | [Hi | [Hi | [Hi | [Hi | [Hi | []]]]]]]; rewrite <- Hi;
      match goal with
      | |- context [mem ?i ?l] =>
          let b := eval vm_compute in (mem i l) in change (mem i l) with b
      end;
      repeat match goal with
      | |- context [str_eqb (py ?a) (py ?b)] =>
          let v := eval vm_compute in (str_eqb (py a) (py b)) in
          change (str_eqb (py a) (py b)) with v
      end; cbv iota; cbn [bind ret Monad_result];
      match goal with
      | |- context [append_reading ?p ?v ?pre ?suf ?parts] =>
          destruct (append_reading_cases p v pre suf parts) as [[Hc [r Hr]] | [Hc Hr]];
          rewrite Hr; cbn [bind ret Monad_result]
      end;
      first [ split; [intros _; solve [eauto] | left; solve [eauto]]
            | split; [intros H; exfalso; decompose [and] H; congruence | now right] ].
  - intros Hh Hi. unfold format_weather_reply.
    rewrite (horizon_not_now p (py "tomorrow")) by (auto; discriminate).
    rewrite Hh. change (str_eqb (py "tomorrow") (py "tomorrow")) with true. cbv iota.
    destruct (daily bundle) as [|d0 [|d rest]]; try (eexists; reflexivity).
    unfold tomorrow_reply. rewrite Hi.
    change (str_eqb (py "tomorrow_rain") (py "tomorrow_rain")) with true.
    eexists. reflexivity.
Qed.
End GuardFacts.
Section BranchFacts.
Set Default Proof Using "Type".
Variable fsum : list float -> float.

(** X5. The time of day of a request is used by the summary of tomorrow
    alone, and there only when an hourly row of tomorrow lies in its
    range: in every other case the reply is that of the request without
    time of day. *)
Theorem tod_only_with_matching_rows (table : list (Z * str)) (p : Parsed)
    (bundle : Bundle) (label : str) :
  horizon p <> py "tomorrow" \/ intent p = py "tomorrow_rain" \/
  (forall hours, _tod_hours (tod p) = Some hours ->
                 window hours (hourly bundle) = []) ->
  format_weather_reply fsum table p bundle label =
  format_weather_reply fsum table (without_tod p) bundle label.
Proof.
  intros H. unfold format_weather_reply.
  cbn [intent horizon sentiment without_tod].
  destruct (mem (intent p) NOW_INTENTS && str_eqb (horizon p) (py "now"));
    [reflexivity|].
  destruct (str_eqb (horizon p) (py "tomorrow")) eqn:Eh; [|reflexivity].
  destruct (daily bundle) as [|d0 [|d rest]]; try reflexivity.
  unfold tomorrow_reply. cbn [intent tod sentiment without_tod _tod_hours].
  destruct (str_eqb (intent p) (py "tomorrow_rain")) eqn:Ei; [reflexivity|].
  destruct H as [H | [H | H]].
  - apply str_eqb_eq in Eh. contradiction.
  - apply str_eqb_neq in Ei. contradiction.
  - destruct (_tod_hours (tod p)) as [hours|]; [|reflexivity].
    destruct (hourly bundle) as [|h hs] eqn:Eb; [reflexivity|].
    now rewrite (H hours eq_refl).
Qed.

Lemma tomorrow_summary_cases (table : list (Z * str)) (label : str) (d : Daily) :
  (complete_day d = true /\ exists r, tomorrow_summary table label d = Ok r) \/
  (complete_day d = false /\ tomorrow_summary table label d = Raise TypeError).
Proof.
  unfold complete_day, has_temps, has_rain, tomorrow_summary.
  destruct (tmin_c d), (tmax_c d), (d_rain_mm d), (d_snow_mm d), (precip_prob_max d);
    cbn; eauto.
Qed.

Lemma append_lines_spec (line : Daily -> result str) (ok : Daily -> bool) :
  (forall d, (ok d = true /\ exists l, line d = Ok l) \/
             (ok d = false /\ line d = Raise TypeError)) ->
  forall ds acc,
    (forallb ok ds = true /\
     exists ls, List.length ls = List.length ds /\
                append_lines line ds acc = Ok (acc ++ ls)) \/
    (forallb ok ds = false /\ append_lines line ds acc = Raise TypeError).
Proof.
  intros Hline. induction ds as [|d ds IH]; intros acc; cbn [append_lines forallb].
  - left. split; [reflexivity|]. exists []. now rewrite app_nil_r.
  - destruct (Hline d) as [[Hok [l Hl]] | [Hok Hl]]; rewrite Hok, Hl;
      cbn [bind Monad_result andb].
    + destruct (IH (acc ++ [l])) as [[Hall (ls & Hlen & Hls)] | [Hall Hls]].
      * left. split; [assumption|]. exists (l :: ls). split; [cbn; lia|].
        rewrite Hls, <- app_assoc. reflexivity.
      * now right.
    + now right.
Qed.

Lemma week_line_cases (table : list (Z * str)) (d : Daily) :
  (has_temps d = true /\ exists l, week_line table d = Ok l) \/
  (has_temps d = false /\ week_line table d = Raise TypeError).
Proof.
  unfold has_temps, week_line. destruct (tmin_c d), (tmax_c d); cbn; eauto.
Qed.

Lemma next3days_line_cases (table : list (Z * str)) (d : Daily) :
  (has_temps d && has_rain d = true /\ exists l, next3days_line table d = Ok l) \/
  (has_temps d && has_rain d = false /\ next3days_line table d = Raise TypeError).
Proof.
  unfold has_temps, has_rain, next3days_line.
  destruct (tmin_c d), (tmax_c d), (d_rain_mm d); cbn; eauto.
Qed.

(** X6. With enough daily entries the replies for several days raise
    exactly when a value they print is missing: the weekly outlook is a
    heading and 7 lines when each of the first 7 entries has both
    temperatures, the 3-day reply a heading and 3 lines when each of the
    first 3 has both temperatures and rain, and otherwise [TypeError];
    the summary of tomorrow, when no hourly window applies, is a reply
    when the second entry has all five values and otherwise [TypeError]. *)
Theorem missing_value_raises (table : list (Z * str)) (p : Parsed)
    (bundle : Bundle) (label : str) :
  let reply := format_weather_reply fsum table p bundle label in
  let pre := tone_prefix (sentiment p) in
  (horizon p = py "week" -> (7 <= List.length (daily bundle))%nat ->
   (forallb has_temps (firstn 7 (daily bundle)) = true /\
    exists lines, List.length lines = 7%nat /\
      reply = Ok (pre ++ join nl ((py "**" ++ label ++ py "** – 7-day outlook:") :: lines))) \/
   (forallb has_temps (firstn 7 (daily bundle)) = false /\ reply = Raise TypeError)) /\
  (horizon p = py "next3days" -> (3 <= List.length (daily bundle))%nat ->
   (forallb (fun d => has_temps d && has_rain d) (firstn 3 (daily bundle)) = true /\
    exists lines, List.length lines = 3%nat /\
      reply = Ok (pre ++ join nl ((py "**" ++ label ++ py "** – next 3 days:") :: lines))) \/
   (forallb (fun d => has_temps d && has_rain d) (firstn 3 (daily bundle)) = false /\
    reply = Raise TypeError)) /\
  (horizon p = py "tomorrow" -> intent p <> py "tomorrow_rain" ->
   (forall hours, _tod_hours (tod p) = Some hours -> window hours (hourly bundle) = []) ->
   forall d0 d rest, daily bundle = d0 :: d :: rest ->
   (complete_day d = true /\ exists r, reply = Ok r) \/
   (complete_day d = false /\ reply = Raise TypeError)).
Proof.
  intros reply pre. subst reply pre. repeat split.
  - intros Hh Hlen. unfold format_weather_reply.
    rewrite (horizon_not_now p (py "week")) by (auto; discriminate).
    rewrite Hh.
    change (str_eqb (py "week") (py "tomorrow")) with false.
    change (str_eqb (py "week") (py "next3days")) with false.
    change (str_eqb (py "week") (py "week")) with true. cbv iota.
    apply Nat.ltb_ge in Hlen. rewrite Hlen.
    destruct (append_lines_spec (week_line table) has_temps (week_line_cases table)
                (firstn 7 (daily bundle)) [py "**" ++ label ++ py "** – 7-day outlook:"])
      as [[Hall (ls & Hl & Hls)] | [Hall Hls]]; rewrite Hls; cbn [bind ret Monad_result].
    + left. split; [assumption|]. exists ls. split; [|reflexivity].
      rewrite length_firstn in Hl. apply Nat.ltb_ge in Hlen.
      etransitivity; [exact Hl | lia].
    + now right.
  - intros Hh Hlen. unfold format_weather_reply.
    rewrite (horizon_not_now p (py "next3days")) by (auto; discriminate).
    rewrite Hh.
    change (str_eqb (py "next3days") (py "tomorrow")) with false.
    change (str_eqb (py "next3days") (py "next3days")) with true. cbv iota.
    apply Nat.ltb_ge in Hlen. rewrite Hlen.
    destruct (append_lines_spec (next3days_line table) (fun d => has_temps d && has_rain d)
                (next3days_line_cases table)
                (firstn 3 (daily bundle)) [py "**" ++ label ++ py "** – next 3 days:"])
      as [[Hall (ls & Hl & Hls)] | [Hall Hls]]; rewrite Hls; cbn [bind ret Monad_result].
    + left. split; [assumption|]. exists ls. split; [|reflexivity].
      rewrite length_firstn in Hl. apply Nat.ltb_ge in Hlen.
      etransitivity; [exact Hl | lia].
    + now right.
  - intros Hh Hi Hw d0 d rest Hd.
    rewrite (tod_only_with_matching_rows table p bundle label) by auto.
    unfold format_weather_reply. cbn [intent horizon sentiment without_tod].
    rewrite (horizon_not_now p (py "tomorrow")) by (auto; discriminate).
    rewrite Hh, Hd. change (str_eqb (py "tomorrow") (py "tomorrow")) with true.
    cbv iota. unfold tomorrow_reply. cbn [intent tod sentiment without_tod _tod_hours].
    apply str_eqb_neq in Hi. rewrite Hi.
    destruct (tomorrow_summary_cases table label d) as [[Hc [r Hr]] | [Hc Hr]];
      rewrite Hr; cbn [bind ret Monad_result]; eauto.
Qed.
End BranchFacts.
Lemma float_of_num_cases (v : num) :
  (exists x, float_of_num v = Ok x) \/ float_of_num v = Raise OverflowError.
Proof.
  destruct v as [z|x]; cbn; [|eauto].
  unfold float_of_int. destruct (binary_normalize prec emax z 0 false); eauto.
Qed.

Lemma float_at_cases (xs : list (option num)) (i : nat) (dflt : option float) :
  (absent_at xs i = true /\ float_at xs i dflt = Ok dflt) \/
  (absent_at xs i = false /\
   ((exists x, float_at xs i dflt = Ok (Some x)) \/
    (convertible (nth i xs None) = false /\ float_at xs i dflt = Raise OverflowError))).
Proof.
  unfold absent_at, float_at.
  destruct (nth_error xs i) as [[v|]|] eqn:E; try (now left).
  right. split; [reflexivity|].
  rewrite (nth_error_nth _ _ _ E). unfold convertible.
  destruct (float_of_num_cases v) as [[x Hx] | Hx]; rewrite Hx; cbn; eauto.
Qed.

Lemma float_at_convertible (xs : list (option num)) (i : nat) (dflt : option float) :
  forallb convertible xs = true -> exists r, float_at xs i dflt = Ok r.
Proof.
  intros Hall. destruct (float_at_cases xs i dflt) as [[_ H] | [Ha [[x H] | [Hc H]]]]; eauto.
  exfalso. unfold absent_at in Ha.
  destruct (nth_error xs i) as [v|] eqn:E; [|discriminate].
  rewrite forallb_forall in Hall. rewrite (nth_error_nth _ _ _ E) in Hc.
  rewrite (Hall v (nth_error_In _ _ E)) in Hc. discriminate.
Qed.

(** What [daily_entry] stores, field by field. *)
Lemma daily_entry_spec (js : DailyJson) (i : nat) (d : str) (e : Daily) :
  daily_entry js i d = Ok e ->
  date e = d /\
  (tmax_c e = None <-> absent_at (temperature_2m_max js) i = true) /\
  (tmin_c e = None <-> absent_at (temperature_2m_min js) i = true) /\
  (precip_prob_max e = None <-> absent_at (precipitation_probability_max js) i = true) /\
  d_rain_mm e <> None /\ d_snow_mm e <> None /\
  d_weather_code e = int_at (j_weather_code js) i.
Proof.
  unfold daily_entry.
  destruct (float_at_cases (temperature_2m_max js) i None) as [[A1 H1] | [A1 [[x1 H1] | [_ H1]]]];
    rewrite H1; cbn [bind ret Monad_result]; try discriminate;
  destruct (float_at_cases (temperature_2m_min js) i None) as [[A2 H2] | [A2 [[x2 H2] | [_ H2]]]];
    rewrite H2; cbn [bind ret Monad_result]; try discriminate;
  destruct (float_at_cases (precipitation_probability_max js) i None)
    as [[A3 H3] | [A3 [[x3 H3] | [_ H3]]]];
    rewrite H3; cbn [bind ret Monad_result]; try discriminate;
  destruct (float_at_cases (rain_sum js) i (Some (S754_zero false)))
    as [[A4 H4] | [A4 [[x4 H4] | [_ H4]]]];
    rewrite H4; cbn [bind ret Monad_result]; try discriminate;
  destruct (float_at_cases (snowfall_sum js) i (Some (S754_zero false)))
    as [[A5 H5] | [A5 [[x5 H5] | [_ H5]]]];
    rewrite H5; cbn [bind ret Monad_result]; try discriminate;
  intros E; injection E as <-; cbn [date tmax_c tmin_c precip_prob_max d_rain_mm d_snow_mm
                                     d_weather_code];
  rewrite ?A1, ?A2, ?A3; repeat split; try discriminate; try reflexivity; auto.
Qed.

Lemma daily_entry_raise (js : DailyJson) (i : nat) (d : str) (e : exn) :
  daily_entry js i d = Raise e -> e = OverflowError.
Proof.
  unfold daily_entry.
  repeat match goal with
         | |- context [float_at ?xs ?i ?dflt] =>
             destruct (float_at_cases xs i dflt) as [[_ H] | [_ [[? H] | [_ H]]]];
             rewrite H; clear H; cbn [bind ret Monad_result]
         end; congruence.
Qed.

Lemma daily_from_spec (js : DailyJson) (dates : list str) :
  forall (n i : nat),
    (forall e, daily_from js i dates n = Raise e -> e = OverflowError) /\
    forall days, daily_from js i dates n = Ok days ->
      map date days = firstn n dates /\
      forall k e, nth_error days k = Some e -> daily_entry js (i + k) (date e) = Ok e.
Proof.
  induction dates as [|d dates IH]; intros n i.
  - destruct n; cbn; (split; [discriminate|]); intros days E; injection E as <-;
      (split; [reflexivity|]); intros [|k] e; discriminate.
  - destruct n as [|n]; cbn [daily_from].
    + cbn. split; [discriminate|]. intros days E; injection E as <-.
      split; [reflexivity|]. intros [|k] e; discriminate.
    + destruct (daily_entry js i d) as [e0|x] eqn:Ee; cbn [bind ret Monad_result].
      * destruct (IH n (S i)) as [Hr Hok].
        destruct (daily_from js (S i) dates n) as [rest|x]; cbn [bind ret Monad_result].
        -- split; [discriminate|]. intros days E; injection E as <-.
           destruct (Hok rest eq_refl) as [Hd Hk].
           destruct (daily_entry_spec js i d e0 Ee) as [Hdate _].
           split; [cbn; now rewrite Hdate, Hd|].
           intros [|k] e Hn; cbn in Hn.
           ++ injection Hn as <-. now rewrite Nat.add_0_r, Hdate.
           ++ rewrite <- Nat.add_succ_comm. now apply Hk.
        -- split; [|discriminate]. intros e E; injection E as <-. now apply Hr.
      * split; [|discriminate]. intros e E; injection E as <-.
        now apply daily_entry_raise in Ee.
Qed.

Lemma daily_from_convertible (js : DailyJson) :
  forallb convertible (temperature_2m_max js) = true ->
  forallb convertible (temperature_2m_min js) = true ->
  forallb convertible (precipitation_probability_max js) = true ->
  forallb convertible (rain_sum js) = true ->
  forallb convertible (snowfall_sum js) = true ->
  forall dates n i, exists days, daily_from js i dates n = Ok days.
Proof.
  intros C1 C2 C3 C4 C5.
  induction dates as [|d dates IH]; intros n i; destruct n; cbn [daily_from];
    try (eexists; reflexivity).
  unfold daily_entry.
  destruct (float_at_convertible (temperature_2m_max js) i None C1) as [r1 ->].
  destruct (float_at_convertible (temperature_2m_min js) i None C2) as [r2 ->].
  destruct (float_at_convertible (precipitation_probability_max js) i None C3) as [r3 ->].
  destruct (float_at_convertible (rain_sum js) i (Some (S754_zero false)) C4) as [r4 ->].
  destruct (float_at_convertible (snowfall_sum js) i (Some (S754_zero false)) C5) as [r5 ->].
  cbn [bind ret Monad_result].
  destruct (IH n (S i)) as [rest ->]. cbn [bind ret Monad_result]. eexists. reflexivity.
Qed.

(** X7. The daily part of [_parse_bundle] keeps at most seven entries,
    dated by the first provider dates also when other arrays are shorter;
    an entry lacks a temperature or the probability exactly when the
    provider array is too short or holds [null] there, and never lacks
    rain or snow; the conversion raises only on an integer too large for
    a float, and not at all when every number converts. *)
Theorem daily_list_invariants (js : DailyJson) :
  (forall e, daily_list js = Raise e -> e = OverflowError) /\
  (forallb convertible (temperature_2m_max js) = true ->
   forallb convertible (temperature_2m_min js) = true ->
   forallb convertible (precipitation_probability_max js) = true ->
   forallb convertible (rain_sum js) = true ->
   forallb convertible (snowfall_sum js) = true ->
   exists days, daily_list js = Ok days) /\
  forall days, daily_list js = Ok days ->
    map date days = firstn 7 (time js) /\
    (List.length days <= 7)%nat /\
    forall i d, nth_error days i = Some d ->
      (tmax_c d = None <-> absent_at (temperature_2m_max js) i = true) /\
      (tmin_c d = None <-> absent_at (temperature_2m_min js) i = true) /\
      (precip_prob_max d = None <-> absent_at (precipitation_probability_max js) i = true) /\
      has_rain d = true /\ d_snow_mm d <> None.
Proof.
  unfold daily_list.
  destruct (daily_from_spec js (time js) (Nat.min (List.length (time js)) 7) 0)
    as [Hr Hok].
  split; [exact Hr|]. split.
  - intros C1 C2 C3 C4 C5. now apply daily_from_convertible.
  - intros days E. destruct (Hok days E) as [Hd Hk]. split.
    + rewrite Hd. rewrite firstn_firstn || idtac.
      destruct (Nat.le_ge_cases (List.length (time js)) 7) as [Hl | Hl].
      * rewrite Nat.min_l by assumption. now rewrite !firstn_all2 by lia.
      * now rewrite Nat.min_r by assumption.
    + split.
      * rewrite <- (length_map date), Hd, length_firstn. lia.
      * intros i d Hn. specialize (Hk i d Hn). cbn in Hk.
        destruct (daily_entry_spec js i (date d) d Hk) as (_ & H1 & H2 & H3 & H4 & H5 & _).
        repeat split; try apply H1; try apply H2; try apply H3; try assumption.
        unfold has_rain. destruct (d_rain_mm d); [reflexivity | contradiction].
Qed.
Lemma forallb_nth_error {A : Type} (f : A -> bool) (l : list A) :
  forallb f l = true <-> forall i d, nth_error l i = Some d -> f d = true.
Proof.
  rewrite forallb_forall. split.
  - intros H i d Hn. apply H. eapply nth_error_In; eauto.
  - intros H d Hin. destruct (In_nth_error _ _ Hin) as [i Hi]. eauto.
Qed.

Section BundleFacts.
Set Default Proof Using "Type".
Variable fsum : list float -> float.

(** X8. For a bundle whose daily entries come from [_parse_bundle] with
    at least seven provider dates, the weekly outlook raises [TypeError]
    exactly when one of the first seven minimum or maximum temperatures is
    [null] or beyond the end of its array, and is a reply otherwise. *)
Theorem parsed_week_reply (table : list (Z * str)) (js : DailyJson)
    (days : list Daily) (p : Parsed) (bundle : Bundle) (label : str) :
  daily_list js = Ok days -> (7 <= List.length (time js))%nat ->
  horizon p = py "week" -> daily bundle = days ->
  let reply := format_weather_reply fsum table p bundle label in
  (reply = Raise TypeError <->
   exists i, (i < 7)%nat /\
     (absent_at (temperature_2m_max js) i = true \/
      absent_at (temperature_2m_min js) i = true)) /\
  (reply = Raise TypeError \/ exists r, reply = Ok r).
Proof.
  intros Hd Hlen Hh Hb reply.
  destruct (daily_list_invariants js) as (_ & _ & Hinv).
  destruct (Hinv days Hd) as (Hdates & _ & Hfields).
  assert (Hl : List.length days = 7%nat).
  { rewrite <- (length_map date), Hdates, length_firstn. lia. }
  destruct (missing_value_raises fsum table p bundle label) as (Hweek & _).
  rewrite Hb in Hweek. specialize (Hweek Hh ltac:(lia)).
  rewrite firstn_all2 in Hweek by lia. fold reply in Hweek.
  assert (Hiff : forallb has_temps days = false <->
                 exists i, (i < 7)%nat /\
                   (absent_at (temperature_2m_max js) i = true \/
                    absent_at (temperature_2m_min js) i = true)).
  { split.
    - intros Hf.
      destruct (existsb (fun i => absent_at (temperature_2m_max js) i
                                  || absent_at (temperature_2m_min js) i) (seq 0 7)) eqn:Ex.
      + apply existsb_exists in Ex as (i & Hi & Ha). apply in_seq in Hi.
        exists i. split; [lia|]. now apply orb_true_iff.
      + exfalso. assert (Ht : forallb has_temps days = true); [|congruence].
        apply forallb_nth_error. intros i d Hn.
        assert (Hi : (i < 7)%nat) by (rewrite <- Hl; apply nth_error_Some; congruence).
        destruct (Hfields i d Hn) as (Hmax & Hmin & _).
        assert (Hno : absent_at (temperature_2m_max js) i
                      || absent_at (temperature_2m_min js) i = false).
        { destruct (absent_at (temperature_2m_max js) i
                    || absent_at (temperature_2m_min js) i) eqn:Ea; [|reflexivity].
          rewrite <- Ex. symmetry. apply existsb_exists. exists i.
          split; [apply in_seq; lia | assumption]. }
        apply orb_false_iff in Hno as [N1 N2]. unfold has_temps.
        destruct (tmin_c d) eqn:E1; [|rewrite (proj1 Hmin eq_refl) in N2; discriminate].
        destruct (tmax_c d) eqn:E2; [|rewrite (proj1 Hmax eq_refl) in N1; discriminate].
        reflexivity.
    - intros (i & Hi & Ha).
      destruct (forallb has_temps days) eqn:Ef; [|reflexivity]. exfalso.
      destruct (nth_error days i) as [d|] eqn:Hn;
        [|apply nth_error_None in Hn; lia].
      pose proof (proj1 (forallb_nth_error _ _) Ef i d Hn) as Ht.
      destruct (Hfields i d Hn) as (Hmax & Hmin & _). unfold has_temps in Ht.
      destruct (tmin_c d) eqn:E1; [|discriminate].
      destruct (tmax_c d) eqn:E2; [|discriminate].
      destruct Ha as [Ha | Ha]; [apply Hmax in Ha | apply Hmin in Ha]; discriminate. }
  destruct Hweek as [[Hall (ls & _ & Hr)] | [Hall Hr]].
  - split; [|right; eauto]. rewrite Hr. split; [discriminate|].
    intros Hex. apply Hiff in Hex. congruence.
  - split; [|now left]. split; [intros _; now apply Hiff | intros _; exact Hr].
Qed.

(** X9. A reply reads only its part of the bundle: the weekly outlook
    the first seven daily entries, the 3-day reply the first three, and
    the block of current readings the current record. *)
Theorem reply_reads_its_part (table : list (Z * str)) (p : Parsed)
    (b b' : Bundle) (label : str) :
  (horizon p = py "week" ->
   (7 <= List.length (daily b))%nat -> (7 <= List.length (daily b'))%nat ->
   firstn 7 (daily b) = firstn 7 (daily b') ->
   format_weather_reply fsum table p b label = format_weather_reply fsum table p b' label) /\
  (horizon p = py "next3days" ->
   (3 <= List.length (daily b))%nat -> (3 <= List.length (daily b'))%nat ->
   firstn 3 (daily b) = firstn 3 (daily b') ->
   format_weather_reply fsum table p b label = format_weather_reply fsum table p b' label) /\
  (horizon p = py "now" -> current b = current b' ->
   format_weather_reply fsum table p b label = format_weather_reply fsum table p b' label).
Proof.
  repeat split.
  - intros Hh H1 H2 Hf. unfold format_weather_reply.
    rewrite (horizon_not_now p (py "week")) by (auto; discriminate). rewrite Hh.
    change (str_eqb (py "week") (py "tomorrow")) with false.
    change (str_eqb (py "week") (py "next3days")) with false.
    change (str_eqb (py "week") (py "week")) with true. cbv iota.
    apply Nat.ltb_ge in H1, H2. now rewrite H1, H2, Hf.
  - intros Hh H1 H2 Hf. unfold format_weather_reply.
    rewrite (horizon_not_now p (py "next3days")) by (auto; discriminate). rewrite Hh.
    change (str_eqb (py "next3days") (py "tomorrow")) with false.
    change (str_eqb (py "next3days") (py "next3days")) with true. cbv iota.
    apply Nat.ltb_ge in H1, H2. now rewrite H1, H2, Hf.
  - intros Hh Hc. unfold format_weather_reply. rewrite Hh, Hc.
    change (str_eqb (py "now") (py "now")) with true.
    change (str_eqb (py "now") (py "tomorrow")) with false.
    change (str_eqb (py "now") (py "next3days")) with false.
    change (str_eqb (py "now") (py "week")) with false.
    reflexivity.
Qed.
End BundleFacts.
Lemma forallb_rev {A : Type} (f : A -> bool) (l : list A) :
  forallb f (rev l) = forallb f l.
Proof.
  induction l as [|x l IH]; [reflexivity|].
  cbn [rev forallb]. rewrite forallb_app, IH. cbn. now rewrite andb_true_r, andb_comm.
Qed.

Section TextFacts.
Set Default Proof Using "Type".
Variable u_lower : str -> str.
Variable u_space : N -> bool.
Variable u_word : N -> bool.
Variable u_fold : N -> list N.
Variable stem : str -> str.
Variable float_of_text : str -> option float.

(** ** Whitespace *)

Lemma lstrip_suffix (t : str) :
  exists w, t = w ++ lstrip u_space t /\ forallb (space u_space) w = true.
Proof.
  induction t as [|c t IH]; cbn [lstrip].
  - now exists [].
  - destruct (space u_space c) eqn:E.
    + destruct IH as (w & Hw & Hs). exists (c :: w). cbn. rewrite E, Hs.
      split; [now f_equal | reflexivity].
    + now exists [].
Qed.

Lemma lstrip_head (t : str) :
  match lstrip u_space t with [] => True | c :: _ => space u_space c = false end.
Proof.
  induction t as [|c t IH]; cbn [lstrip]; [exact I|].
  destruct (space u_space c) eqn:E; [exact IH | exact E].
Qed.

Lemma lstrip_fixed (t : str) :
  match t with [] => True | c :: _ => space u_space c = false end ->
  lstrip u_space t = t.
Proof. destruct t as [|c t]; cbn; [reflexivity | now intros ->]. Qed.

Lemma strip_ends (t : str) :
  lstrip u_space (strip u_space t) = strip u_space t /\
  lstrip u_space (rev (strip u_space t)) = rev (strip u_space t).
Proof.
  unfold strip. set (a := lstrip u_space t). set (b := lstrip u_space (rev a)).
  rewrite rev_involutive. split.
  - apply lstrip_fixed.
    destruct (rev b) as [|x rb] eqn:Erb; [exact I|].
    destruct (lstrip_suffix (rev a)) as (w & Hw & _). fold b in Hw.
    assert (Hb : b = rev rb ++ [x]).
    { rewrite <- (rev_involutive b), Erb. reflexivity. }
    assert (Ha : a = x :: rev (w ++ rev rb)).
    { rewrite <- (rev_involutive a), Hw, Hb, app_assoc, rev_app_distr. reflexivity. }
    pose proof (lstrip_head t) as Hh. fold a in Hh. now rewrite Ha in Hh.
  - apply lstrip_fixed. exact (lstrip_head (rev a)).
Qed.

Lemma strip_idempotent (t : str) : strip u_space (strip u_space t) = strip u_space t.
Proof.
  destruct (strip_ends t) as [H1 H2]. unfold strip at 1.
  now rewrite H1, H2, rev_involutive.
Qed.

(** X10. The interpretation of a message does not depend on whitespace
    around it, and a missing message is interpreted as the empty one. *)
Theorem interpret_ignores_outer_whitespace (g : Process) (m : str)
    (last : option str) (lat lon : pyval) :
  interpret_message u_lower u_space u_word u_fold stem float_of_text g
    (Some (strip u_space m)) last lat lon =
  interpret_message u_lower u_space u_word u_fold stem float_of_text g
    (Some m) last lat lon /\
  interpret_message u_lower u_space u_word u_fold stem float_of_text g
    None last lat lon =
  interpret_message u_lower u_space u_word u_fold stem float_of_text g
    (Some []) last lat lon.
Proof.
  split; [|reflexivity]. unfold interpret_message. now rewrite strip_idempotent.
Qed.

(** X11. A location taken from the text has no whitespace at its ends:
    stripping it again changes nothing. *)
Theorem extracted_location_is_stripped (text loc : str) :
  _extract_location u_lower u_space u_word u_fold text = Some loc ->
  strip u_space loc = loc /\
  lstrip u_space loc = loc /\ lstrip u_space (rev loc) = rev loc.
Proof.
  unfold _extract_location. intros H.
  assert (Hs : exists t, loc = strip u_space t).
  { repeat match type of H with
           | match ?x with _ => _ end = _ => destruct x; try discriminate
           | (if ?x then _ else _) = _ => destruct x; try discriminate
           end; injection H as <-; eauto. }
  destruct Hs as [t ->]. split; [apply strip_idempotent | apply strip_ends].
Qed.

(** ** Tokens and features *)

Lemma runs_tokens (t cur : str) :
  forallb token_char cur = true ->
  Forall (fun tok => tok <> [] /\ forallb token_char tok = true) (runs cur t).
Proof.
  revert cur. induction t as [|c t IH]; intros cur Hcur; cbn [runs].
  - destruct cur as [|x cur]; [constructor|].
    constructor; [|constructor]. split.
    + intros E. apply (f_equal (@List.length N)) in E.
      rewrite length_rev in E. discriminate.
    + now rewrite forallb_rev.
  - destruct (token_char c) eqn:Ec.
    + apply IH. cbn. now rewrite Ec.
    + destruct cur as [|x cur]; [now apply IH|].
      constructor; [|now apply IH]. split.
      * intros E. apply (f_equal (@List.length N)) in E.
        rewrite length_rev in E. discriminate.
      * now rewrite forallb_rev.
Qed.

Lemma features_In (tokens : list str) (x : str) :
  In x (_features_from_tokens tokens) <-> In x tokens.
Proof.
  induction tokens as [|t ts IH]; cbn [_features_from_tokens]; [reflexivity|].
  cbn [In]. rewrite filter_In, IH. split.
  - intros [H | [H _]]; auto.
  - intros [H | H]; [now left|].
    destruct (str_eqb x t) eqn:E.
    + apply str_eqb_eq in E. left. now subst.
    + right. now split.
Qed.

Lemma features_NoDup (tokens : list str) : NoDup (_features_from_tokens tokens).
Proof.
  induction tokens as [|t ts IH]; cbn [_features_from_tokens]; constructor.
  - rewrite filter_In. intros [_ H]. now rewrite str_eqb_refl in H.
  - now apply NoDup_filter.
Qed.

(** X12. The tokens of a text are non-empty runs of letters and
    apostrophes; the features of a text hold every stem of a token that
    is not a stop word, each once, and nothing else. *)
Theorem features_are_stem_set (text : str) :
  Forall (fun tok => tok <> [] /\ forallb token_char tok = true)
         (_tokenize u_lower text) /\
  NoDup (_features_from_tokens (_preprocess u_lower stem text)) /\
  forall f, In f (_features_from_tokens (_preprocess u_lower stem text)) <->
            exists tok, In tok (_tokenize u_lower text) /\
                        ~ In tok _MIN_STOP /\ f = stem tok.
Proof.
  split; [apply runs_tokens; reflexivity|]. split; [apply features_NoDup|].
  intros f. rewrite features_In. unfold _preprocess. rewrite in_map_iff. split.
  - intros (tok & <- & Hin). apply filter_In in Hin as [Hin Hs].
    exists tok. repeat split; auto. intros Hm. apply mem_In in Hm.
    now rewrite Hm in Hs.
  - intros (tok & Hin & Hs & ->). exists tok. split; [reflexivity|].
    apply filter_In. split; [assumption|].
    destruct (mem tok _MIN_STOP) eqn:E; [|reflexivity].
    apply mem_In in E. contradiction.
Qed.
End TextFacts.
(** X13. The hours of the four times of day split the day: an hourly row
    of tomorrow with an hour from 0 to 23 is in the window of exactly one
    of morning, afternoon, evening and night. *)
Theorem tod_windows_partition (rows : list Hourly) (row : Hourly) :
  In row rows -> date_offset row = 1%Z -> (0 <= hour row < 24)%Z ->
  exists t hours,
    In t [py "morning"; py "afternoon"; py "evening"; py "night"] /\
    _tod_hours (Some t) = Some hours /\ In row (window hours rows) /\
    forall t' hours',
      In t' [py "morning"; py "afternoon"; py "evening"; py "night"] ->
      _tod_hours (Some t') = Some hours' -> In row (window hours' rows) -> t' = t.
Proof.
  intros Hin Ho Hh.
  assert (Hw : forall a b, In row (window (a, b) rows) <-> (a <= hour row < b)%Z).
  { intros a b. unfold window. rewrite filter_In, Ho. cbn [Z.eqb Pos.eqb andb].
    rewrite andb_true_iff, Z.leb_le, Z.ltb_lt. tauto. }
  assert (Hcase : (0 <= hour row < 6 \/ 6 <= hour row < 12 \/
                   12 <= hour row < 18 \/ 18 <= hour row < 24)%Z) by lia.
  destruct Hcase as [Hc | [Hc | [Hc | Hc]]];
    [ exists (py "night"), (0, 6)%Z | exists (py "morning"), (6, 12)%Z
    | exists (py "afternoon"), (12, 18)%Z | exists (py "evening"), (18, 24)%Z ];
    (split; [cbn; tauto|]); (split; [reflexivity|]); (split; [now apply Hw|]);
    intros t' hours' [<- | [<- | [<- | [<- | []]]]] Ht' Hin';
    try reflexivity; exfalso;
    vm_compute in Ht'; injection Ht' as <-; apply Hw in Hin'; lia.
Qed.

Section TrainFacts.
Set Default Proof Using "Type".
Variable u_lower : str -> str.
Variable stem : str -> str.

Lemma train_featurize_eq (tokens : list str) :
  Train.featurize tokens = _features_from_tokens tokens.
Proof. induction tokens as [|t ts IH]; cbn; [reflexivity | now rewrite IH]. Qed.

(** X14. Training and prediction see the same features: the features the
    training job builds from an example are those the classifier is
    queried with for the same text (same tokens, same stop words, same
    stems), and every pair of the data set carries a key of the training
    file as its label. *)
Theorem training_features_match (text : str) (data : list (str * list str)) :
  Train.featurize (Train.preprocess u_lower stem text) =
  _features_from_tokens (_preprocess u_lower stem text) /\
  forall feats label, In (feats, label) (Train.dataset u_lower stem data) ->
    In label (map fst data) /\
    exists ex, feats = _features_from_tokens (_preprocess u_lower stem ex).
Proof.
  assert (Hf : forall t, Train.featurize (Train.preprocess u_lower stem t) =
                         _features_from_tokens (_preprocess u_lower stem t)).
  { intros t. rewrite train_featurize_eq. reflexivity. }
  split; [apply Hf|].
  intros feats label Hin. unfold Train.dataset in Hin.
  apply in_flat_map in Hin as ([intent examples] & Hd & He).
  unfold Train.examples_of in He. cbn [fst snd] in He.
  apply in_map_iff in He as (ex & E & _). injection E as <- <-.
  split; [apply in_map_iff; now exists (intent, examples) | exists ex; apply Hf].
Qed.
End TrainFacts.
(** ** Dictionaries *)

Lemma dict_get_set_same {V : Type} (k : str) (v : V) (d : list (str * V)) :
  dict_get k (dict_set k v d) = Some v.
Proof.
  induction d as [|[k' v'] d IH]; cbn [dict_set dict_get].
  - now rewrite str_eqb_refl.
  - destruct (str_eqb k k') eqn:E; cbn [dict_get].
    + now rewrite str_eqb_refl.
    + now rewrite E.
Qed.

Lemma dict_get_set_other {V : Type} (k k' : str) (v : V) (d : list (str * V)) :
  k' <> k -> dict_get k' (dict_set k v d) = dict_get k' d.
Proof.
  intros Hk. apply str_eqb_neq in Hk.
  induction d as [|[k2 v2] d IH]; cbn [dict_set dict_get].
  - now rewrite Hk.
  - destruct (str_eqb k k2) eqn:E; cbn [dict_get].
    + apply str_eqb_eq in E. subst k2. now rewrite Hk.
    + now rewrite IH.
Qed.

Lemma dict_get_pop_same {V : Type} (k : str) (d : list (str * V)) :
  dict_get k (dict_pop k d) = None.
Proof.
  unfold dict_pop. induction d as [|[k' v'] d IH]; cbn [filter dict_get fst]; [reflexivity|].
  destruct (str_eqb k k') eqn:E; cbn [negb dict_get]; [exact IH|]. now rewrite E.
Qed.

Lemma dict_get_pop_other {V : Type} (k k' : str) (d : list (str * V)) :
  k' <> k -> dict_get k' (dict_pop k d) = dict_get k' d.
Proof.
  intros Hk. unfold dict_pop.
  induction d as [|[k2 v2] d IH]; cbn [filter dict_get fst]; [reflexivity|].
  destruct (str_eqb k k2) eqn:E; cbn [negb dict_get].
  - apply str_eqb_eq in E. subst k2. apply str_eqb_neq in Hk. now rewrite Hk.
  - now rewrite IH.
Qed.

Section ServiceFacts.
Set Default Proof Using "Type".
Variable u_lower : str -> str.
Variable u_space : N -> bool.
Variable float_of_text : str -> option float.
Variable int_of_text : str -> option Z.
Variable clock : nat -> float.
Variable geo_http : nat -> str -> option (list GeoTop).
Variable forecast_http : nat -> float -> float -> option ForecastJson.

Lemma cache_get_run (key : str) (w : World) :
  runState (_cache_get clock key) w =
  match dict_get key (cache w) with
  | None => (CNone, w)
  | Some (ts, data) =>
      if expired (clock (tick w)) ts
      then (CNone, {| cache := dict_pop key (cache w); tick := S (tick w);
                      requests := requests w |})
      else (data, ticked w)
  end.
Proof.
  unfold _cache_get. cbn.
  destruct (dict_get key (cache w)) as [[ts data]|]; [|reflexivity].
  cbn. destruct (expired (clock (tick w)) ts); reflexivity.
Qed.

Lemma cache_set_run (key : str) (data : cached) (w : World) :
  runState (_cache_set clock key data) w =
  (tt, {| cache := dict_set key (clock (tick w), data) (cache w);
          tick := S (tick w); requests := requests w |}).
Proof. reflexivity. Qed.

(** X15. A value stored in the cache is returned by the next lookup of its
    key while the clock has advanced by at most 300 seconds, and with it a
    stored [None], which a caller cannot tell from a miss; once more than
    300 seconds have passed the lookup returns [None] and removes the
    entry. Other keys are not touched and no request is sent. *)
Theorem cache_round_trip (key : str) (data : cached) (w : World) :
  let w1 := snd (runState (_cache_set clock key data) w) in
  let r := fst (runState (_cache_get clock key) w1) in
  let w2 := snd (runState (_cache_get clock key) w1) in
  (expired (clock (S (tick w))) (clock (tick w)) = false ->
   r = data /\ dict_get key (cache w2) = Some (clock (tick w), data)) /\
  (expired (clock (S (tick w))) (clock (tick w)) = true ->
   r = CNone /\ dict_get key (cache w2) = None) /\
  (forall k', k' <> key -> dict_get k' (cache w2) = dict_get k' (cache w)) /\
  requests w2 = requests w.
Proof.
  intros w1 r w2. subst r w2 w1. rewrite cache_set_run. cbn [snd].
  rewrite cache_get_run. cbn [cache tick requests].
  rewrite dict_get_set_same.
  destruct (expired (clock (S (tick w))) (clock (tick w))); cbn [fst snd cache requests ticked].
  - split; [discriminate|]. split.
    + intros _. split; [reflexivity | apply dict_get_pop_same].
    + split; [|reflexivity]. intros k' Hk.
      now rewrite dict_get_pop_other, dict_get_set_other.
  - split.
    + intros _. split; [reflexivity | apply dict_get_set_same].
    + split; [discriminate|]. split; [|reflexivity].
      intros k' Hk. now rewrite dict_get_set_other.
Qed.

Lemma forecast_run (lat lon : float) (w : World) :
  runState (get_forecast_bundle int_of_text clock forecast_http lat lon) w =
  let key := wx_key lat lon in
  let '(hit, w1) := runState (_cache_get clock key) w in
  match hit with
  | CNone =>
      match forecast_http (requests w1) lat lon with
      | None => (CNone, requested w1)
      | Some js =>
          match _parse_bundle int_of_text js with
          | Ok b =>
              (CBundle b,
               {| cache := dict_set key (clock (tick w1), CBundle b) (cache w1);
                  tick := S (tick w1); requests := S (requests w1) |})
          | Raise _ => (CNone, requested w1)
          end
      end
  | _ => (hit, w1)
  end.
Proof.
  unfold get_forecast_bundle.
  cbn -[_parse_bundle wx_key dict_set dict_get _cache_get].
  destruct (runState (_cache_get clock (wx_key lat lon)) w) as [hit w1].
  destruct hit; try reflexivity.
  cbn -[_parse_bundle wx_key dict_set dict_get _cache_get].
  destruct (forecast_http (requests w1) lat lon) as [js|]; [|reflexivity].
  destruct (_parse_bundle int_of_text js); reflexivity.
Qed.

Lemma geocode_run (query : str) (w : World) :
  runState (geocode_location u_lower u_space float_of_text clock geo_http query) w =
  if negb (nonempty query) then (CNone, w)
  else
    let key := geo_key u_lower u_space query in
    let '(hit, w1) := runState (_cache_get clock key) w in
    match hit with
    | CNone =>
        match geo_http (requests w1) query with
        | None => (CNone, requested w1)
        | Some [] =>
            (CNone,
             {| cache := dict_set key (clock (tick w1), CNone) (cache w1);
                tick := S (tick w1); requests := S (requests w1) |})
        | Some (top :: _) =>
            match geo_of_top float_of_text top with
            | Some data =>
                (CGeo data,
                 {| cache := dict_set key (clock (tick w1), CGeo data) (cache w1);
                    tick := S (tick w1); requests := S (requests w1) |})
            | None => (CNone, requested w1)
            end
        end
    | _ => (hit, w1)
    end.
Proof.
  unfold geocode_location.
  destruct (negb (nonempty query)); [reflexivity|].
  cbn -[geo_of_top geo_key dict_set dict_get _cache_get].
  destruct (runState (_cache_get clock (geo_key u_lower u_space query)) w) as [hit w1].
  destruct hit; try reflexivity.
  cbn -[geo_of_top geo_key dict_set dict_get _cache_get].
  destruct (geo_http (requests w1) query) as [[|top rest]|]; try reflexivity.
  destruct (geo_of_top float_of_text top); reflexivity.
Qed.

(** X16. Two forecasts for the same coordinates in a row share one
    request: when the first finds no entry, the answer parses, and the
    clock read by the second is within 300 seconds of the one stored, the
    second returns the same bundle from the cache whatever the provider
    would answer now. *)
Theorem forecast_twice_one_request (lat lon : float) (w : World)
    (js : ForecastJson) (b : Bundle) :
  dict_get (wx_key lat lon) (cache w) = None ->
  forecast_http (requests w) lat lon = Some js ->
  _parse_bundle int_of_text js = Ok b ->
  expired (clock (S (tick w))) (clock (tick w)) = false ->
  runState (first <- get_forecast_bundle int_of_text clock forecast_http lat lon ;;
            second <- get_forecast_bundle int_of_text clock forecast_http lat lon ;;
            ret (first, second)) w
  = ((CBundle b, CBundle b),
     {| cache := dict_set (wx_key lat lon) (clock (tick w), CBundle b) (cache w);
        tick := S (S (tick w)); requests := S (requests w) |}).
Proof.
  intros Hmiss Hjs Hb Hfresh.
  change (runState (first <- get_forecast_bundle int_of_text clock forecast_http lat lon ;;
            second <- get_forecast_bundle int_of_text clock forecast_http lat lon ;;
            ret (first, second)) w)
    with (let '(first, w1) :=
            runState (get_forecast_bundle int_of_text clock forecast_http lat lon) w in
          let '(second, w2) :=
            runState (get_forecast_bundle int_of_text clock forecast_http lat lon) w1 in
          ((first, second), w2)).
  rewrite forecast_run. cbv zeta. rewrite cache_get_run, Hmiss, Hjs, Hb.
  rewrite forecast_run. cbv zeta. rewrite cache_get_run. cbn [cache tick requests].
  rewrite dict_get_set_same, Hfresh. reflexivity.
Qed.
(** X17. A forecast that cannot be fetched is answered with [None] and
    nothing is stored: when the key has no entry, or one older than 300
    seconds, and the request fails or its answer does not parse, the key
    has no entry afterwards (a stale bundle is dropped, not served), the
    other keys are untouched and one request was sent. *)
Theorem failed_forecast_stores_nothing (lat lon : float) (w : World) :
  (forall ts v, dict_get (wx_key lat lon) (cache w) = Some (ts, v) ->
                expired (clock (tick w)) ts = true) ->
  (forall js, forecast_http (requests w) lat lon = Some js ->
              raises (_parse_bundle int_of_text js) = true) ->
  let r := fst (runState (get_forecast_bundle int_of_text clock forecast_http lat lon) w) in
  let w' := snd (runState (get_forecast_bundle int_of_text clock forecast_http lat lon) w) in
  r = CNone /\ dict_get (wx_key lat lon) (cache w') = None /\
  (forall k, k <> wx_key lat lon -> dict_get k (cache w') = dict_get k (cache w)) /\
  requests w' = S (requests w).
Proof.
  intros Hold Hfail r w'. subst r w'. rewrite forecast_run. cbv zeta.
  rewrite cache_get_run.
  destruct (dict_get (wx_key lat lon) (cache w)) as [[ts v]|] eqn:Eg.
  - rewrite (Hold ts v eq_refl). cbn [requests].
    destruct (forecast_http (requests w) lat lon) as [js|] eqn:Ej.
    + specialize (Hfail js eq_refl).
      destruct (_parse_bundle int_of_text js); [discriminate|].
      cbn. repeat split; try apply dict_get_pop_same.
      intros k Hk. now apply dict_get_pop_other.
    + cbn. repeat split; try apply dict_get_pop_same.
      intros k Hk. now apply dict_get_pop_other.
  - destruct (forecast_http (requests w) lat lon) as [js|] eqn:Ej.
    + specialize (Hfail js eq_refl).
      destruct (_parse_bundle int_of_text js); [discriminate|].
      cbn. repeat split; auto.
    + cbn. repeat split; auto.
Qed.

(** X18. A search without results is stored as [None], which the lookup
    reports like a miss: the same query sends a second request even
    within the 300 seconds. *)
Theorem empty_results_asked_again (query : str) (w : World) :
  nonempty query = true ->
  dict_get (geo_key u_lower u_space query) (cache w) = None ->
  geo_http (requests w) query = Some [] ->
  let run2 :=
    runState (first <- geocode_location u_lower u_space float_of_text clock geo_http query ;;
              second <- geocode_location u_lower u_space float_of_text clock geo_http query ;;
              ret (first, second)) w in
  fst (fst run2) = CNone /\
  dict_get (geo_key u_lower u_space query)
           (cache (snd (runState (geocode_location u_lower u_space float_of_text
                                    clock geo_http query) w)))
  = Some (clock (tick w), CNone) /\
  requests (snd run2) = S (S (requests w)).
Proof.
  intros Hq Hmiss Hres run2. subst run2.
  change (runState (first <- geocode_location u_lower u_space float_of_text clock geo_http query ;;
            second <- geocode_location u_lower u_space float_of_text clock geo_http query ;;
            ret (first, second)) w)
    with (let '(first, w1) :=
            runState (geocode_location u_lower u_space float_of_text clock geo_http query) w in
          let '(second, w2) :=
            runState (geocode_location u_lower u_space float_of_text clock geo_http query) w1 in
          ((first, second), w2)).
  rewrite geocode_run, Hq. cbn [negb]. cbv zeta.
  rewrite cache_get_run, Hmiss, Hres.
  split; [|split; [cbn [snd cache]; apply dict_get_set_same|]].
  - rewrite geocode_run, Hq. cbn [negb]. cbv zeta. rewrite cache_get_run.
    cbn [cache tick requests]. rewrite dict_get_set_same.
    destruct (expired (clock (S (tick w))) (clock (tick w)));
      unfold ticked; cbn [cache tick requests];
      (destruct (geo_http (S (requests w)) query) as [[|top rest]|];
       [reflexivity | destruct (geo_of_top float_of_text top); reflexivity | reflexivity]).
  - rewrite geocode_run, Hq. cbn [negb]. cbv zeta. rewrite cache_get_run.
    cbn [cache tick requests]. rewrite dict_get_set_same.
    destruct (expired (clock (S (tick w))) (clock (tick w)));
      unfold ticked; cbn [cache tick requests];
      (destruct (geo_http (S (requests w)) query) as [[|top rest]|];
       [reflexivity | destruct (geo_of_top float_of_text top); reflexivity | reflexivity]).
Qed.

(** ** Keys *)

Lemma geo_key_prefix (query : str) :
  startswith (py "geo:") (geo_key u_lower u_space query) = true /\
  startswith (py "wx:") (geo_key u_lower u_space query) = false.
Proof. split; reflexivity. Qed.

Lemma wx_key_prefix (lat lon : float) :
  startswith (py "wx:") (wx_key lat lon) = true /\
  startswith (py "geo:") (wx_key lat lon) = false.
Proof. split; reflexivity. Qed.

Lemma well_keyed_set (key : str) (ts : float) (v : cached) (w : World) (t r : nat) :
  well_keyed w ->
  match v with
  | CBundle _ => startswith (py "wx:") key = true
  | _ => startswith (py "geo:") key = true
  end ->
  well_keyed {| cache := dict_set key (ts, v) (cache w); tick := t; requests := r |}.
Proof.
  intros Hw Hv k ts' v'. cbn [cache].
  destruct (str_eqb k key) eqn:E.
  - apply str_eqb_eq in E. subst k. rewrite dict_get_set_same.
    intros H. injection H as <- <-. exact Hv.
  - apply str_eqb_neq in E. rewrite dict_get_set_other by assumption. apply Hw.
Qed.

Lemma well_keyed_pop (key : str) (w : World) (t r : nat) :
  well_keyed w ->
  well_keyed {| cache := dict_pop key (cache w); tick := t; requests := r |}.
Proof.
  intros Hw k ts' v'. cbn [cache].
  destruct (str_eqb k key) eqn:E.
  - apply str_eqb_eq in E. subst k. now rewrite dict_get_pop_same.
  - apply str_eqb_neq in E. rewrite dict_get_pop_other by assumption. apply Hw.
Qed.

Lemma well_keyed_same_cache (w : World) (t r : nat) :
  well_keyed w -> well_keyed {| cache := cache w; tick := t; requests := r |}.
Proof. intros Hw k ts v. apply Hw. Qed.

Lemma cache_get_well_keyed (key : str) (w : World) :
  well_keyed w ->
  well_keyed (snd (runState (_cache_get clock key) w)) /\
  match fst (runState (_cache_get clock key) w) with
  | CNone => True
  | CBundle _ => startswith (py "wx:") key = true
  | CGeo _ => startswith (py "geo:") key = true
  end.
Proof.
  intros Hw. rewrite cache_get_run.
  destruct (dict_get key (cache w)) as [[ts v]|] eqn:Eg; [|now split].
  destruct (expired (clock (tick w)) ts); cbn [fst snd].
  - split; [now apply well_keyed_pop | exact I].
  - split; [now apply well_keyed_same_cache|].
    specialize (Hw key ts v Eg). destruct v; auto.
Qed.

Lemma geocode_keeps_keys (query : str) (w : World) :
  well_keyed w ->
  well_keyed (snd (runState (geocode_location u_lower u_space float_of_text clock
                               geo_http query) w)) /\
  forall b, fst (runState (geocode_location u_lower u_space float_of_text clock
                             geo_http query) w) <> CBundle b.
Proof.
  intros Hw. rewrite geocode_run.
  destruct (negb (nonempty query)); [split; [exact Hw | discriminate]|]. cbv zeta.
  destruct (cache_get_well_keyed (geo_key u_lower u_space query) w Hw) as [Hk Hv].
  destruct (runState (_cache_get clock (geo_key u_lower u_space query)) w) as [hit w1].
  cbn [fst snd] in Hk, Hv. destruct hit as [|d|b0].
  - destruct (geo_http (requests w1) query) as [[|top rest]|].
    + split; [|discriminate]. apply well_keyed_set; [assumption | reflexivity].
    + destruct (geo_of_top float_of_text top).
      * split; [|discriminate]. apply well_keyed_set; [assumption | reflexivity].
      * split; [|discriminate]. now apply well_keyed_same_cache.
    + split; [|discriminate]. now apply well_keyed_same_cache.
  - split; [assumption | discriminate].
  - exfalso. now rewrite (proj2 (geo_key_prefix query)) in Hv.
Qed.

Lemma forecast_keeps_keys (lat lon : float) (w : World) :
  well_keyed w ->
  well_keyed (snd (runState (get_forecast_bundle int_of_text clock forecast_http
                               lat lon) w)) /\
  forall d, fst (runState (get_forecast_bundle int_of_text clock forecast_http
                             lat lon) w) <> CGeo d.
Proof.
  intros Hw. rewrite forecast_run. cbv zeta.
  destruct (cache_get_well_keyed (wx_key lat lon) w Hw) as [Hk Hv].
  destruct (runState (_cache_get clock (wx_key lat lon)) w) as [hit w1].
  cbn [fst snd] in Hk, Hv. destruct hit as [|d|b0].
  - destruct (forecast_http (requests w1) lat lon) as [js|].
    + destruct (_parse_bundle int_of_text js).
      * split; [|discriminate]. apply well_keyed_set; [assumption | reflexivity].
      * split; [|discriminate]. now apply well_keyed_same_cache.
    + split; [|discriminate]. now apply well_keyed_same_cache.
  - exfalso. now rewrite (proj2 (wx_key_prefix lat lon)) in Hv.
  - split; [assumption | discriminate].
Qed.

(** X19. The two users of the cache never read each other's entries: the
    keys of the geocoder begin with "geo:" and those of the forecasts
    with "wx:", so from a cache in which every value sits under a key of
    its own kind a geocoding returns [None] or a geocoding value, a
    forecast returns [None] or a bundle, and both leave the cache in that
    state. *)
Theorem cache_kinds_stay_apart (w : World) (query : str) (lat lon : float) :
  well_keyed w ->
  let g := runState (geocode_location u_lower u_space float_of_text clock geo_http query) w in
  let f := runState (get_forecast_bundle int_of_text clock forecast_http lat lon) w in
  geo_key u_lower u_space query <> wx_key lat lon /\
  well_keyed (snd g) /\ (forall b, fst g <> CBundle b) /\
  well_keyed (snd f) /\ (forall d, fst f <> CGeo d).
Proof.
  intros Hw g f. subst g f.
  destruct (geocode_keeps_keys query w Hw) as [H1 H2].
  destruct (forecast_keeps_keys lat lon w Hw) as [H3 H4].
  repeat split; auto.
  intros E. pose proof (proj1 (geo_key_prefix query)) as Hp.
  rewrite E in Hp. now rewrite (proj2 (wx_key_prefix lat lon)) in Hp.
Qed.

(** X20. What a geocoding answers when the cache has no entry: nothing is
    asked for an empty query; of the results only the first is used, and
    it gives the name "name, country", a missing part written "None",
    with both coordinates as floats, stored under the key of the query; a
    first result without a coordinate that [float] accepts gives [None]
    and stores nothing. *)
Theorem geocode_first_result (query : str) (w : World) (top : GeoTop)
    (rest : list GeoTop) :
  runState (geocode_location u_lower u_space float_of_text clock geo_http []) w
  = (CNone, w) /\
  (nonempty query = true ->
   dict_get (geo_key u_lower u_space query) (cache w) = None ->
   geo_http (requests w) query = Some (top :: rest) ->
   let r := fst (runState (geocode_location u_lower u_space float_of_text clock
                             geo_http query) w) in
   let w' := snd (runState (geocode_location u_lower u_space float_of_text clock
                              geo_http query) w) in
   match top_latitude top, top_longitude top with
   | Some la, Some lo =>
       match py_float float_of_text la, py_float float_of_text lo with
       | Ok x, Ok y =>
           r = CGeo {| name := str_of (top_name top) ++ py ", " ++ str_of (top_country top);
                       latitude := x; longitude := y |} /\
           dict_get (geo_key u_lower u_space query) (cache w') = Some (clock (tick w), r)
       | _, _ => r = CNone /\ cache w' = cache w
       end
   | _, _ => r = CNone /\ cache w' = cache w
   end).
Proof.
  split; [reflexivity|].
  intros Hq Hmiss Hres r w'. subst r w'.
  rewrite geocode_run, Hq. cbn [negb]. cbv zeta.
  rewrite cache_get_run, Hmiss, Hres. unfold geo_of_top.
  destruct (top_latitude top) as [la|]; [|now split].
  destruct (top_longitude top) as [lo|]; [|now split].
  destruct (py_float float_of_text la); [|now split].
  destruct (py_float float_of_text lo); [|now split].
  cbn [fst snd cache]. split; [reflexivity | apply dict_get_set_same].
Qed.
End ServiceFacts.
Section ChatFacts.
Set Default Proof Using "Type".
Variable u_lower : str -> str.
Variable u_space : N -> bool.
Variable u_word : N -> bool.
Variable u_fold : N -> list N.
Variable stem : str -> str.
Variable float_of_text : str -> option float.
Variable int_of_text : str -> option Z.
Variable fsum : list float -> float.
Variable clock : nat -> float.
Variable geo_http : nat -> str -> option (list GeoTop).
Variable forecast_http : nat -> float -> float -> option ForecastJson.

Local Abbreviation chat_ := (chat u_lower u_space u_word u_fold stem float_of_text
                               int_of_text fsum clock geo_http forecast_http).
Local Abbreviation answer_ := (answer int_of_text fsum clock forecast_http).
Local Abbreviation geocode_ := (geocode_location u_lower u_space float_of_text clock geo_http).
Local Abbreviation forecast_ := (get_forecast_bundle int_of_text clock forecast_http).
Local Abbreviation interpret_ :=
  (interpret_message u_lower u_space u_word u_fold stem float_of_text).

Lemma answer_run (g : Process) (parsed : Parsed) (place : float * float)
    (label : str) (w : World) :
  runState (answer_ g parsed place label) w =
  let '(bundle, w') := runState (forecast_ (fst place) (snd place)) w in
  (match bundle with
   | CNone => Reply UNAVAILABLE
   | _ =>
       match format_weather_reply fsum (weather_table g) parsed (as_bundle bundle) label with
       | Ok reply => Reply reply
       | Raise e => FormatRaised e
       end
   end, w').
Proof.
  unfold answer. cbn -[get_forecast_bundle format_weather_reply as_bundle].
  destruct (runState (forecast_ (fst place) (snd place)) w) as [bundle w'].
  destruct bundle; try reflexivity;
    destruct (format_weather_reply fsum (weather_table g) parsed _ label); reflexivity.
Qed.

Lemma chat_run (g : Process) (payload : Payload) (last : option str) (w : World) :
  runState (chat_ g payload last) w =
  let msg := strip u_space (match message payload with Some m => m | None => [] end) in
  if negb (nonempty msg) && (is_none (lat payload) || is_none (lon payload)) then
    ((Reply EMPTY_PROMPT, last), w)
  else
    let parsed := interpret_ g (Some msg) last (lat payload) (lon payload) in
    if truthy (error parsed) then ((Reply (str_of (error parsed)), last), w)
    else
      match coords parsed with
      | Some place =>
          let label :=
            if truthy (location_label parsed) then str_of (location_label parsed)
            else YOUR_LOCATION in
          let '(out, w') := runState (answer_ g parsed place label) w in
          ((out, Some label), w')
      | None =>
          let '(geo, w1) :=
            runState (geocode_ (match location_label parsed with
                                | Some l => l | None => [] end)) w in
          match geo with
          | CNone => ((Reply (not_found (str_of (location_label parsed))), last), w1)
          | CGeo data =>
              let '(out, w') :=
                runState (answer_ g parsed (latitude data, longitude data) (name data)) w1 in
              ((out, Some (name data)), w')
          | CBundle _ => ((KeyError, last), w1)
          end
      end.
Proof.
  unfold chat. cbv zeta.
  destruct (negb (nonempty _) && _); [reflexivity|].
  destruct (truthy (error _)); [reflexivity|].
  destruct (coords _) as [place|].
  - cbn -[answer interpret_message strip].
    destruct (runState (answer_ _ _ _ _) w). reflexivity.
  - cbn -[answer interpret_message strip geocode_location].
    destruct (runState (geocode_ _) w) as [geo w1].
    destruct geo; reflexivity.
Qed.

(** X21. A turn that cannot name a place ends before anything is
    fetched: without message and without both coordinates the reply is
    the prompt to type a question, and when neither coordinates nor a
    place resolve it is the prompt for a location; in both cases the
    remembered location, the cache and the counters stay as they were. *)
Theorem chat_asks_before_fetching (g : Process) (payload : Payload)
    (last : option str) (w : World) :
  let msg := strip u_space (match message payload with Some m => m | None => [] end) in
  (msg = [] -> is_none (lat payload) || is_none (lon payload) = true ->
   runState (chat_ g payload last) w = ((Reply EMPTY_PROMPT, last), w)) /\
  (msg <> [] \/ is_none (lat payload) || is_none (lon payload) = false ->
   read_coords float_of_text (lat payload) (lon payload) = None ->
   truthy (_extract_location u_lower u_space u_word u_fold msg) = false ->
   truthy last = false ->
   runState (chat_ g payload last) w = ((Reply LOCATION_PROMPT, last), w)).
Proof.
  intros msg. split.
  - intros Hm Hc. rewrite chat_run. cbv zeta. fold msg. rewrite Hm, Hc. reflexivity.
  - intros Hgo Hc Hx Hl. rewrite chat_run. cbv zeta. fold msg.
    assert (Hfirst : negb (nonempty msg)
                     && (is_none (lat payload) || is_none (lon payload)) = false).
    { destruct Hgo as [Hm | Hn]; [|rewrite Hn; apply andb_false_r].
      destruct msg; [contradiction | reflexivity]. }
    rewrite Hfirst. unfold interpret_message. cbv beta iota.
    replace (strip u_space msg) with msg by (symmetry; apply strip_idempotent).
    rewrite Hc, truthy_py_or, Hx, Hl.
    destruct (_extract_time_window u_lower msg). reflexivity.
Qed.

(** X22. With coordinates that [float] accepts the geocoder is not asked:
    the forecast is fetched for the coordinates as sent, under the place
    named in the message or remembered, or "your location"; that label is
    the remembered location afterwards, whatever the fetch gives. *)
Theorem chat_with_coordinates (g : Process) (payload : Payload)
    (last : option str) (w : World) (place : float * float) :
  read_coords float_of_text (lat payload) (lon payload) = Some place ->
  let msg := strip u_space (match message payload with Some m => m | None => [] end) in
  let parsed := interpret_ g (Some msg) last (lat payload) (lon payload) in
  let named := py_or (_extract_location u_lower u_space u_word u_fold msg) last in
  let label := if truthy named then str_of named else YOUR_LOCATION in
  runState (chat_ g payload last) w =
  ((fst (runState (answer_ g parsed place label) w), Some label),
   snd (runState (answer_ g parsed place label) w)).
Proof.
  intros Hc msg parsed named label. rewrite chat_run. cbv zeta. fold msg. fold parsed.
  assert (Hn : is_none (lat payload) || is_none (lon payload) = false).
  { unfold read_coords in Hc.
    destruct (is_none (lat payload)), (is_none (lon payload)); cbn in Hc;
      try discriminate; reflexivity. }
  rewrite Hn, andb_false_r.
  assert (Hp : error parsed = None /\ coords parsed = Some place /\
               location_label parsed = named).
  { subst parsed. unfold interpret_message. cbv beta iota.
    replace (strip u_space msg) with msg by (symmetry; apply strip_idempotent).
    fold named. rewrite Hc. cbn [negb andb].
    destruct (_extract_time_window u_lower msg). repeat split. }
  destruct Hp as (He & Hco & Hl). rewrite He, Hco, Hl. cbn [truthy].
  fold label. destruct (runState (answer_ g parsed place label) w). reflexivity.
Qed.

(** X23. When the place cannot be geocoded the reply names it as not
    found and the remembered location stays; when it is geocoded but the
    forecast cannot be fetched the reply is that the service is
    unavailable, and the geocoded name is remembered all the same. *)
Theorem chat_lookup_failures (g : Process) (payload : Payload)
    (last : option str) (w : World) :
  let msg := strip u_space (match message payload with Some m => m | None => [] end) in
  let named := py_or (_extract_location u_lower u_space u_word u_fold msg) last in
  let geo := runState (geocode_ (str_of named)) w in
  msg <> [] \/ is_none (lat payload) || is_none (lon payload) = false ->
  read_coords float_of_text (lat payload) (lon payload) = None ->
  truthy named = true ->
  (fst geo = CNone ->
   runState (chat_ g payload last) w = ((Reply (not_found (str_of named)), last), snd geo)) /\
  (forall data, fst geo = CGeo data ->
   fst (runState (forecast_ (latitude data) (longitude data)) (snd geo)) = CNone ->
   runState (chat_ g payload last) w =
   ((Reply UNAVAILABLE, Some (name data)),
    snd (runState (forecast_ (latitude data) (longitude data)) (snd geo)))).
Proof.
  intros msg named geo Hgo Hc Hn. subst geo.
  assert (Hfirst : negb (nonempty msg)
                   && (is_none (lat payload) || is_none (lon payload)) = false).
  { destruct Hgo as [Hm | H0]; [|rewrite H0; apply andb_false_r].
    destruct msg; [contradiction | reflexivity]. }
  assert (Hp : forall parsed,
             parsed = interpret_ g (Some msg) last (lat payload) (lon payload) ->
             error parsed = None /\ coords parsed = None /\ location_label parsed = named).
  { intros parsed ->. unfold interpret_message. cbv beta iota.
    replace (strip u_space msg) with msg by (symmetry; apply strip_idempotent).
    fold named. rewrite Hc, Hn. cbn [negb andb].
    destruct (_extract_time_window u_lower msg). repeat split. }
  assert (Hq : match named with Some l => l | None => [] end = str_of named).
  { destruct named as [[|c l]|]; try discriminate; reflexivity. }
  split.
  - intros Hg. rewrite chat_run. cbv zeta. fold msg. rewrite Hfirst.
    destruct (Hp _ eq_refl) as (He & Hco & Hl). rewrite He, Hco, Hl, Hq. cbn [truthy].
    destruct (runState (geocode_ (str_of named)) w) as [r w1]. cbn [fst snd] in *.
    now subst r.
  - intros data Hg Hf. rewrite chat_run. cbv zeta. fold msg. rewrite Hfirst.
    destruct (Hp _ eq_refl) as (He & Hco & Hl). rewrite He, Hco, Hl, Hq. cbn [truthy].
    destruct (runState (geocode_ (str_of named)) w) as [r w1]. cbn [fst snd] in *.
    subst r. rewrite answer_run. cbn [fst snd].
    destruct (runState (forecast_ (latitude data) (longitude data)) w1) as [b w2].
    cbn [fst snd] in *. now subst b.
Qed.

(** X24. From a cache in which every value sits under a key of its own
    kind, a turn never fails on a cached value of the wrong kind and
    leaves the cache in that state. *)
Theorem chat_keeps_cache_kinds (g : Process) (payload : Payload)
    (last : option str) (w : World) :
  well_keyed w ->
  fst (fst (runState (chat_ g payload last) w)) <> KeyError /\
  well_keyed (snd (runState (chat_ g payload last) w)).
Proof.
  intros Hw. rewrite chat_run. cbv zeta.
  destruct (negb (nonempty _) && _); [split; [discriminate | exact Hw]|].
  destruct (truthy (error _)); [split; [discriminate | exact Hw]|].
  assert (Hanswer : forall parsed place label w0, well_keyed w0 ->
            fst (runState (answer_ g parsed place label) w0) <> KeyError /\
            well_keyed (snd (runState (answer_ g parsed place label) w0))).
  { intros parsed place label w0 Hw0. rewrite answer_run.
    destruct (forecast_keeps_keys int_of_text clock forecast_http
                (fst place) (snd place) w0 Hw0) as [Hk _].
    destruct (runState (forecast_ (fst place) (snd place)) w0) as [b w'].
    cbn [fst snd] in *. split; [|exact Hk].
    destruct b; try discriminate;
      destruct (format_weather_reply fsum (weather_table g) parsed _ label); discriminate. }
  destruct (coords _) as [place|].
  - match goal with
    | |- context [runState (answer_ ?a ?b ?c ?d) w] =>
        destruct (Hanswer b c d w Hw) as [H1 H2];
        destruct (runState (answer_ a b c d) w)
    end. cbn [fst snd] in *. now split.
  - match goal with
    | |- context [runState (geocode_ ?q) w] =>
        destruct (geocode_keeps_keys u_lower u_space float_of_text clock geo_http q w Hw)
          as [Hk Hb];
        destruct (runState (geocode_ q) w) as [geo w1]
    end. cbn [fst snd] in *.
    destruct geo as [|data|b].
    + split; [discriminate | exact Hk].
    + match goal with
      | |- context [runState (answer_ ?a ?b ?c ?d) w1] =>
          destruct (Hanswer b c d w1 Hk) as [H1 H2];
          destruct (runState (answer_ a b c d) w1)
      end. cbn [fst snd] in *. now split.
    + exfalso. now apply (Hb b).
Qed.
(** X25. When the place is geocoded and the forecast fetched, the reply
    is what the formatter makes of the request, the fetched bundle and the
    geocoded name (not the wording of the message), and that name is
    remembered; the turn fails exactly when the formatter raises. *)
Theorem chat_formats_fetched_bundle (g : Process) (payload : Payload)
    (last : option str) (w : World) (data : Geo) (b : Bundle) :
  let msg := strip u_space (match message payload with Some m => m | None => [] end) in
  let parsed := interpret_ g (Some msg) last (lat payload) (lon payload) in
  let named := py_or (_extract_location u_lower u_space u_word u_fold msg) last in
  let geo := runState (geocode_ (str_of named)) w in
  let fetched := runState (forecast_ (latitude data) (longitude data)) (snd geo) in
  msg <> [] \/ is_none (lat payload) || is_none (lon payload) = false ->
  read_coords float_of_text (lat payload) (lon payload) = None ->
  truthy named = true ->
  fst geo = CGeo data -> fst fetched = CBundle b ->
  runState (chat_ g payload last) w =
  ((match format_weather_reply fsum (weather_table g) parsed b (name data) with
    | Ok reply => Reply reply
    | Raise e => FormatRaised e
    end, Some (name data)), snd fetched).
Proof.
  intros msg parsed named geo fetched Hgo Hc Hn Hg Hf. subst geo fetched.
  assert (Hfirst : negb (nonempty msg)
                   && (is_none (lat payload) || is_none (lon payload)) = false).
  { destruct Hgo as [Hm | H0]; [|rewrite H0; apply andb_false_r].
    destruct msg; [contradiction | reflexivity]. }
  assert (Hp : error parsed = None /\ coords parsed = None /\
               location_label parsed = named).
  { subst parsed. unfold interpret_message. cbv beta iota.
    replace (strip u_space msg) with msg by (symmetry; apply strip_idempotent).
    fold named. rewrite Hc, Hn. cbn [negb andb].
    destruct (_extract_time_window u_lower msg). repeat split. }
  assert (Hq : match named with Some l => l | None => [] end = str_of named).
  { destruct named as [[|c l]|]; try discriminate; reflexivity. }
  rewrite chat_run. cbv zeta. fold msg. fold parsed. rewrite Hfirst.
  destruct Hp as (He & Hco & Hl). rewrite He, Hco, Hl, Hq. cbn [truthy].
  destruct (runState (geocode_ (str_of named)) w) as [r w1]. cbn [fst snd] in *.
  subst r. rewrite answer_run. cbn [fst snd].
  destruct (runState (forecast_ (latitude data) (longitude data)) w1) as [r2 w2].
  cbn [fst snd] in *. subst r2. reflexivity.
Qed.
End ChatFacts.
(** ** Dates *)

Lemma days_before_month_succ (y m : Z) :
  (1 <= m)%Z ->
  days_before_month y (m + 1) = (days_before_month y m + days_in_month y m)%Z.
Proof.
  intros Hm. unfold days_before_month.
  replace (Z.to_nat (m + 1) - 1)%nat with (S (Z.to_nat m - 1)) by lia.
  rewrite seq_S, fold_left_app. cbn [fold_left].
  replace (Z.of_nat (1 + (Z.to_nat m - 1))) with m by lia. reflexivity.
Qed.

Lemma days_before_december (y : Z) :
  (days_before_month y 12 + 31 = if is_leap y then 366 else 365)%Z.
Proof.
  unfold days_before_month. cbn [Z.to_nat Pos.to_nat Pos.iter_op Nat.add Nat.sub seq fold_left].
  unfold days_in_month. cbn. destruct (is_leap y); reflexivity.
Qed.

Lemma days_before_year_succ (y : Z) :
  (1 <= y)%Z ->
  (days_before_year (y + 1) = days_before_year y + if is_leap y then 366 else 365)%Z.
Proof.
  intros Hy. unfold days_before_year, is_leap. cbv zeta.
  replace (y + 1 - 1)%Z with y by lia.
  destruct (Z.eqb_spec (y mod 4) 0) as [H4|H4];
    destruct (Z.eqb_spec (y mod 100) 0) as [H100|H100];
    destruct (Z.eqb_spec (y mod 400) 0) as [H400|H400]; cbn [negb andb orb];
    Z.div_mod_to_equations; lia.
Qed.

(** The ordinal of the calendar day after a date is one higher, also
    across the end of a month, of February and of the year. *)
Lemma consecutive_days_differ_by_one (x : Z * Z * Z) (o : Z) :
  date_ordinal x = Some o ->
  x <> (9999, 12, 31)%Z ->
  date_ordinal (next_day x) = Some (o + 1)%Z.
Proof.
  destruct x as [[y m] d]. unfold date_ordinal, next_day.
  destruct ((1 <=? y) && (y <=? 9999) && (1 <=? m) && (m <=? 12)
            && (1 <=? d) && (d <=? days_in_month y m))%Z eqn:Ev; [|discriminate].
  repeat (apply andb_true_iff in Ev as [Ev ?]).
  intros Ho Hlast. injection Ho as <-.
  assert (Hdim : (28 <= days_in_month y m <= 31)%Z).
  { unfold days_in_month.
    repeat match goal with |- context [if ?b then _ else _] => destruct b end; lia. }
  destruct (Z.ltb_spec d (days_in_month y m)) as [Hd | Hd].
  - replace ((1 <=? y) && (y <=? 9999) && (1 <=? m) && (m <=? 12)
             && (1 <=? d + 1) && (d + 1 <=? days_in_month y m))%Z with true
      by (symmetry; repeat (apply andb_true_iff; split); lia).
    f_equal. lia.
  - destruct (Z.ltb_spec m 12) as [Hm | Hm].
    + assert (Hdim' : (28 <= days_in_month y (m + 1) <= 31)%Z).
      { unfold days_in_month.
        repeat match goal with |- context [if ?b then _ else _] => destruct b end; lia. }
      replace ((1 <=? y) && (y <=? 9999) && (1 <=? m + 1) && (m + 1 <=? 12)
               && (1 <=? 1) && (1 <=? days_in_month y (m + 1)))%Z with true
        by (symmetry; repeat (apply andb_true_iff; split); lia).
      f_equal. rewrite days_before_month_succ by lia. lia.
    + assert (m = 12)%Z by lia. subst m.
      assert (d = 31)%Z by (change (days_in_month y 12) with 31%Z in *; lia). subst d.
      assert (Hy : (y < 9999)%Z).
      { destruct (Z.eq_dec y 9999) as [->|]; [contradiction|lia]. }
      replace ((1 <=? y + 1) && (y + 1 <=? 9999) && (1 <=? 1) && (1 <=? 12)
               && (1 <=? 1) && (1 <=? days_in_month (y + 1) 1))%Z with true
        by (symmetry; repeat (apply andb_true_iff; split); cbn; lia).
      f_equal. rewrite days_before_year_succ by lia.
      pose proof (days_before_december y).
      change (days_before_month (y + 1) 1) with 0%Z. lia.
Qed.
Section ParseFacts.
Set Default Proof Using "Type".
Variable int_of_text : str -> option Z.

Lemma ymd_nonempty (s : str) (x : Z * Z * Z) :
  ymd int_of_text s = Some x -> nonempty s = true.
Proof. destruct s; [discriminate | reflexivity]. Qed.

(** X26. A row dated the calendar day after today has day offset 1, also
    across the end of a month or of the year, so it is a row of tomorrow
    for the hourly window; a row whose date, or a bundle whose day, does
    not read as year-month-day has offset 0, like a row of today. *)
Theorem day_offset_of_next_day (today date : str) :
  (forall x o, ymd int_of_text today = Some x -> date_ordinal x = Some o ->
               x <> (9999, 12, 31)%Z ->
               ymd int_of_text date = Some (next_day x) ->
               day_offset int_of_text today date = 1%Z) /\
  (forall x o, ymd int_of_text today = Some x -> date_ordinal x = Some o ->
               ymd int_of_text date = Some x ->
               day_offset int_of_text today date = 0%Z) /\
  (ymd int_of_text today = None \/ ymd int_of_text date = None ->
   day_offset int_of_text today date = 0%Z).
Proof.
  repeat split.
  - intros x o Ht Ho Hlast Hd. unfold day_offset.
    rewrite (ymd_nonempty _ _ Ht), (ymd_nonempty _ _ Hd), Ht, Hd.
    rewrite (consecutive_days_differ_by_one x o Ho Hlast), Ho. cbn [andb]. lia.
  - intros x o Ht Ho Hd. unfold day_offset.
    rewrite (ymd_nonempty _ _ Ht), (ymd_nonempty _ _ Hd), Ht, Hd, Ho. cbn [andb]. lia.
  - intros [H | H]; unfold day_offset; rewrite H;
      destruct (nonempty today && nonempty date); try reflexivity.
    destruct (ymd int_of_text today); reflexivity.
Qed.

Lemma hourly_entry_spec (h : HourlyJson) (today : str) (i : nat) (iso : str)
    (row : Hourly) :
  hourly_entry int_of_text h today i iso = Ok row ->
  hour_part int_of_text iso = Ok (hour row) /\
  date_offset row = day_offset int_of_text today (date_part iso).
Proof.
  unfold hourly_entry.
  destruct (hour_part int_of_text iso) as [hr|]; cbn [bind ret Monad_result]; [|discriminate].
  repeat match goal with
         | |- context [float_or_zero ?xs ?i] =>
             destruct (float_or_zero xs i); cbn [bind ret Monad_result]; [|discriminate]
         | |- context [float_at ?xs ?i ?d] =>
             destruct (float_at xs i d); cbn [bind ret Monad_result]; [|discriminate]
         end.
  intros E. injection E as <-. split; reflexivity.
Qed.

Lemma hourly_from_spec (h : HourlyJson) (today : str) (times : list str) :
  forall i rows, hourly_from int_of_text h today i times = Ok rows ->
    List.length rows = List.length times /\
    forall k iso row, nth_error times k = Some iso -> nth_error rows k = Some row ->
      hour_part int_of_text iso = Ok (hour row) /\
      date_offset row = day_offset int_of_text today (date_part iso).
Proof.
  induction times as [|iso0 times IH]; intros i rows; cbn [hourly_from].
  - intros E. injection E as <-. split; [reflexivity|]. intros [|k]; discriminate.
  - destruct (hourly_entry int_of_text h today i iso0) as [e|] eqn:Ee;
      cbn [bind ret Monad_result]; [|discriminate].
    destruct (hourly_from int_of_text h today (S i) times) as [rest|] eqn:Er;
      cbn [bind ret Monad_result]; [|discriminate].
    intros E. injection E as <-. destruct (IH _ _ Er) as [Hl Hk]. split.
    + cbn. now rewrite Hl.
    + intros [|k] iso row Hi Hr; cbn in Hi, Hr.
      * injection Hi as <-. injection Hr as <-. now apply hourly_entry_spec with h i.
      * eauto.
Qed.

(** X27. A bundle that [_parse_bundle] returns has the current readings
    as sent, the daily entries of the daily part, and one hourly row per
    provider time in the same order, each with the hour read from its
    time and the day offset of its date from today. *)
Theorem parsed_bundle_rows (js : ForecastJson) (b : Bundle) :
  _parse_bundle int_of_text js = Ok b ->
  current b = current_of (j_current js) /\
  daily_list (j_daily js) = Ok (daily b) /\
  List.length (hourly b) = List.length (h_time (j_hourly js)) /\
  forall k iso row,
    nth_error (h_time (j_hourly js)) k = Some iso -> nth_error (hourly b) k = Some row ->
    hour_part int_of_text iso = Ok (hour row) /\
    date_offset row = day_offset int_of_text (today_of js) (date_part iso).
Proof.
  unfold _parse_bundle.
  destruct (daily_list (j_daily js)) as [days|]; cbn [bind ret Monad_result]; [|discriminate].
  destruct (hourly_from int_of_text (j_hourly js) (today_of js) 0 (h_time (j_hourly js)))
    as [rows|] eqn:Er; cbn [bind ret Monad_result]; [|discriminate].
  intros E. injection E as <-. cbn [current daily hourly].
  destruct (hourly_from_spec _ _ _ _ _ Er) as [Hl Hk]. repeat split; auto; eapply Hk; eauto.
Qed.
End ParseFacts.

(** ** The table of weather codes *)

Lemma code_get_listed (table : list (Z * str)) (c : Z) (d : str) :
  NoDup (map fst table) -> In (c, d) table -> code_get table (Some c) = d.
Proof.
  induction table as [|[k v] table IH]; cbn [code_get map fst In]; [contradiction|].
  intros Hnd [E | Hin].
  - injection E as -> ->. now rewrite Z.eqb_refl.
  - inversion Hnd as [|? ? Hk Hnd']; subst.
    destruct (Z.eqb_spec c k) as [->|Hne]; [|now apply IH].
    exfalso. apply Hk. apply in_map_iff. now exists (k, d).
Qed.

Lemma code_get_unlisted (table : list (Z * str)) (code : option Z) :
  (forall c, code = Some c -> ~ In c (map fst table)) ->
  code_get table code = py "unknown".
Proof.
  induction table as [|[k v] table IH]; cbn [code_get map fst In]; [reflexivity|].
  intros H. destruct code as [c|]; [|reflexivity].
  destruct (Z.eqb_spec c k) as [->|Hne].
  - exfalso. apply (H k eq_refl). now left.
  - apply IH. intros c' E Hin. apply (H c' E). now right.
Qed.

Lemma weather_codes_distinct : NoDup (map fst _WEATHER_CODE).
Proof.
  cbn [map fst _WEATHER_CODE].
  repeat (constructor; [cbn [In]; intros H; repeat destruct H as [H | H]; try discriminate H; exact H|]).
  constructor.
Qed.

(** X28. Each of the 28 listed weather codes is rendered by its own
    description, and exactly the other values, a code that is not listed
    or a missing code, are rendered "unknown". *)
Theorem unknown_weather_codes (code : option Z) :
  (forall c d, code = Some c -> In (c, d) _WEATHER_CODE ->
               code_get _WEATHER_CODE code = d /\ d <> py "unknown") /\
  (code_get _WEATHER_CODE code = py "unknown" <->
   forall c, code = Some c -> ~ In c (map fst _WEATHER_CODE)).
Proof.
  assert (Hvals : forall c d, In (c, d) _WEATHER_CODE -> d <> py "unknown").
  { intros c d Hin E. subst d.
    assert (Hb : existsb (fun e => str_eqb (snd e) (py "unknown")) _WEATHER_CODE = true).
    { apply existsb_exists. exists (c, py "unknown"). split; [exact Hin | apply str_eqb_refl]. }
    vm_compute in Hb. discriminate. }
  split.
  - intros c d -> Hin. split; [|now apply Hvals with c].
    apply code_get_listed; [exact weather_codes_distinct | exact Hin].
  - split; [|apply code_get_unlisted].
    intros Hu c -> Hin. apply in_map_iff in Hin as ([k d] & E & Hin). cbn in E. subst k.
    apply (Hvals c d Hin). rewrite <- Hu. symmetry.
    apply code_get_listed; [exact weather_codes_distinct | exact Hin].
Qed.

Section KeyFacts.
Set Default Proof Using "Type".
Variable u_lower : str -> str.
Variable u_space : N -> bool.

Lemma ascii_lower_ascii (c : N) : is_ascii c = true -> is_ascii (ascii_lower c) = true.
Proof.
  unfold is_ascii, ascii_lower, is_upper.
  destruct ((65 <=? c) && (c <=? 90)) eqn:E; [|auto].
  apply andb_true_iff in E as [E1 E2]. apply N.leb_le in E1, E2.
  intros _. apply N.ltb_lt. lia.
Qed.

Lemma ascii_lower_idempotent (c : N) : ascii_lower (ascii_lower c) = ascii_lower c.
Proof.
  unfold ascii_lower, is_upper.
  destruct ((65 <=? c) && (c <=? 90)) eqn:E; [|now rewrite E].
  apply andb_true_iff in E as [E1 E2]. apply N.leb_le in E1, E2.
  replace ((65 <=? c + 32) && (c + 32 <=? 90)) with false; [reflexivity|].
  symmetry. apply andb_false_iff. right. apply N.leb_gt. lia.
Qed.

Lemma ascii_lower_space (c : N) :
  is_ascii c = true -> space u_space (ascii_lower c) = space u_space c.
Proof.
  intros Ha. unfold space. rewrite (ascii_lower_ascii c Ha), Ha.
  unfold ascii_lower, is_upper. destruct ((65 <=? c) && (c <=? 90)) eqn:E; [|reflexivity].
  apply andb_true_iff in E as [E1 E2]. apply N.leb_le in E1, E2.
  unfold ascii_space.
  replace (c + 32 <=? 13) with false by (symmetry; apply N.leb_gt; lia).
  replace (c + 32 <=? 32) with false by (symmetry; apply N.leb_gt; lia).
  replace (c <=? 13) with false by (symmetry; apply N.leb_gt; lia).
  replace (c <=? 32) with false by (symmetry; apply N.leb_gt; lia).
  now rewrite !andb_false_r.
Qed.

Lemma lstrip_map_lower (t : str) :
  forallb is_ascii t = true ->
  lstrip u_space (map ascii_lower t) = map ascii_lower (lstrip u_space t).
Proof.
  induction t as [|c t IH]; [reflexivity|]. cbn [forallb map lstrip].
  intros H. apply andb_true_iff in H as [Hc Ht].
  rewrite (ascii_lower_space c Hc). destruct (space u_space c); [now apply IH | reflexivity].
Qed.

Lemma lstrip_ascii (t : str) :
  forallb is_ascii t = true -> forallb is_ascii (lstrip u_space t) = true.
Proof.
  induction t as [|c t IH]; [reflexivity|]. cbn [forallb lstrip].
  intros H. destruct (space u_space c); [apply andb_true_iff in H as [_ H]; now apply IH|].
  exact H.
Qed.

Lemma strip_ascii (t : str) :
  forallb is_ascii t = true -> forallb is_ascii (strip u_space t) = true.
Proof.
  intros H. unfold strip. rewrite forallb_rev. apply lstrip_ascii.
  rewrite forallb_rev. now apply lstrip_ascii.
Qed.

Lemma strip_map_lower (t : str) :
  forallb is_ascii t = true ->
  strip u_space (map ascii_lower t) = map ascii_lower (strip u_space t).
Proof.
  intros H. unfold strip.
  rewrite lstrip_map_lower by assumption.
  rewrite <- map_rev, lstrip_map_lower, map_rev; [reflexivity|].
  rewrite forallb_rev. now apply lstrip_ascii.
Qed.

Lemma forallb_map_lower (t : str) :
  forallb is_ascii t = true -> forallb is_ascii (map ascii_lower t) = true.
Proof.
  induction t as [|c t IH]; [reflexivity|]. cbn [forallb map].
  intros H. apply andb_true_iff in H as [Hc Ht].
  now rewrite (ascii_lower_ascii c Hc), IH.
Qed.

(** X29. The cache key of a geocoding query ignores the case of ASCII
    letters and whitespace around the query: for an ASCII query, the
    lower-cased query and the stripped query have the key of the query
    itself, so they share one cache entry. *)
Theorem geo_key_normalises (query : str) :
  forallb is_ascii query = true ->
  geo_key u_lower u_space (map ascii_lower query) = geo_key u_lower u_space query /\
  geo_key u_lower u_space (strip u_space query) = geo_key u_lower u_space query.
Proof.
  intros Ha. unfold geo_key, lower.
  rewrite Ha, (forallb_map_lower query Ha), (strip_ascii query Ha). split; f_equal.
  - f_equal. rewrite map_map. apply map_ext. intros c. apply ascii_lower_idempotent.
  - rewrite strip_map_lower by now apply strip_ascii.
    rewrite strip_idempotent. symmetry. now apply strip_map_lower.
Qed.
End KeyFacts.

(* ================================================================== *)
(** * Runs of the further properties *)

Lemma intent_horizon_agree_witness :
  In (_predict_intent_rules no_lower (py "will it snow tomorrow"))
     [py "tomorrow_summary"; py "tomorrow_rain"] /\
  fst (_extract_time_window no_lower (py "will it snow tomorrow")) = py "tomorrow".
Proof.
  assert (H : In (_predict_intent_rules no_lower (py "will it snow tomorrow"))
                 [py "tomorrow_summary"; py "tomorrow_rain"])
    by (left; vm_compute; reflexivity).
  split; [exact H|].
  exact (proj1 (intent_horizon_agree no_lower (py "will it snow tomorrow")) H).
Defined.

Lemma tod_windows_partition_witness :
  exists t hours,
    In t [py "morning"; py "afternoon"; py "evening"; py "night"] /\
    _tod_hours (Some t) = Some hours /\ In morning_row (window hours [morning_row]) /\
    forall t' hours',
      In t' [py "morning"; py "afternoon"; py "evening"; py "night"] ->
      _tod_hours (Some t') = Some hours' -> In morning_row (window hours' [morning_row]) ->
      t' = t.
Proof.
  apply (tod_windows_partition [morning_row] morning_row).
  - left. reflexivity.
  - reflexivity.
  - cbn. lia.
Defined.

Lemma sentiment_only_prefixes_witness :
  sentiment cheerful_week = Some (py "positive") /\
  sentiment cheerful_week <> Some (py "negative") /\
  format_weather_reply fsum_seq _WEATHER_CODE cheerful_week week_bundle (py "Paris") =
  format_weather_reply fsum_seq _WEATHER_CODE (without_sentiment cheerful_week)
    week_bundle (py "Paris") /\
  sentiment gloomy_week = Some (py "negative") /\
  format_weather_reply fsum_seq _WEATHER_CODE gloomy_week week_bundle (py "Paris") =
  with_lead TONE_PREFIX
    (format_weather_reply fsum_seq _WEATHER_CODE (without_sentiment gloomy_week)
       week_bundle (py "Paris")).
Proof.
  assert (H : sentiment cheerful_week <> Some (py "negative")) by (vm_compute; discriminate).
  split; [vm_compute; reflexivity|]. split; [exact H|]. split.
  - exact (proj1 (sentiment_only_prefixes fsum_seq _WEATHER_CODE cheerful_week week_bundle
                    (py "Paris")) H).
  - split; [vm_compute; reflexivity|].
    destruct (proj2 (sentiment_only_prefixes fsum_seq _WEATHER_CODE gloomy_week week_bundle
                       (py "Paris"))) as [E|E]; [|exact E].
    exfalso. vm_compute in E. discriminate E.
Defined.

Lemma guarded_branches_witness :
  horizon rain_tomorrow = py "tomorrow" /\ intent rain_tomorrow = py "tomorrow_rain" /\
  exists r, format_weather_reply fsum_seq _WEATHER_CODE rain_tomorrow week_bundle (py "Paris")
            = Ok r.
Proof.
  assert (Hh : horizon rain_tomorrow = py "tomorrow") by (vm_compute; reflexivity).
  assert (Hi : intent rain_tomorrow = py "tomorrow_rain") by (vm_compute; reflexivity).
  split; [exact Hh|]. split; [exact Hi|].
  exact (proj2 (guarded_branches fsum_seq _WEATHER_CODE rain_tomorrow week_bundle
                  (py "Paris")) Hh Hi).
Defined.

Lemma tod_only_with_matching_rows_witness :
  horizon snow_tomorrow_evening = py "tomorrow" /\
  tod snow_tomorrow_evening = Some (py "evening") /\
  List.length (hourly week_parsed) = 2%nat /\
  (forall hours, _tod_hours (tod snow_tomorrow_evening) = Some hours ->
                 window hours (hourly week_parsed) = []) /\
  format_weather_reply fsum_seq _WEATHER_CODE snow_tomorrow_evening week_parsed (py "Paris") =
  format_weather_reply fsum_seq _WEATHER_CODE (without_tod snow_tomorrow_evening) week_parsed
    (py "Paris").
Proof.
  assert (H : forall hours, _tod_hours (tod snow_tomorrow_evening) = Some hours ->
                            window hours (hourly week_parsed) = []).
  { intros hours Hh. vm_compute in Hh. injection Hh as <-. vm_compute. reflexivity. }
  split; [vm_compute; reflexivity|]. split; [vm_compute; reflexivity|].
  split; [vm_compute; reflexivity|]. split; [exact H|].
  apply (tod_only_with_matching_rows fsum_seq _WEATHER_CODE snow_tomorrow_evening week_parsed
           (py "Paris")).
  right. right. exact H.
Defined.

Lemma missing_value_raises_witness :
  horizon week_request = py "week" /\
  (forallb has_temps (firstn 7 (daily week_bundle)) = true /\
   exists lines, List.length lines = 7%nat /\
     format_weather_reply fsum_seq _WEATHER_CODE week_request week_bundle (py "Paris") =
     Ok (tone_prefix (sentiment week_request) ++
         join nl ((py "**" ++ py "Paris" ++ py "** – 7-day outlook:") :: lines))) \/
  (forallb has_temps (firstn 7 (daily week_bundle)) = false /\
   format_weather_reply fsum_seq _WEATHER_CODE week_request week_bundle (py "Paris") =
   Raise TypeError).
Proof.
  assert (Hh : horizon week_request = py "week") by (vm_compute; reflexivity).
  assert (Hl : (7 <= List.length (daily week_bundle))%nat) by (vm_compute; lia).
  destruct (proj1 (missing_value_raises fsum_seq _WEATHER_CODE week_request week_bundle
                     (py "Paris")) Hh Hl) as [H | H].
  - left. split; [exact Hh | exact H].
  - right. exact H.
Defined.

Lemma daily_list_invariants_witness :
  exists days, daily_list null_tmin_json = Ok days /\
    map date days = firstn 7 (time null_tmin_json) /\ (List.length days <= 7)%nat.
Proof.
  destruct (daily_list null_tmin_json) as [days|e] eqn:E; [|vm_compute in E; discriminate].
  exists days. split; [reflexivity|].
  destruct (proj2 (proj2 (daily_list_invariants null_tmin_json)) days E) as (H1 & H2 & _).
  split; [exact H1 | exact H2].
Defined.

Lemma parsed_week_reply_witness :
  daily_list (j_daily week_json) = Ok (daily week_parsed) /\
  (7 <= List.length (time (j_daily week_json)))%nat /\
  (format_weather_reply fsum_seq _WEATHER_CODE week_request week_parsed (py "Paris")
   = Raise TypeError \/
   exists r, format_weather_reply fsum_seq _WEATHER_CODE week_request week_parsed (py "Paris")
             = Ok r).
Proof.
  assert (Hd : daily_list (j_daily week_json) = Ok (daily week_parsed))
    by (vm_compute; reflexivity).
  assert (Hl : (7 <= List.length (time (j_daily week_json)))%nat) by (vm_compute; lia).
  assert (Hh : horizon week_request = py "week") by (vm_compute; reflexivity).
  split; [exact Hd|]. split; [exact Hl|].
  exact (proj2 (parsed_week_reply fsum_seq _WEATHER_CODE (j_daily week_json)
                  (daily week_parsed) week_request week_parsed (py "Paris")
                  Hd Hl Hh eq_refl)).
Defined.

Lemma reply_reads_its_part_witness :
  horizon humidity_request = py "now" /\
  format_weather_reply fsum_seq _WEATHER_CODE humidity_request week_bundle (py "Paris") =
  format_weather_reply fsum_seq _WEATHER_CODE humidity_request short_bundle (py "Paris").
Proof.
  assert (Hh : horizon humidity_request = py "now") by (vm_compute; reflexivity).
  split; [exact Hh|].
  exact (proj2 (proj2 (reply_reads_its_part fsum_seq _WEATHER_CODE humidity_request
                         week_bundle short_bundle (py "Paris"))) Hh eq_refl).
Defined.

Lemma extracted_location_is_stripped_witness :
  _extract_location no_lower no_class no_class no_fold (py "What's the weather in Tokyo")
  = Some (py "Tokyo") /\
  strip no_class (py "Tokyo") = py "Tokyo".
Proof.
  assert (H : _extract_location no_lower no_class no_class no_fold
                (py "What's the weather in Tokyo") = Some (py "Tokyo"))
    by (vm_compute; reflexivity).
  split; [exact H|].
  exact (proj1 (extracted_location_is_stripped no_lower no_class no_class no_fold
                  (py "What's the weather in Tokyo") (py "Tokyo") H)).
Defined.

Lemma features_are_stem_set_witness :
  In (py "rain") (_features_from_tokens (_preprocess no_lower no_stem (py "Will it rain?"))) /\
  exists tok, In tok (_tokenize no_lower (py "Will it rain?")) /\
              ~ In tok _MIN_STOP /\ py "rain" = no_stem tok.
Proof.
  assert (H : In (py "rain")
                 (_features_from_tokens (_preprocess no_lower no_stem (py "Will it rain?"))))
    by (vm_compute; tauto).
  split; [exact H|].
  exact (proj1 (proj2 (proj2 (features_are_stem_set no_lower no_stem (py "Will it rain?")))
                  (py "rain")) H).
Defined.

Lemma training_features_match_witness :
  In ([py "rain"], py "rain_now")
     (Train.dataset no_lower no_stem [(py "rain_now", [py "is it raining"; py "rain"])]) /\
  In (py "rain_now") (map fst [(py "rain_now", [py "is it raining"; py "rain"])]).
Proof.
  assert (H : In ([py "rain"], py "rain_now")
                 (Train.dataset no_lower no_stem
                    [(py "rain_now", [py "is it raining"; py "rain"])]))
    by (vm_compute; tauto).
  split; [exact H|].
  exact (proj1 (proj2 (training_features_match no_lower no_stem []
                         [(py "rain_now", [py "is it raining"; py "rain"])]) _ _ H)).
Defined.

Lemma cache_round_trip_witness :
  expired (still_clock 1) (still_clock 0) = false /\
  fst (runState (_cache_get still_clock (py "wx:1"))
         (snd (runState (_cache_set still_clock (py "wx:1") (CBundle week_bundle))
                 empty_world)))
  = CBundle week_bundle.
Proof.
  assert (H : expired (still_clock 1) (still_clock 0) = false) by (vm_compute; reflexivity).
  split; [exact H|].
  exact (proj1 (proj1 (cache_round_trip still_clock (py "wx:1") (CBundle week_bundle)
                         empty_world) H)).
Defined.

Lemma forecast_twice_one_request_witness :
  dict_get (wx_key f48_5 f2_5) (cache empty_world) = None /\
  _parse_bundle no_int week_json = Ok week_parsed /\
  runState (first <- run_forecast still_clock forecast_week f48_5 f2_5 ;;
            second <- run_forecast still_clock forecast_week f48_5 f2_5 ;;
            ret (first, second)) empty_world
  = ((CBundle week_parsed, CBundle week_parsed),
     {| cache := dict_set (wx_key f48_5 f2_5) (still_clock 0, CBundle week_parsed) [];
        tick := 2; requests := 1 |}).
Proof.
  assert (Hm : dict_get (wx_key f48_5 f2_5) (cache empty_world) = None) by reflexivity.
  assert (Hp : _parse_bundle no_int week_json = Ok week_parsed) by (vm_compute; reflexivity).
  split; [exact Hm|]. split; [exact Hp|].
  exact (forecast_twice_one_request no_int still_clock forecast_week f48_5 f2_5
           empty_world week_json week_parsed Hm eq_refl Hp eq_refl).
Defined.

Lemma failed_forecast_stores_nothing_witness :
  fst (runState (run_forecast still_clock forecast_down f48_5 f2_5) empty_world) = CNone /\
  requests (snd (runState (run_forecast still_clock forecast_down f48_5 f2_5) empty_world))
  = 1%nat.
Proof.
  assert (H1 : forall ts v, dict_get (wx_key f48_5 f2_5) (cache empty_world) = Some (ts, v) ->
                            expired (still_clock (tick empty_world)) ts = true)
    by (intros ts v H; discriminate).
  assert (H2 : forall js, forecast_down (requests empty_world) f48_5 f2_5 = Some js ->
                          raises (_parse_bundle no_int js) = true)
    by (intros js H; discriminate).
  destruct (failed_forecast_stores_nothing no_int still_clock forecast_down f48_5 f2_5
              empty_world H1 H2) as (Hr & _ & _ & Hq).
  split; [exact Hr | exact Hq].
Defined.

Lemma empty_results_asked_again_witness :
  nonempty (py "Atlantis") = true /\
  requests (snd (runState (first <- run_geocode still_clock geo_nothing (py "Atlantis") ;;
                           second <- run_geocode still_clock geo_nothing (py "Atlantis") ;;
                           ret (first, second)) empty_world)) = 2%nat.
Proof.
  split; [reflexivity|].
  exact (proj2 (proj2 (empty_results_asked_again no_lower no_class no_float still_clock
                         geo_nothing (py "Atlantis") empty_world eq_refl eq_refl eq_refl))).
Defined.

Lemma empty_world_well_keyed : well_keyed empty_world.
Proof. intros k ts v H. discriminate. Qed.

Lemma cache_kinds_stay_apart_witness :
  well_keyed empty_world /\
  forall b, fst (runState (run_geocode still_clock geo_paris (py "Paris")) empty_world)
            <> CBundle b.
Proof.
  split; [exact empty_world_well_keyed|].
  exact (proj1 (proj2 (proj2 (cache_kinds_stay_apart no_lower no_class no_float no_int
                                still_clock geo_paris forecast_week empty_world (py "Paris")
                                f48_5 f2_5 empty_world_well_keyed)))).
Defined.

Lemma geocode_first_result_witness :
  geo_paris (requests empty_world) (py "Paris") = Some [paris_top] /\
  fst (runState (run_geocode still_clock geo_paris (py "Paris")) empty_world) = CGeo paris.
Proof.
  split; [reflexivity|].
  exact (proj1 (proj2 (geocode_first_result no_lower no_class no_float still_clock geo_paris
                         (py "Paris") empty_world paris_top []) eq_refl eq_refl eq_refl)).
Defined.

Lemma chat_asks_before_fetching_witness :
  strip no_class (match message ask_nothing with Some m => m | None => [] end) = [] /\
  runState (run_chat geo_paris forecast_week bare_process ask_nothing (Some (py "Paris")))
           empty_world
  = ((Reply EMPTY_PROMPT, Some (py "Paris")), empty_world).
Proof.
  split; [reflexivity|].
  exact (proj1 (chat_asks_before_fetching no_lower no_class no_class no_fold no_stem no_float
                  no_int fsum_seq still_clock geo_paris forecast_week bare_process
                  ask_nothing (Some (py "Paris")) empty_world) eq_refl eq_refl).
Defined.

Lemma chat_with_coordinates_witness :
  read_coords no_float (lat ask_here) (lon ask_here) = Some (f48_5, f2_5) /\
  snd (fst (runState (run_chat geo_paris forecast_week bare_process ask_here None)
              empty_world))
  = Some YOUR_LOCATION.
Proof.
  assert (H : read_coords no_float (lat ask_here) (lon ask_here) = Some (f48_5, f2_5))
    by (vm_compute; reflexivity).
  split; [exact H|].
  unfold run_chat.
  rewrite (chat_with_coordinates no_lower no_class no_class no_fold no_stem no_float
             no_int fsum_seq still_clock geo_paris forecast_week bare_process ask_here
             None empty_world (f48_5, f2_5) H).
  reflexivity.
Defined.

Lemma chat_lookup_failures_witness :
  fst (runState (run_geocode still_clock geo_nothing (py "Paris")) empty_world) = CNone /\
  fst (runState (run_chat geo_nothing forecast_week bare_process ask_paris None) empty_world)
  = (Reply (not_found (py "Paris")), None).
Proof.
  assert (Hg : fst (runState (run_geocode still_clock geo_nothing (py "Paris")) empty_world)
               = CNone) by (vm_compute; reflexivity).
  split; [exact Hg|].
  unfold run_chat.
  rewrite (proj1 (chat_lookup_failures no_lower no_class no_class no_fold no_stem no_float
                    no_int fsum_seq still_clock geo_nothing forecast_week bare_process
                    ask_paris None empty_world
                    ltac:(left; vm_compute; discriminate)
                    ltac:(vm_compute; reflexivity)
                    ltac:(vm_compute; reflexivity)) Hg).
  reflexivity.
Defined.

Lemma chat_keeps_cache_kinds_witness :
  well_keyed empty_world /\
  well_keyed (snd (runState (run_chat geo_paris forecast_week bare_process ask_paris None)
                     empty_world)).
Proof.
  split; [exact empty_world_well_keyed|].
  exact (proj2 (chat_keeps_cache_kinds no_lower no_class no_class no_fold no_stem no_float
                  no_int fsum_seq still_clock geo_paris forecast_week bare_process
                  ask_paris None empty_world empty_world_well_keyed)).
Defined.

Lemma chat_formats_fetched_bundle_witness :
  fst (runState (run_geocode still_clock geo_paris (py "Paris")) empty_world) = CGeo paris /\
  snd (fst (runState (run_chat geo_paris forecast_week bare_process ask_paris None)
              empty_world))
  = Some (py "Paris, France").
Proof.
  assert (Hg : fst (runState (run_geocode still_clock geo_paris (py "Paris")) empty_world)
               = CGeo paris) by (vm_compute; reflexivity).
  split; [exact Hg|].
  unfold run_chat.
  rewrite (chat_formats_fetched_bundle no_lower no_class no_class no_fold no_stem no_float
             no_int fsum_seq still_clock geo_paris forecast_week bare_process
             ask_paris None empty_world paris week_parsed
             ltac:(left; vm_compute; discriminate)
             ltac:(vm_compute; reflexivity)
             ltac:(vm_compute; reflexivity)
             Hg ltac:(vm_compute; reflexivity)).
  reflexivity.
Defined.

Lemma day_offset_of_next_day_witness :
  ymd no_int (py "2024-02-29") = Some (2024, 2, 29)%Z /\
  ymd no_int (py "2024-03-01") = Some (next_day (2024, 2, 29)%Z) /\
  day_offset no_int (py "2024-02-29") (py "2024-03-01") = 1%Z.
Proof.
  assert (Ht : ymd no_int (py "2024-02-29") = Some (2024, 2, 29)%Z)
    by (vm_compute; reflexivity).
  assert (Hd : ymd no_int (py "2024-03-01") = Some (next_day (2024, 2, 29)%Z))
    by (vm_compute; reflexivity).
  split; [exact Ht|]. split; [exact Hd|].
  refine (proj1 (day_offset_of_next_day no_int (py "2024-02-29") (py "2024-03-01"))
            (2024, 2, 29)%Z 738945%Z Ht _ _ Hd).
  - vm_compute. reflexivity.
  - discriminate.
Defined.

Lemma parsed_bundle_rows_witness :
  _parse_bundle no_int week_json = Ok week_parsed /\
  List.length (hourly week_parsed) = 2%nat /\
  map (fun row => (date_offset row, hour row)) (hourly week_parsed)
  = [(0, 23); (1, 7)]%Z.
Proof.
  assert (H : _parse_bundle no_int week_json = Ok week_parsed) by (vm_compute; reflexivity).
  split; [exact H|].
  destruct (parsed_bundle_rows no_int week_json week_parsed H) as (_ & _ & Hl & _).
  split; [exact Hl | vm_compute; reflexivity].
Defined.

Lemma unknown_weather_codes_witness :
  In (61%Z, py "slight rain") _WEATHER_CODE /\
  code_get _WEATHER_CODE (Some 61%Z) = py "slight rain".
Proof.
  assert (H : In (61%Z, py "slight rain") _WEATHER_CODE) by (vm_compute; tauto).
  split; [exact H|].
  exact (proj1 (proj1 (unknown_weather_codes (Some 61%Z)) 61%Z (py "slight rain") eq_refl H)).
Defined.

Lemma geo_key_normalises_witness :
  forallb is_ascii (py " Paris ") = true /\
  geo_key no_lower no_class (strip no_class (py " Paris ")) = geo_key no_lower no_class (py " Paris ").
Proof.
  assert (H : forallb is_ascii (py " Paris ") = true) by (vm_compute; reflexivity).
  split; [exact H|].
  exact (proj2 (geo_key_normalises no_lower no_class (py " Paris ") H)).
Defined.
